(** * optimum-benchmark: measurement statistics and the torchrun gather step

    A shallow embedding of
      - [optimum_benchmark/trackers/latency.py]  (Latency, Throughput,
        LatencyTracker, LatencyTrainerCallback, LatencyLogitsProcessor),
      - [optimum_benchmark/trackers/energy.py]   (Energy, Efficiency,
        EnergyTracker),
      - [optimum_benchmark/launchers/torchrun/launcher.py]
        (TorchrunLauncher.launch),
      - [optimum_benchmark/backends/transformers_utils.py]
        (fast_weights_init, get_flat_dict, get_flat_artifact_dict,
        extract_transformers_shapes_from_artifacts),
      - [optimum_benchmark/experiment.py]  (run_experiment),
      - [llm_perf/utils.py] and [llm_perf/update_llm_perf_cuda_pytorch.py]
        (errors_handler, is_benchmark_conducted, is_benchmark_supported,
        benchmark_cuda_pytorch),
    and the properties of their aggregation, derivation and error paths.

    Python exceptions are values of [exn]; a call that may raise returns a
    [result].  Numbers are kept behind the interface [PyNumber], which lists
    the operators the source applies to them; [binary64] instantiates it with
    the IEEE 754 double precision floats of CPython. *)

From Stdlib Require Import List String ZArith Bool Lia Arith.
From Stdlib Require Import Floats DecimalString.
Import ListNotations.

Set Implicit Arguments.
Local Open Scope string_scope.
Local Open Scope list_scope.

(* ================================================================== *)
(** ** Exceptions and fallible computations *)

(** The exception classes raised on the modelled paths, with their message. *)
Inductive exn : Type :=
| ValueError (msg : string)
| RuntimeError (msg : string)
| IndexError (msg : string)
| AttributeError (msg : string)
| TypeError (msg : string)
| ZeroDivisionError (msg : string)
| OtherError (cls msg : string).

Inductive result (A : Type) : Type :=
| Ok (a : A)
| Raise (e : exn).

Arguments Ok {A} a.
Arguments Raise {A} e.

Definition bind {A B : Type} (c : result A) (k : A -> result B) : result B :=
  match c with
  | Ok a => k a
  | Raise e => Raise e
  end.

Declare Scope py_scope.
Delimit Scope py_scope with py.
Notation "x <- c ;; k" := (bind c (fun x => k))
  (at level 100, c at next level, right associativity) : py_scope.
Local Open Scope py_scope.

Definition raises {A : Type} (c : result A) : Prop := exists e, c = Raise e.
Definition returns {A : Type} (c : result A) : Prop := exists a, c = Ok a.

(** A comprehension [[f x for x in l]] whose element expression may raise:
    elements are evaluated left to right and the first exception escapes. *)
Fixpoint comprehension {A B : Type} (f : A -> result B) (l : list A)
  : result (list B) :=
  match l with
  | [] => Ok []
  | x :: xs =>
      y <- f x ;;
      ys <- comprehension f xs ;;
      Ok (y :: ys)
  end.

(** [obj.attr] where [obj] may be [None]. *)
Definition getattr {T A : Type} (name : string) (proj : T -> A) (obj : option T)
  : result A :=
  match obj with
  | Some o => Ok (proj o)
  | None => Raise (AttributeError ("'NoneType' object has no attribute '" ++ name ++ "'")%string)
  end.

(** [x is None] *)
Definition is_None {T : Type} (obj : option T) : bool :=
  match obj with
  | None => true
  | Some _ => false
  end.

(** [lst[i]] for a non-negative index. *)
Definition getitem {A : Type} (l : list A) (i : nat) : result A :=
  match nth_error l i with
  | Some a => Ok a
  | None => Raise (IndexError "list index out of range")
  end.

(** [lst[-1]] *)
Definition getitem_last {A : Type} (l : list A) : result A :=
  match l with
  | [] => Raise (IndexError "list index out of range")
  | _ :: _ => getitem l (List.length l - 1)
  end.

(* ================================================================== *)
(** ** Numbers *)

(** [OverflowError]: a result, or an [int] operand, out of the range of the
    floats. *)
Definition OverflowError (msg : string) : exn := OtherError "OverflowError" msg.

(** The operators the source files apply to numeric values.  Rounding stays
    inside the operators.  The three ways in which the operators raise are
    modelled: division by zero in [truediv], a square out of range in
    [py_pow2], and an [int] operand too large for a float in [int_truediv].
    Addition, subtraction and division overflow to infinity without raising,
    as Python's floats do. *)
Class PyNumber (num : Type) : Type := {
  zero : num;                      (* the literal [0] *)
  of_int : Z -> num;               (* an [int] operand that is in range *)
  int_in_range : Z -> bool;        (* whether an [int] operand is in range *)
  add : num -> num -> num;         (* [x + y] *)
  sub : num -> num -> num;         (* [x - y] *)
  div : num -> num -> num;         (* the quotient of [x / y], [y] not zero *)
  pow2 : num -> num;               (* [x ** 2] when it is in range *)
  pow2_in_range : num -> bool;     (* whether [x ** 2] is in range *)
  pow_half : num -> num;           (* [x ** 0.5], for a mean of squares *)
  gtb : num -> num -> bool;        (* [x > y] *)
  eqb : num -> num -> bool         (* [x == y] *)
}.

(** What the proofs use of Python's comparison operators: [>] is a strict
    partial order (comparisons with NaN are false, so nothing more holds on
    floats), and a number above [0] is not equal to [0]. *)
Class PyNumberLaws {num : Type} (N : PyNumber num) : Prop := {
  gtb_irrefl : forall x, gtb x x = false;
  gtb_trans : forall x y z, gtb x y = true -> gtb y z = true -> gtb x z = true;
  gtb_zero_neq : forall x, gtb x zero = true -> eqb x zero = false
}.

Section Numbers.
Context {num : Type} `{PyNumber num}.

(** [x / y]: raises [ZeroDivisionError] when [y == 0]. *)
Definition truediv (x y : num) : result num :=
  if eqb y zero then Raise (ZeroDivisionError "float division by zero")
  else Ok (div x y).

(** [x / n] for an [int] divisor [n], as in [.. / len(values)]: the divisor
    is zero exactly when the integer is.  (The divisors of the source are
    lengths of lists and the constant [1e3], which are in range.) *)
Definition truediv_int (x : num) (n : Z) : result num :=
  if (n =? 0)%Z then Raise (ZeroDivisionError "float division by zero")
  else Ok (div x (of_int n)).

(** [n / y] for an [int] [n] and a float [y]: the [int] is converted first,
    and raises [OverflowError] when it is too large for a float. *)
Definition int_truediv (n : Z) (y : num) : result num :=
  if int_in_range n then truediv (of_int n) y
  else Raise (OverflowError "int too large to convert to float").

(** [x ** 2]: raises [OverflowError] when the square is out of range. *)
Definition py_pow2 (x : num) : result num :=
  if pow2_in_range x then Ok (pow2 x)
  else Raise (OverflowError "(34, 'Numerical result out of range')").

(** [sum(iterable)]: starts from the [int] 0 and adds left to right. *)
Definition py_sum (l : list num) : num := fold_left add l zero.

(** [max(iterable)]: keeps the first item and replaces it by a later item
    only when that item compares greater; an empty iterable raises. *)
Definition py_max (l : list num) : result num :=
  match l with
  | [] => Raise (ValueError "max() arg is an empty sequence")
  | x :: xs => Ok (fold_left (fun m y => if gtb y m then y else m) xs x)
  end.

End Numbers.

(** [len(lst)] as a Python [int]. *)
Definition len {A : Type} (l : list A) : Z := Z.of_nat (List.length l).

(** [sum(lists, [])]: list concatenation, left to right. *)
Definition py_sum_lists {A : Type} (ls : list (list A)) : list A :=
  fold_left (@app A) ls [].

(** [lst[i]] for an [int] index: a negative index counts from the end. *)
Definition getitem_int {A : Type} (l : list A) (i : Z) : result A :=
  let i' := if (i <? 0)%Z then (i + len l)%Z else i in
  if (i' <? 0)%Z || (len l <=? i')%Z
  then Raise (IndexError "list index out of range")
  else getitem l (Z.to_nat i').

(** A slice object [slice(start, stop, step)]; [None] where a bound is left
    out. *)
Record slice : Type := make_slice {
  slice_start : option Z;
  slice_stop : option Z;
  slice_step : option Z
}.

(** One bound of a slice brought into the list, as [slice.indices] does. *)
Definition adjust_bound (length step : Z) (bound : Z) : Z :=
  if (bound <? 0)%Z then
    let b := (bound + length)%Z in
    if (b <? 0)%Z then (if (step <? 0)%Z then (-1)%Z else 0%Z) else b
  else if (length <=? bound)%Z then
    (if (step <? 0)%Z then (length - 1)%Z else length)
  else bound.

(** [slice.indices(length)] with the number of selected items: the first
    index, the step, and how many indices follow each other. *)
Definition slice_indices (sl : slice) (length : Z) : result (Z * Z * nat) :=
  let step := match slice_step sl with Some st => st | None => 1%Z end in
  if (step =? 0)%Z then Raise (ValueError "slice step cannot be zero")
  else
    let start :=
      match slice_start sl with
      | Some st => adjust_bound length step st
      | None => if (step <? 0)%Z then (length - 1)%Z else 0%Z
      end in
    let stop :=
      match slice_stop sl with
      | Some sp => adjust_bound length step sp
      | None => if (step <? 0)%Z then (-1)%Z else length
      end in
    let count :=
      if (step <? 0)%Z then
        (if (stop <? start)%Z then ((start - stop - 1) / (- step) + 1)%Z else 0%Z)
      else
        (if (start <? stop)%Z then ((stop - start - 1) / step + 1)%Z else 0%Z) in
    Ok (start, step, Z.to_nat count).

(** [lst[start:stop:step]] *)
Definition getslice {A : Type} (l : list A) (sl : slice) : result (list A) :=
  ix <- slice_indices sl (len l) ;;
  let '(start, step, count) := ix in
  comprehension
    (fun k => getitem l (Z.to_nat (start + Z.of_nat k * step)))
    (seq 0 count).

(** *** IEEE 754 binary64

    The floats of CPython.  An [int] operand is converted by rounding to the
    nearest float, and is out of range when that rounding overflows.
    [x ** 2] of a finite [x] is out of range when the square overflows; the
    square of an infinity is an infinity and the square of a NaN is a NaN,
    without an error.  CPython computes [x ** 2] and [x ** 0.5] with the
    [pow] of the C library; here they are the correctly rounded product
    [x * x] and square root, from which [pow] can differ in the last place
    when the result is not exact.  The examples of this file that state a
    standard deviation use samples whose squares and roots are exact. *)

Definition float_of_Z (z : Z) : float :=
  SF2Prim (binary_normalize prec emax z 0 false).

#[export] Instance binary64 : PyNumber float := {
  zero := 0%float;
  of_int := float_of_Z;
  int_in_range := fun z => negb (PrimFloat.is_infinity (float_of_Z z));
  add := PrimFloat.add;
  sub := PrimFloat.sub;
  div := PrimFloat.div;
  pow2 := fun x => PrimFloat.mul x x;
  pow2_in_range :=
    fun x => negb (PrimFloat.is_finite x &&
                   PrimFloat.is_infinity (PrimFloat.mul x x));
  pow_half := PrimFloat.sqrt;
  gtb := fun x y => PrimFloat.ltb y x;
  eqb := PrimFloat.eqb
}.

(* ================================================================== *)
(** ** trackers/latency.py: Latency and Throughput *)

Definition LATENCY_UNIT : string := "s".

Module Latency.

Record t (num : Type) : Type := make {
  unit : string;
  mean : num;
  stdev : num;
  values : list num
}.

Section Methods.
Context {num : Type} `{PyNumber num}.

(** The generator [(val - mean) ** 2 for val in values] is consumed by
    [sum], which adds each square as it is produced; an addition does not
    raise, so the squares are taken first and the first one that is out of
    range raises. *)
Definition from_values (values : list num) (unit : string) : result (t num) :=
  mean <- (if (len values >? 0)%Z
           then truediv_int (py_sum values) (len values)
           else Ok zero) ;;
  stdev <- (if (len values >? 1)%Z
            then squares <- comprehension
                              (fun val => py_pow2 (sub val mean)) values ;;
                 q <- truediv_int (py_sum squares) (len values) ;;
                 Ok (pow_half q)
            else Ok zero) ;;
  Ok (make unit mean stdev values).

(** [self - scalar], for a scalar that is a number. *)
Definition __sub__ (self : t num) (scalar : num) : result (t num) :=
  let latencies := map (fun lat => sub lat scalar) (values self) in
  from_values latencies (unit self).

Definition aggregate (latencies : list (option (t num)))
  : result (option (t num)) :=
  if (len latencies =? 0)%Z || forallb is_None latencies then Ok None
  else if existsb is_None latencies
  then Raise (ValueError "Some latency measurements are missing")
  else
    first <- getitem latencies 0 ;;
    unit <- getattr "unit" (@unit num) first ;;
    lists <- comprehension (getattr "values" (@values num)) latencies ;;
    lat <- from_values (py_sum_lists lists) unit ;;
    Ok (Some lat).

(** An index of [__getitem__]: an [int] or a [slice]. *)
Inductive index : Type :=
| Int (i : Z)
| Slice (sl : slice).

Definition __getitem__ (self : t num) (index : index) : result (t num) :=
  match index with
  | Slice sl =>
      selected <- getslice (values self) sl ;;
      from_values selected (unit self)
  | Int i =>
      value <- getitem_int (values self) i ;;
      from_values [value] (unit self)
  end.

End Methods.
End Latency.

Module Throughput.

Record t (num : Type) : Type := make {
  unit : string;
  value : num
}.

Section Methods.
Context {num : Type} `{PyNumber num}.

Definition aggregate (throughputs : list (option (t num))) : result (t num) :=
  if (len throughputs =? 0)%Z
  then Raise (ValueError "No throughput measurements to aggregate")
  else if existsb is_None throughputs
  then Raise (ValueError "Some throughput measurements are missing")
  else
    first <- getitem throughputs 0 ;;
    unit <- getattr "unit" (@unit num) first ;;
    vals <- comprehension (getattr "value" (@value num)) throughputs ;;
    Ok (make unit (py_sum vals)).

Definition from_latency (latency : Latency.t num) (volume : Z) (unit : string)
  : result (t num) :=
  value <- (if gtb (Latency.mean latency) zero
            then int_truediv volume (Latency.mean latency)
            else Ok zero) ;;
  Ok (make unit value).

End Methods.
End Throughput.

(* ================================================================== *)
(** ** trackers/energy.py: Energy and Efficiency *)

Definition ENERGY_UNIT : string := "kWh".

Module Energy.

Record t (num : Type) : Type := make {
  unit : string;
  cpu : num;
  ram : num;
  gpu : num;
  total : num
}.

Section Methods.
Context {num : Type} `{PyNumber num}.

Definition aggregate (energies : list (option (t num)))
  : result (option (t num)) :=
  if (len energies =? 0)%Z || forallb is_None energies then Ok None
  else if existsb is_None energies
  then Raise (ValueError "Some energy measurements are missing")
  else
    cpu <- (xs <- comprehension (getattr "cpu" (@cpu num)) energies ;; py_max xs) ;;
    gpu <- (xs <- comprehension (getattr "gpu" (@gpu num)) energies ;; py_max xs) ;;
    ram <- (xs <- comprehension (getattr "ram" (@ram num)) energies ;; py_max xs) ;;
    total <- (xs <- comprehension (getattr "total" (@total num)) energies ;; py_max xs) ;;
    Ok (Some (make ENERGY_UNIT cpu ram gpu total)).

Definition __sub__ (self other : t num) : result (t num) :=
  if negb (String.eqb (unit self) (unit other))
  then Raise (ValueError "Energy units must match to perform subtraction")
  else Ok (make (unit self)
             (sub (cpu self) (cpu other))
             (sub (ram self) (ram other))
             (sub (gpu self) (gpu other))
             (sub (total self) (total other))).

End Methods.
End Energy.

Module Efficiency.

Record t (num : Type) : Type := make {
  unit : string;
  value : num
}.

Section Methods.
Context {num : Type} `{PyNumber num}.

Definition aggregate (efficiencies : list (option (t num))) : result (t num) :=
  if (len efficiencies =? 0)%Z
  then Raise (ValueError "No efficiency measurements to aggregate")
  else if existsb is_None efficiencies
  then Raise (ValueError "Some efficiency measurements are None")
  else
    first <- getitem efficiencies 0 ;;
    unit <- getattr "unit" (@unit num) first ;;
    vals <- comprehension (getattr "value" (@value num)) efficiencies ;;
    value <- truediv_int (py_sum vals) (len efficiencies) ;;
    Ok (make unit value).

Definition from_energy (energy : Energy.t num) (volume : Z) (unit : string)
  : result (t num) :=
  value <- (if gtb (Energy.total energy) zero
            then int_truediv volume (Energy.total energy)
            else Ok zero) ;;
  Ok (make unit value).

End Methods.
End Efficiency.

(* ================================================================== *)
(** ** trackers/latency.py: LatencyTracker *)

Module LatencyTracker.

(** A time marker: [Union[float, torch.cuda.Event]].  A CUDA event is known
    by the order in which it was recorded on the stream. *)
Inductive marker (num : Type) : Type :=
| HostTime (t : num)
| CudaEvent (id : nat).

Arguments HostTime {num} t.
Arguments CudaEvent {num} id.

Record t (num : Type) : Type := make {
  device : string;
  backend : string;
  distributed : bool;
  start_events : list (marker num);
  end_events : list (marker num);
  start_time : num
}.

(** What the tracker reads from and does to its surroundings: the successive
    readings of [time.perf_counter()], the CUDA events recorded so far with
    the time (in ms) the device reports between two of them, whether
    [torch.distributed] is available and initialised, and the barriers
    passed. *)
Record world (num : Type) : Type := make_world {
  perf_clock : nat -> num;
  ticks : nat;
  cuda_elapsed_ms : nat -> nat -> num;
  recorded : nat;
  dist_initialized : bool;
  barriers : nat
}.

Record state (num : Type) : Type := make_state {
  self : t num;
  env : world num
}.

Section Methods.
Context {num : Type} `{PyNumber num}.

(** Statements of a method: they update the state in place and may raise;
    what was mutated before an exception stays mutated. *)
Definition M (A : Type) : Type := state num -> result A * state num.

Definition ret {A : Type} (a : A) : M A := fun s => (Ok a, s).

Definition bindM {A B : Type} (c : M A) (k : A -> M B) : M B :=
  fun s =>
    match c s with
    | (Ok a, s') => k a s'
    | (Raise e, s') => (Raise e, s')
    end.

Definition lift {A : Type} (c : result A) : M A := fun s => (c, s).

Definition raise {A : Type} (e : exn) : M A := fun s => (Raise e, s).

Definition get_self : M (t num) := fun s => (Ok (self s), s).

Definition get_env : M (world num) := fun s => (Ok (env s), s).

Definition when (b : bool) (c : M Datatypes.unit) : M Datatypes.unit :=
  if b then c else ret tt.

Declare Scope st_scope.
Delimit Scope st_scope with st.
Notation "x <- c ;; k" := (bindM c (fun x => k))
  (at level 100, c at next level, right associativity) : st_scope.
Notation "c ;; k" := (bindM c (fun _ => k))
  (at level 100, right associativity) : st_scope.
Local Open Scope st_scope.

(** [time.perf_counter()] *)
Definition perf_counter : M num :=
  fun s =>
    let w := env s in
    (Ok (perf_clock w (ticks w)),
     make_state (self s)
       (make_world (perf_clock w) (S (ticks w)) (cuda_elapsed_ms w)
          (recorded w) (dist_initialized w) (barriers w))).

(** [torch.distributed.barrier()] *)
Definition barrier : M Datatypes.unit :=
  fun s =>
    let w := env s in
    (Ok tt,
     make_state (self s)
       (make_world (perf_clock w) (ticks w) (cuda_elapsed_ms w)
          (recorded w) (dist_initialized w) (S (barriers w)))).

(** [e = torch.cuda.Event(enable_timing=True); e.record()] *)
Definition cuda_event_record : M (marker num) :=
  fun s =>
    let w := env s in
    (Ok (CudaEvent (recorded w)),
     make_state (self s)
       (make_world (perf_clock w) (ticks w) (cuda_elapsed_ms w)
          (S (recorded w)) (dist_initialized w) (barriers w))).

(** [self.start_events.append(m)] and [self.end_events.append(m)] *)
Definition append_start (m : marker num) : M Datatypes.unit :=
  fun s =>
    let o := self s in
    (Ok tt,
     make_state
       (make (device o) (backend o) (distributed o)
          (start_events o ++ [m]) (end_events o) (start_time o))
       (env s)).

Definition append_end (m : marker num) : M Datatypes.unit :=
  fun s =>
    let o := self s in
    (Ok tt,
     make_state
       (make (device o) (backend o) (distributed o)
          (start_events o) (end_events o ++ [m]) (start_time o))
       (env s)).

(** [self.backend == "pytorch" and self.device == "cuda"] *)
Definition is_pytorch_cuda (o : t num) : bool :=
  String.eqb (backend o) "pytorch" && String.eqb (device o) "cuda".

Definition reset : M Datatypes.unit :=
  fun s =>
    let o := self s in
    let s1 := make_state
                (make (device o) (backend o) (distributed o) [] [] (start_time o))
                (env s) in
    (now <- perf_counter ;;
     fun s2 =>
       let o2 := self s2 in
       (Ok tt,
        make_state
          (make (device o2) (backend o2) (distributed o2)
             (start_events o2) (end_events o2) now)
          (env s2))) s1.

(** [LatencyTracker(device, backend)] in the surroundings [w]: the fields
    are set and [reset()] is called; [start_time] has no value before
    [reset()] gives it one, and [zero] stands there until then. *)
Definition __init__ (device backend : string) (w : world num) : state num :=
  snd (reset
         (make_state
            (make device backend (dist_initialized w) [] [] zero) w)).

(** A generator function with one [yield] and no handler around it: running
    it up to the [yield] gives the statements that follow the [yield]. *)
Definition generator : Type := M (M Datatypes.unit).

Definition yield (rest : M Datatypes.unit) : generator := ret rest.

Definition _pytorch_cuda_latency : generator :=
  start <- cuda_event_record ;;
  append_start start ;;
  yield (
    end_ <- cuda_event_record ;;
    append_end end_).

Definition _cpu_latency : generator :=
  start <- perf_counter ;;
  append_start (HostTime start) ;;
  yield (
    end_ <- perf_counter ;;
    append_end (HostTime end_)).

(** [track]: the branch on backend and device is taken on entry, and
    [yield from] resumes the generator chosen there. *)
Definition track : generator :=
  o <- get_self ;;
  when (distributed o) barrier ;;
  o <- get_self ;;
  resume <- (if is_pytorch_cuda o then _pytorch_cuda_latency else _cpu_latency) ;;
  yield (
    resume ;;
    o <- get_self ;;
    when (distributed o) barrier).

(** [with cm: body] for a [@contextmanager] generator [cm]: [__enter__] runs
    the generator to its [yield]; when [body] raises, [__exit__] throws the
    exception into the generator at the [yield], where nothing catches it,
    and the exception leaves the [with] statement; otherwise [__exit__]
    resumes the generator. *)
Definition with_ (cm : generator) (body : M Datatypes.unit) : M Datatypes.unit :=
  resume <- cm ;;
  body ;;
  resume.

(** [event.synchronize()] *)
Definition synchronize (m : marker num) : result Datatypes.unit :=
  match m with
  | CudaEvent _ => Ok tt
  | HostTime _ =>
      Raise (AttributeError "'float' object has no attribute 'synchronize'")
  end.

(** [start.elapsed_time(end)] *)
Definition elapsed_time (w : world num) (start end_ : marker num) : result num :=
  match start, end_ with
  | CudaEvent i, CudaEvent j => Ok (cuda_elapsed_ms w i j)
  | HostTime _, _ =>
      Raise (AttributeError "'float' object has no attribute 'elapsed_time'")
  | CudaEvent _, HostTime _ =>
      Raise (TypeError "elapsed_time(): argument 'end_event' must be torch.cuda.Event")
  end.

(** [end - start] on markers *)
Definition marker_sub (end_ start : marker num) : result num :=
  match end_, start with
  | HostTime e, HostTime s => Ok (sub e s)
  | _, _ => Raise (TypeError "unsupported operand type(s) for -")
  end.

Definition get_latency : M (Latency.t num) :=
  o <- get_self ;;
  w <- get_env ;;
  latencies_list <-
    (if is_pytorch_cuda o then
       lift (
         last_start <- getitem_last (start_events o) ;;
         _ <- synchronize last_start ;;
         last_end <- getitem_last (end_events o) ;;
         _ <- synchronize last_end ;;
         comprehension
           (fun i =>
              start <- getitem (start_events o) i ;;
              end_ <- getitem (end_events o) i ;;
              ms <- elapsed_time w start end_ ;;
              truediv_int ms 1000)
           (seq 0 (List.length (start_events o))))%py
     else
       lift (
         comprehension
           (fun i =>
              end_ <- getitem (end_events o) i ;;
              start <- getitem (start_events o) i ;;
              marker_sub end_ start)
           (seq 0 (List.length (start_events o))))%py) ;;
  lift (Latency.from_values latencies_list LATENCY_UNIT).

Definition get_throughput (volume : Z) (unit : string) : M (Throughput.t num) :=
  latency <- get_latency ;;
  lift (Throughput.from_latency latency volume unit).

End Methods.

Arguments M num A : clear implicits.
Arguments generator num : clear implicits.

End LatencyTracker.

(* ================================================================== *)
(** ** Statements over a state *)

(** Statements that read and update a state [S] and may raise; what was
    updated before an exception stays updated.  The exceptions modelled are
    instances of [Exception], which [except Exception] catches. *)
Module ST.

Definition M (S A : Type) : Type := S -> result A * S.

Definition ret {S A : Type} (a : A) : M S A := fun s => (Ok a, s).

Definition bind {S A B : Type} (c : M S A) (k : A -> M S B) : M S B :=
  fun s =>
    match c s with
    | (Ok a, s') => k a s'
    | (Raise e, s') => (Raise e, s')
    end.

Definition raise {S A : Type} (e : exn) : M S A := fun s => (Raise e, s).

Definition lift {S A : Type} (c : result A) : M S A := fun s => (c, s).

Definition get {S : Type} : M S S := fun s => (Ok s, s).

Definition modify {S : Type} (f : S -> S) : M S Datatypes.unit :=
  fun s => (Ok tt, f s).

Definition when {S : Type} (b : bool) (c : M S Datatypes.unit)
  : M S Datatypes.unit :=
  if b then c else ret tt.

(** [try: body  except Exception as e: handler(e)] *)
Definition try_except {S A : Type} (body : M S A) (handler : exn -> M S A)
  : M S A :=
  fun s =>
    match body s with
    | (Ok a, s') => (Ok a, s')
    | (Raise e, s') => handler e s'
    end.

(** A generator function with one [yield], stopped at the [yield]: what it
    does when it is resumed, and what it does when an exception is thrown
    into it at the [yield]. *)
Record suspended (S : Type) : Type := make_suspended {
  resume : M S Datatypes.unit;
  throw : exn -> M S Datatypes.unit
}.

Definition generator (S : Type) : Type := M S (suspended S).

(** [yield] with no handler around it: an exception thrown in leaves the
    generator at once. *)
Definition yield {S : Type} (rest : M S Datatypes.unit) : generator S :=
  ret (make_suspended rest (fun e => raise e)).

(** [try: yield  finally: cleanup], followed by [rest]: the cleanup runs on
    both ways out, and an exception thrown in goes on after it. *)
Definition yield_finally {S : Type} (cleanup rest : M S Datatypes.unit)
  : generator S :=
  ret (make_suspended
         (bind cleanup (fun _ => rest))
         (fun e => bind cleanup (fun _ => raise e))).

(** [with cm: body] for a [@contextmanager] generator [cm]. *)
Definition with_ {S : Type} (cm : generator S) (body : M S Datatypes.unit)
  : M S Datatypes.unit :=
  bind cm (fun gen =>
    fun s =>
      match body s with
      | (Ok _, s') => resume gen s'
      | (Raise e, s') => throw gen e s'
      end).

End ST.

Declare Scope st_scope.
Delimit Scope st_scope with st.
Notation "x <- c ;; k" := (ST.bind c (fun x => k))
  (at level 100, c at next level, right associativity) : st_scope.
Notation "c ;; k" := (ST.bind c (fun _ => k))
  (at level 100, right associativity) : st_scope.

(* ================================================================== *)
(** ** trackers/latency.py: the step-wise collectors *)

(** [range(start, stop)] for non-negative bounds. *)
Definition range (start stop : nat) : list nat := seq start (stop - start).

(** [time.perf_counter()] and [torch.cuda.Event(enable_timing=True)] followed
    by [record()], as functions of the surroundings. *)
Definition read_clock {num : Type} (w : LatencyTracker.world num)
  : num * LatencyTracker.world num :=
  (LatencyTracker.perf_clock w (LatencyTracker.ticks w),
   LatencyTracker.make_world (LatencyTracker.perf_clock w)
     (S (LatencyTracker.ticks w)) (LatencyTracker.cuda_elapsed_ms w)
     (LatencyTracker.recorded w) (LatencyTracker.dist_initialized w)
     (LatencyTracker.barriers w)).

Definition record_event {num : Type} (w : LatencyTracker.world num)
  : LatencyTracker.marker num * LatencyTracker.world num :=
  (LatencyTracker.CudaEvent (LatencyTracker.recorded w),
   LatencyTracker.make_world (LatencyTracker.perf_clock w)
     (LatencyTracker.ticks w) (LatencyTracker.cuda_elapsed_ms w)
     (S (LatencyTracker.recorded w)) (LatencyTracker.dist_initialized w)
     (LatencyTracker.barriers w)).

Module LatencyTrainerCallback.

Record t (num : Type) : Type := make {
  device : string;
  backend : string;
  events : list (LatencyTracker.marker num)
}.

Section Methods.
Context {num : Type} `{PyNumber num}.

Definition __init__ (device backend : string) : t num :=
  make device backend [].

Definition reset (self : t num) : t num :=
  make (device self) (backend self) [].

(** [self.device == "cuda" and self.backend == "pytorch"] *)
Definition is_cuda_pytorch (self : t num) : bool :=
  String.eqb (device self) "cuda" && String.eqb (backend self) "pytorch".

(** [self.events.append(m)] *)
Definition append (self : t num) (m : LatencyTracker.marker num) : t num :=
  make (device self) (backend self) (events self ++ [m]).

Definition on_step_begin (self : t num) (w : LatencyTracker.world num)
  : t num * LatencyTracker.world num :=
  if is_cuda_pytorch self then
    let (event, w') := record_event w in
    (append self event, w')
  else
    let (now, w') := read_clock w in
    (append self (LatencyTracker.HostTime now), w').

Definition on_train_end (self : t num) (w : LatencyTracker.world num)
  : t num * LatencyTracker.world num :=
  if is_cuda_pytorch self then
    let (event, w') := record_event w in
    (append self event, w')
  else
    let (now, w') := read_clock w in
    (append self (LatencyTracker.HostTime now), w').

Definition get_latency (self : t num) (w : LatencyTracker.world num)
  : result (Latency.t num) :=
  latencies_list <-
    (if is_cuda_pytorch self then
       comprehension
         (fun i =>
            previous <- getitem (events self) (i - 1) ;;
            current <- getitem (events self) i ;;
            ms <- LatencyTracker.elapsed_time w previous current ;;
            truediv_int ms 1000)
         (range 1 (List.length (events self)))
     else
       comprehension
         (fun i =>
            current <- getitem (events self) i ;;
            previous <- getitem (events self) (i - 1) ;;
            LatencyTracker.marker_sub current previous)
         (range 1 (List.length (events self)))) ;;
  Latency.from_values latencies_list LATENCY_UNIT.

Definition get_throughput (self : t num) (w : LatencyTracker.world num)
           (volume : Z) (unit : string) : result (Throughput.t num) :=
  latency <- get_latency self w ;;
  Throughput.from_latency latency volume unit.

End Methods.
End LatencyTrainerCallback.

Module LatencyLogitsProcessor.

Record t (num : Type) : Type := make {
  device : string;
  backend : string;
  events : list (LatencyTracker.marker num)
}.

Section Methods.
Context {num : Type} `{PyNumber num}.

(** [self.device == "cuda" and self.backend == "pytorch"] *)
Definition is_cuda_pytorch (self : t num) : bool :=
  String.eqb (device self) "cuda" && String.eqb (backend self) "pytorch".

Definition reset (self : t num) (w : LatencyTracker.world num)
  : t num * LatencyTracker.world num :=
  if is_cuda_pytorch self then
    let (event, w') := record_event w in
    (make (device self) (backend self) [event], w')
  else
    let (now, w') := read_clock w in
    (make (device self) (backend self) [LatencyTracker.HostTime now], w').

(** [LatencyLogitsProcessor(device, backend)]: the fields are set and
    [reset()] is called. *)
Definition __init__ (device backend : string) (w : LatencyTracker.world num)
  : t num * LatencyTracker.world num :=
  reset (make device backend []) w.

(** [self(input_ids, scores)]: the scores are handed back as they came. *)
Definition __call__ {Ids Scores : Type} (self : t num)
           (w : LatencyTracker.world num) (input_ids : Ids) (scores : Scores)
  : Scores * t num * LatencyTracker.world num :=
  if is_cuda_pytorch self then
    let (event, w') := record_event w in
    (scores, make (device self) (backend self) (events self ++ [event]), w')
  else
    let (now, w') := read_clock w in
    (scores,
     make (device self) (backend self)
       (events self ++ [LatencyTracker.HostTime now]),
     w').

Definition get_latency (self : t num) (w : LatencyTracker.world num)
  : result (Latency.t num) :=
  latencies_list <-
    (if is_cuda_pytorch self then
       comprehension
         (fun i =>
            previous <- getitem (events self) (i - 1) ;;
            current <- getitem (events self) i ;;
            ms <- LatencyTracker.elapsed_time w previous current ;;
            truediv_int ms 1000)
         (range 1 (List.length (events self)))
     else
       comprehension
         (fun i =>
            current <- getitem (events self) i ;;
            previous <- getitem (events self) (i - 1) ;;
            LatencyTracker.marker_sub current previous)
         (range 1 (List.length (events self)))) ;;
  Latency.from_values latencies_list LATENCY_UNIT.

Definition get_throughput (self : t num) (w : LatencyTracker.world num)
           (volume : Z) (unit : string) : result (Throughput.t num) :=
  latency <- get_latency self w ;;
  Throughput.from_latency latency volume unit.

End Methods.
End LatencyLogitsProcessor.

(* ================================================================== *)
(** ** trackers/energy.py: EnergyTracker *)

(** [s.split(sep)] for a separator of one character. *)
Fixpoint split_on (sep : Ascii.ascii) (s : string) : list string :=
  match s with
  | EmptyString => [EmptyString]
  | String c rest =>
      if Ascii.eqb c sep then EmptyString :: split_on sep rest
      else
        match split_on sep rest with
        | piece :: pieces => String c piece :: pieces
        | [] => [String c EmptyString]
        end
  end.

(** The character [","]. *)
Definition comma : Ascii.ascii := Ascii.ascii_of_nat 44.

Definition POWER_CONSUMPTION_SAMPLING_RATE : Z := 1.

Module EnergyTracker.

(** The [device_ids] argument: [Optional[Union[str, int, List[int]]]], or a
    value of another type. *)
Inductive device_ids_arg : Type :=
| IdsStr (s : string)
| IdsInt (i : Z)
| IdsList (l : list Z)
| IdsNone
| IdsOther.

(** The keyword arguments of the two codecarbon trackers. *)
Record sampler_config : Type := make_config {
  log_level : string;
  tracking_mode : string;
  gpu_ids : list Z;
  allow_multiple_runs : bool;
  output_file : string;
  measure_power_secs : Z;
  country_iso_code : option string
}.

Inductive sampler : Type :=
| EmissionsTracker (config : sampler_config)
| OfflineEmissionsTracker (config : sampler_config).

(** What the constructor reads from its surroundings: whether codecarbon
    and an initialised [torch.distributed] are there, the environment
    variables, the builtin [int] on strings, and whether building each
    codecarbon tracker raises. *)
Record host : Type := make_host {
  codecarbon_available : bool;
  distributed_initialized : bool;
  environ : string -> option string;
  int_of_str : string -> result Z;
  online_raises : sampler_config -> option exn;
  offline_raises : sampler_config -> option exn
}.

(** The fields of codecarbon's [EmissionsData] that the tracker reads. *)
Record EmissionsData (num : Type) : Type := make_data {
  energy_consumed : num;
  cpu_energy : num;
  gpu_energy : num;
  ram_energy : num
}.

Record t (num : Type) : Type := make {
  device : string;
  backend : string;
  device_ids : list Z;
  is_engine : bool;
  is_asynchronous : bool;
  is_distributed : bool;
  emission_tracker : sampler;
  total_energy : option num;
  cpu_energy_ : option num;
  gpu_energy_ : option num;
  ram_energy_ : option num
}.

(** What [track] does to its surroundings: barriers and device
    synchronisations passed, tasks started and stopped on the sampler, the
    record the sampler returns at each stop, and the files written. *)
Record world (num : Type) : Type := make_world {
  barriers : nat;
  synchronizes : nat;
  tasks_started : nat;
  tasks_stopped : nat;
  readings : nat -> EmissionsData num;
  files : list (string * EmissionsData num)
}.

Record state (num : Type) : Type := make_state {
  self : t num;
  env : world num
}.

Section Methods.
Context {num : Type}.

Local Open Scope st_scope.

(** The normalisation of [device_ids] at the head of [__init__]. *)
Definition init_device_ids (h : host) (device : string) (ids : device_ids_arg)
  : result (list Z) :=
  if String.eqb device "cuda" then
    match ids with
    | IdsStr s => comprehension (int_of_str h) (split_on comma s)
    | IdsInt i => Ok [i]
    | IdsList l => Ok l
    | IdsNone =>
        Raise (ValueError
                 "GPU device IDs must be provided for energy tracking on GPUs")
    | IdsOther =>
        Raise (ValueError
                 "GPU device IDs must be a string, an integer, or a list of integers")
    end
  else Ok [].

Definition __init__ (h : host) (backend device : string) (ids : device_ids_arg)
  : result (t num) :=
  let is_engine := String.eqb backend "vllm" || String.eqb backend "tensorrt-llm" in
  let is_asynchronous := String.eqb backend "pytorch" && String.eqb device "cuda" in
  let is_distributed := distributed_initialized h in
  (device_ids <- init_device_ids h device ids ;;
   if negb (codecarbon_available h) then
     Raise (ValueError
              "The library codecarbon is required to run energy benchmark, but is not installed. Please install it through `pip install codecarbon`.")
   else
     let online :=
       make_config "warning" "machine" device_ids true "codecarbon.csv"
         POWER_CONSUMPTION_SAMPLING_RATE None in
     emission_tracker <-
       match online_raises h online with
       | None => Ok (EmissionsTracker online)
       | Some _ =>
           let offline :=
             make_config "warning" "machine" device_ids true "codecarbon.csv"
               POWER_CONSUMPTION_SAMPLING_RATE
               (Some match environ h "COUNTRY_ISO_CODE" with
                     | Some code => code
                     | None => "USA"
                     end) in
           match offline_raises h offline with
           | None => Ok (OfflineEmissionsTracker offline)
           | Some e => Raise e
           end
       end ;;
     Ok (make device backend device_ids is_engine is_asynchronous
           is_distributed emission_tracker None None None None))%py.

Definition barrier : ST.M (state num) Datatypes.unit :=
  ST.modify (fun s =>
    let w := env s in
    make_state (self s)
      (make_world (S (barriers w)) (synchronizes w) (tasks_started w)
         (tasks_stopped w) (readings w) (files w))).

(** [torch.cuda.synchronize()] *)
Definition cuda_synchronize : ST.M (state num) Datatypes.unit :=
  ST.modify (fun s =>
    let w := env s in
    make_state (self s)
      (make_world (barriers w) (S (synchronizes w)) (tasks_started w)
         (tasks_stopped w) (readings w) (files w))).

(** [self.emission_tracker.start_task()] *)
Definition start_task : ST.M (state num) Datatypes.unit :=
  ST.modify (fun s =>
    let w := env s in
    make_state (self s)
      (make_world (barriers w) (synchronizes w) (S (tasks_started w))
         (tasks_stopped w) (readings w) (files w))).

(** [self.emission_tracker.stop_task()] *)
Definition stop_task : ST.M (state num) (EmissionsData num) :=
  fun s =>
    let w := env s in
    (Ok (readings w (tasks_stopped w)),
     make_state (self s)
       (make_world (barriers w) (synchronizes w) (tasks_started w)
          (S (tasks_stopped w)) (readings w) (files w))).

(** [with open(path, "w") as f: dump(asdict(emission_data), f, indent=4)] *)
Definition dump_json (path : string) (emission_data : EmissionsData num)
  : ST.M (state num) Datatypes.unit :=
  ST.modify (fun s =>
    let w := env s in
    make_state (self s)
      (make_world (barriers w) (synchronizes w) (tasks_started w)
         (tasks_stopped w) (readings w)
         ((path, emission_data) ::
          filter (fun f => negb (String.eqb (fst f) path)) (files w)))).

(** The four assignments at the end of [track]. *)
Definition set_energies (emission_data : EmissionsData num)
  : ST.M (state num) Datatypes.unit :=
  ST.modify (fun s =>
    let o := self s in
    make_state
      (make (device o) (backend o) (device_ids o) (is_engine o)
         (is_asynchronous o) (is_distributed o) (emission_tracker o)
         (Some (energy_consumed emission_data))
         (Some (cpu_energy emission_data))
         (Some (gpu_energy emission_data))
         (Some (ram_energy emission_data)))
      (env s)).

Definition track (file_prefix : string) : ST.generator (state num) :=
  s <- ST.get ;;
  ST.when (negb (is_engine (self s)) && is_distributed (self s)) barrier ;;
  s <- ST.get ;;
  ST.when (is_asynchronous (self s)) cuda_synchronize ;;
  start_task ;;
  ST.yield (
    s <- ST.get ;;
    ST.when (negb (is_engine (self s)) && is_distributed (self s)) barrier ;;
    s <- ST.get ;;
    ST.when (is_asynchronous (self s)) cuda_synchronize ;;
    emission_data <- stop_task ;;
    dump_json (file_prefix ++ "_codecarbon.json")%string emission_data ;;
    set_energies emission_data).

(** [get_energy]: the fields are handed over as they are, [None] included. *)
Definition get_energy (self : t num) : Energy.t (option num) :=
  Energy.make ENERGY_UNIT (cpu_energy_ self) (ram_energy_ self)
    (gpu_energy_ self) (total_energy self).

End Methods.
End EnergyTracker.

(* ================================================================== *)
(** ** backends/transformers_utils.py: fast_weights_init *)

(** [for x in l: f(x)] *)
Fixpoint for_each {S A : Type} (l : list A) (f : A -> ST.M S Datatypes.unit)
  : ST.M S Datatypes.unit :=
  match l with
  | [] => ST.ret tt
  | x :: xs => ST.bind (f x) (fun _ => for_each xs f)
  end.

Module FastWeightsInit.

(** The functions that can sit under a name of [torch.nn.init]: the one
    torch defines under a name, [fast_random_tensor], or another one that
    someone put there. *)
Inductive init_function : Type :=
| Torch (name : string)
| fast_random_tensor
| Patched (id : nat).

(** The attributes of the module [torch.nn.init]. *)
Definition namespace : Type := string -> init_function.

(** [TORCH_INIT_FUNCTIONS]: built when the module is imported, from the
    functions torch defines. *)
Definition TORCH_INIT_FUNCTIONS : list (string * init_function) :=
  [("normal_", Torch "normal_");
   ("uniform_", Torch "uniform_");
   ("trunc_normal_", Torch "trunc_normal_");
   ("xavier_normal_", Torch "xavier_normal_");
   ("xavier_uniform_", Torch "xavier_uniform_");
   ("kaiming_normal_", Torch "kaiming_normal_");
   ("kaiming_uniform_", Torch "kaiming_uniform_");
   ("normal", Torch "normal");
   ("uniform", Torch "uniform");
   ("xavier_normal", Torch "xavier_normal");
   ("xavier_uniform", Torch "xavier_uniform");
   ("kaiming_normal", Torch "kaiming_normal");
   ("kaiming_uniform", Torch "kaiming_uniform")].

(** [setattr(torch.nn.init, name, f)] *)
Definition setattr (name : string) (f : init_function)
  : ST.M namespace Datatypes.unit :=
  ST.modify (fun ns n => if String.eqb n name then f else ns n).

Definition fast_weights_init : ST.generator namespace :=
  ST.bind
    (for_each TORCH_INIT_FUNCTIONS
       (fun item =>
          let '(name, init_func) := item in
          ST.when (negb (String.eqb name "uniform_"))
            (setattr name fast_random_tensor)))
    (fun _ =>
       ST.yield_finally
         (for_each TORCH_INIT_FUNCTIONS
            (fun item =>
               let '(name, init_func) := item in
               ST.when (negb (String.eqb name "uniform_"))
                 (setattr name init_func)))
         (ST.ret tt)).

End FastWeightsInit.

(* ================================================================== *)
(** ** llm_perf/utils.py and llm_perf/update_llm_perf_cuda_pytorch.py *)

(** [needle in hay] on strings. *)
Fixpoint contains (needle hay : string) : bool :=
  String.prefix needle hay ||
  match hay with
  | EmptyString => false
  | String _ rest => contains needle rest
  end.

(** [s.replace("/", "--")] *)
Fixpoint replace_slash (s : string) : string :=
  match s with
  | EmptyString => EmptyString
  | String c rest =>
      if Ascii.eqb c (Ascii.ascii_of_nat 47)
      then String (Ascii.ascii_of_nat 45)
             (String (Ascii.ascii_of_nat 45) (replace_slash rest))
      else String c (replace_slash rest)
  end.

Module LlmPerf.

(** A [BenchmarkReport] as this script sees it: the report of a launch, or
    the report [BenchmarkReport.from_list(["error"])] with its [error]
    set. *)
Inductive report (Measured : Type) : Type :=
| Launched (r : Measured)
| ErrorReport (error : string).

Arguments Launched {Measured} r.
Arguments ErrorReport {Measured} error.

(** [errors_handler(error)], on [str(error)]. *)
Definition errors_handler {Measured : Type} (error : string)
  : bool * report Measured :=
  if contains "torch.cuda.OutOfMemoryError" error then
    (true, ErrorReport "CUDA: Out of memory")
  else if contains "gptq" error && contains "assert outfeatures % 32 == 0" error then
    (true, ErrorReport "GPTQ: assert outfeatures % 32 == 0")
  else if contains "gptq" error &&
          contains "assert infeatures % self.group_size == 0" error then
    (true, ErrorReport "GPTQ: assert infeatures % self.group_size == 0")
  else if contains "support Flash Attention 2.0" error then
    (true, ErrorReport "Flash Attention 2.0: not supported yet")
  else if contains
            "support an attention implementation through torch.nn.functional.scaled_dot_product_attention"
            error then
    (true, ErrorReport "SDPA: not supported yet")
  else if contains "FlashAttention only support fp16 and bf16 data type" error then
    (true, ErrorReport "FlashAttention: only support fp16 and bf16 data type")
  else
    (false, ErrorReport ("Unknown error: " ++ error)%string).

Definition is_benchmark_supported (weights_config attn_implementation : string)
  : bool :=
  if String.eqb attn_implementation "flash_attention_2" &&
     String.eqb weights_config "float32"
  then false
  else true.

Section Hub.
(** A benchmark configuration as far as it is compared ([to_dict()]), and
    the report of a launch. *)
Variable Config : Type.
Variable Config_eqb : Config -> Config -> bool.
Variable Measured : Type.

(** What the hub and the launcher answer during one call: loading the
    configuration and the report stored under a subfolder, pushing, and
    launching; an exception is carried by its [str()]. *)
Record host : Type := make_host {
  config_from_pretrained : string -> string -> result Config;
  report_from_pretrained : string -> string -> result Datatypes.unit;
  push_config : result Datatypes.unit;
  launch : Config -> result Measured;
  push_report : report Measured -> result Datatypes.unit;
  str : exn -> string
}.

(** What one call does to the outside, in order. *)
Inductive event : Type :=
| ConfigPushed (subfolder : string) (config : Config)
| BenchmarkLaunched (config : Config)
| ReportPushed (subfolder : string) (r : report Measured).

Definition is_benchmark_conducted (h : host) (benchmark_config : Config)
           (push_repo_id subfolder : string) : bool :=
  match
    (loaded_benchmark_config <-
       config_from_pretrained h push_repo_id subfolder ;;
     if Config_eqb loaded_benchmark_config benchmark_config
     then (_ <- report_from_pretrained h push_repo_id subfolder ;; Ok true)
     else Ok false)%py
  with
  | Ok true => true
  | Ok false => false
  | Raise _ => false
  end.

(** An entry of [WEIGHTS_CONFIGS]: its [torch_dtype], [quant_scheme] and
    [quant_config]. *)
Variable weights : Type.

Local Open Scope st_scope.

Definition emit (e : event) : ST.M (list event) Datatypes.unit :=
  ST.modify (fun trace => trace ++ [e]).

(** [benchmark_cuda_pytorch(model, attn_implementation, weights_config)];
    [make_config] stands for the four configuration constructors
    ([ProcessConfig], [InferenceConfig], [PyTorchConfig], [BenchmarkConfig]),
    which build the configuration from the name, the model, the attention
    implementation and the entry of [WEIGHTS_CONFIGS]; they run outside the
    [try], so an exception of theirs leaves the call. *)
Definition benchmark_cuda_pytorch (h : host)
           (WEIGHTS_CONFIGS : list (string * weights))
           (PUSH_REPO_ID : string)
           (make_config : string -> string -> string -> weights
                          -> result Config)
           (model attn_implementation weights_config : string)
  : ST.M (list event) Datatypes.unit :=
  let benchmark_name := (weights_config ++ "-" ++ attn_implementation)%string in
  let subfolder := (benchmark_name ++ "/" ++ replace_slash model)%string in
  entry <- ST.lift
             match find (fun kv => String.eqb (fst kv) weights_config)
                     WEIGHTS_CONFIGS with
             | Some kv => Ok (snd kv)
             | None => Raise (OtherError "KeyError" weights_config)
             end ;;
  if negb (is_benchmark_supported weights_config attn_implementation)
  then ST.ret tt
  else
    benchmark_config <-
      ST.lift (make_config benchmark_name model attn_implementation entry) ;;
    if is_benchmark_conducted h benchmark_config PUSH_REPO_ID subfolder
    then ST.ret tt
    else
      (ST.lift (push_config h) ;;
       emit (ConfigPushed subfolder benchmark_config) ;;
       ST.try_except
         (emit (BenchmarkLaunched benchmark_config) ;;
          benchmark_report <- ST.lift (launch h benchmark_config) ;;
          ST.lift (push_report h (Launched benchmark_report)) ;;
          emit (ReportPushed subfolder (Launched benchmark_report)))
         (fun error =>
            let '(valid_error, benchmark_report) :=
              errors_handler (str h error) in
            if valid_error
            then (ST.lift (push_report h benchmark_report) ;;
                  emit (ReportPushed subfolder benchmark_report))
            else ST.ret tt)).

End Hub.

Arguments ConfigPushed {Config Measured} subfolder config.
Arguments BenchmarkLaunched {Config Measured} config.
Arguments ReportPushed {Config Measured} subfolder r.

End LlmPerf.

(* ================================================================== *)
(** ** backends/transformers_utils.py: flat dictionaries and shapes *)

Module TransformersUtils.

(** Dictionary keys: the strings of attribute names, and the integers of
    [id2label]. *)
Inductive key : Type :=
| KStr (s : string)
| KInt (z : Z).

Definition key_eqb (a b : key) : bool :=
  match a, b with
  | KStr s, KStr s' => String.eqb s s'
  | KInt z, KInt z' => Z.eqb z z'
  | _, _ => false
  end.

(** The values an artifact holds.  A dictionary is the list of its items in
    insertion order.  [PObject] is an object of any other class; it supports
    neither indexing nor [len]. *)
#[warnings="-register-all"] Inductive pyval : Type :=
| PNone
| PBool (b : bool)
| PInt (z : Z)
| PFloat (f : float)
| PStr (s : string)
| PList (l : list pyval)
| PTuple (l : list pyval)
| PDict (d : list (key * pyval))
| PObject (cls : string).

Definition dict : Type := list (key * pyval).

(** [d[k]] as a lookup, [k in d], [d[k] = v] and [d.update(other)]. *)
Fixpoint get (k : key) (d : dict) : option pyval :=
  match d with
  | [] => None
  | (k', v) :: rest => if key_eqb k' k then Some v else get k rest
  end.

Definition mem (k : key) (d : dict) : bool :=
  match get k d with
  | Some _ => true
  | None => false
  end.

Fixpoint setitem (k : key) (v : pyval) (d : dict) : dict :=
  match d with
  | [] => [(k, v)]
  | (k', v') :: rest =>
      if key_eqb k' k then (k', v) :: rest else (k', v') :: setitem k v rest
  end.

Definition update (d other : dict) : dict :=
  fold_left (fun acc item => setitem (fst item) (snd item) acc) other d.

Definition is_dict (v : pyval) : bool :=
  match v with
  | PDict _ => true
  | _ => false
  end.

(** One turn of the loop of [get_flat_dict], and the function. *)
Fixpoint get_flat_dict_item (k : key) (v : pyval) (flat_dict : dict)
         {struct v} : dict :=
  match v with
  | PDict d =>
      update flat_dict
        ((fix items (d : list (key * pyval)) (flat_dict : dict) {struct d}
            : dict :=
            match d with
            | [] => flat_dict
            | (k, v) :: rest => items rest (get_flat_dict_item k v flat_dict)
            end) d [])
  | _ => setitem k v flat_dict
  end.

Definition get_flat_dict (d : dict) : dict :=
  fold_left (fun flat_dict item =>
               get_flat_dict_item (fst item) (snd item) flat_dict) d [].

(** [isinstance(v, (int, str, float, bool, list, tuple, dict))] *)
Definition is_plain (v : pyval) : bool :=
  match v with
  | PNone | PObject _ => false
  | _ => true
  end.

(** An artifact: a [ProcessorMixin] with its [__dict__] and the objects its
    [attributes] name, an object with [to_dict], or any other object with
    its [__dict__]. *)
#[warnings="-register-all"] Inductive artifact : Type :=
| ProcessorMixin (dict_ : dict) (attributes : list artifact)
| HasToDict (to_dict : dict)
| Plain (dict_ : dict).

Definition plain_items (d : dict) : dict :=
  update [] (filter (fun item => is_plain (snd item)) d).

Fixpoint get_flat_artifact_dict (a : artifact) : dict :=
  match a with
  | ProcessorMixin dict_ attributes =>
      let artifact_dict := update [] (plain_items dict_) in
      let artifact_dict :=
        (fix each (attributes : list artifact) (artifact_dict : dict) : dict :=
           match attributes with
           | [] => artifact_dict
           | attribute :: rest =>
               each rest (update artifact_dict
                                 (get_flat_artifact_dict attribute))
           end) attributes artifact_dict in
      get_flat_dict artifact_dict
  | HasToDict to_dict => get_flat_dict (update [] (plain_items to_dict))
  | Plain dict_ => get_flat_dict (update [] (plain_items dict_))
  end.

(** [v[i]] for a literal index [i >= 0], and [len(v)]. *)
Definition subscript (v : pyval) (i : nat) : result pyval :=
  match v with
  | PList l =>
      match nth_error l i with
      | Some x => Ok x
      | None => Raise (IndexError "list index out of range")
      end
  | PTuple l =>
      match nth_error l i with
      | Some x => Ok x
      | None => Raise (IndexError "tuple index out of range")
      end
  | PStr s =>
      match String.get i s with
      | Some c => Ok (PStr (String c EmptyString))
      | None => Raise (IndexError "string index out of range")
      end
  | PDict d =>
      match get (KInt (Z.of_nat i)) d with
      | Some x => Ok x
      | None => Raise (OtherError "KeyError" "")
      end
  | _ => Raise (TypeError "object is not subscriptable")
  end.

Definition py_len (v : pyval) : result Z :=
  match v with
  | PList l | PTuple l => Ok (Z.of_nat (List.length l))
  | PStr s => Ok (Z.of_nat (String.length s))
  | PDict d => Ok (Z.of_nat (List.length d))
  | _ => Raise (TypeError "object has no len()")
  end.

(** [if src in flat: shapes[dst] = flat[src]] *)
Definition copy (src dst : string) (flat shapes : dict) : dict :=
  match get (KStr src) flat with
  | Some v => setitem (KStr dst) v shapes
  | None => shapes
  end.

(** The dictionary [extract_transformers_shapes_from_artifacts] reads. *)
Definition flat_artifacts_dict (config processor : option artifact) : dict :=
  let flat_artifacts_dict := [] in
  let flat_artifacts_dict :=
    match config with
    | Some config => update flat_artifacts_dict (get_flat_artifact_dict config)
    | None => flat_artifacts_dict
    end in
  match processor with
  | Some processor =>
      update flat_artifacts_dict (get_flat_artifact_dict processor)
  | None => flat_artifacts_dict
  end.

Definition extract_transformers_shapes_from_artifacts
           (config processor : option artifact) : result dict :=
  let flat := flat_artifacts_dict config processor in
  let shapes := [] in
  (* text input *)
  let shapes := copy "vocab_size" "vocab_size" flat shapes in
  let shapes := copy "type_vocab_size" "type_vocab_size" flat shapes in
  let shapes :=
    if mem (KStr "max_position_embeddings") flat
    then copy "max_position_embeddings" "max_position_embeddings" flat shapes
    else copy "n_positions" "max_position_embeddings" flat shapes in
  (* image input *)
  let shapes := copy "num_channels" "num_channels" flat shapes in
  let image_size :=
    match get (KStr "image_size") flat with
    | Some v => v
    | None =>
        match get (KStr "size") flat with
        | Some v => v
        | None => PNone
        end
    end in
  shapes <-
    match image_size with
    | PBool _ | PInt _ | PFloat _ =>
        Ok (setitem (KStr "width") image_size
              (setitem (KStr "height") image_size shapes))
    | PList _ | PTuple _ =>
        height <- subscript image_size 0 ;;
        let shapes := setitem (KStr "height") height shapes in
        width <- subscript image_size 0 ;;
        Ok (setitem (KStr "width") width shapes)
    | PDict d =>
        if Nat.eqb (List.length d) 2 then
          height <- subscript (PList (map snd d)) 0 ;;
          let shapes := setitem (KStr "height") height shapes in
          width <- subscript (PList (map snd d)) 1 ;;
          Ok (setitem (KStr "width") width shapes)
        else if Nat.eqb (List.length d) 1 then
          height <- subscript (PList (map snd d)) 0 ;;
          let shapes := setitem (KStr "height") height shapes in
          width <- subscript (PList (map snd d)) 0 ;;
          Ok (setitem (KStr "width") width shapes)
        else Ok shapes
    | _ => Ok shapes
    end ;;
  shapes <-
    match get (KStr "input_size") flat with
    | Some input_size =>
        num_channels <- subscript input_size 0 ;;
        let shapes := setitem (KStr "num_channels") num_channels shapes in
        height <- subscript input_size 1 ;;
        let shapes := setitem (KStr "height") height shapes in
        width <- subscript input_size 2 ;;
        Ok (setitem (KStr "width") width shapes)
    | None => Ok shapes
    end ;;
  (* classification labels *)
  shapes <-
    match get (KStr "id2label") flat with
    | Some id2label =>
        n <- py_len id2label ;;
        Ok (setitem (KStr "num_labels") (PInt n) shapes)
    | None => Ok (copy "num_classes" "num_labels" flat shapes)
    end ;;
  (* object detection labels *)
  let shapes := copy "num_queries" "num_queries" flat shapes in
  (* image-text input *)
  let shapes := copy "patch_size" "patch_size" flat shapes in
  let shapes := copy "in_chans" "num_channels" flat shapes in
  let shapes := copy "image_seq_len" "image_seq_len" flat shapes in
  let shapes := copy "image_token_id" "image_token_id" flat shapes in
  let shapes := copy "spatial_merge_size" "spatial_merge_size" flat shapes in
  let shapes := copy "do_image_splitting" "do_image_splitting" flat shapes in
  let shapes := copy "temporal_patch_size" "temporal_patch_size" flat shapes in
  Ok shapes.

End TransformersUtils.

(* ================================================================== *)
(** ** experiment.py: [run_experiment] *)

Module Experiment.

(** The calls [run_experiment] makes to the outside, in the order of the
    source. *)
Inductive event : Type :=
| ToObject
| ConfigSaved
| BackendAllocated
| BackendConfigured
| BenchmarkAllocated
| BenchmarkConfigured
| BenchmarkRun
| BenchmarkSaved
| BackendCleaned.

(** How each of these calls ends; [clean n] is the call of [backend.clean()]
    made after [n] earlier ones. *)
Record host : Type := make_host {
  to_object : result Datatypes.unit;
  save_config : result Datatypes.unit;
  backend_factory : result Datatypes.unit;
  backend_configure : result Datatypes.unit;
  benchmark_factory : result Datatypes.unit;
  benchmark_configure : result Datatypes.unit;
  run : result Datatypes.unit;
  save : result Datatypes.unit;
  clean : nat -> result Datatypes.unit
}.

Definition is_clean (e : event) : bool :=
  match e with
  | BackendCleaned => true
  | _ => false
  end.

Local Open Scope st_scope.

(** A call: it is made, then it returns or raises. *)
Definition call (e : event) (outcome : result Datatypes.unit)
  : ST.M (list event) Datatypes.unit :=
  ST.modify (fun trace => trace ++ [e]) ;;
  ST.lift outcome.

Definition backend_clean (h : host) : ST.M (list event) Datatypes.unit :=
  trace <- ST.get ;;
  call BackendCleaned (clean h (List.length (filter is_clean trace))).

Definition run_experiment (h : host) : ST.M (list event) Datatypes.unit :=
  call ToObject (to_object h) ;;
  call ConfigSaved (save_config h) ;;
  call BackendAllocated (backend_factory h) ;;
  ST.try_except
    (call BackendConfigured (backend_configure h))
    (fun e => ST.raise e) ;;
  call BenchmarkAllocated (benchmark_factory h) ;;
  ST.try_except
    (call BenchmarkConfigured (benchmark_configure h))
    (fun e => ST.raise e) ;;
  ST.try_except
    (call BenchmarkRun (run h) ;;
     call BenchmarkSaved (save h) ;;
     backend_clean h)
    (fun e =>
       backend_clean h ;;
       ST.raise e).

End Experiment.

(* ================================================================== *)
(** ** launchers/torchrun/launcher.py: the gather step of [launch] *)

Module TorchrunLauncher.

(** What the parent sees once [isolated_process.join()] has returned: which
    paths are regular files, and the exit code of the isolated process. *)
Record joined : Type := make_joined {
  isfile : string -> bool;
  exitcode : Z
}.

(** [f"benchmark_report_rank_{rank}.json"] *)
Definition report_path (rank : nat) : string :=
  ("benchmark_report_rank_" ++
   NilEmpty.string_of_uint (Nat.to_uint rank) ++ ".json")%string.

(** [f"Process exited with non-zero code {exitcode}."] *)
Definition nonzero_exit_message (code : Z) : string :=
  ("Process exited with non-zero code " ++
   NilZero.string_of_int (Z.to_int code) ++ ".")%string.

Section Launch.
(** [BenchmarkReport] lives in [report.py], outside the files at hand: its
    loader and its aggregation are taken as they come, and either may raise. *)
Variable BenchmarkReport : Type.
Variable from_json : string -> result BenchmarkReport.
Variable BenchmarkReport_aggregate : list BenchmarkReport -> result BenchmarkReport.

(** The statements of [launch] after the [with device_isolation_context]
    block, for [self.config.nproc_per_node = nproc_per_node].  The calls to
    [LOGGER.info] and [report.log()] are left out: they do not change what
    is returned. *)
Definition launch (nproc_per_node : nat) (after_join : joined)
  : result BenchmarkReport :=
  if forallb (fun rank => isfile after_join (report_path rank))
       (seq 0 nproc_per_node)
  then
    reports <- comprehension (fun rank => from_json (report_path rank))
                 (seq 0 nproc_per_node) ;;
    report <- BenchmarkReport_aggregate reports ;;
    Ok report
  else if negb (exitcode after_join =? 0)%Z
  then Raise (RuntimeError (nonzero_exit_message (exitcode after_join)))
  else Raise (RuntimeError "Could not retrieve report from isolated process.").

End Launch.
End TorchrunLauncher.

(* ================================================================== *)
(** * The vocabulary of the properties *)

Section Vocabulary.
Context {num : Type} {N : PyNumber num}.

(** [m] is a maximum of [l]: it is an element of [l] and no element of [l]
    compares greater. *)
Definition is_maximum_of (m : num) (l : list num) : Prop :=
  In m l /\ Forall (fun x => gtb x m = false) l.

(** The statistics in the words of the specification: the mean is
    [sum(values) / len(values)], and the population standard deviation is the
    square root of the mean of the squared deviations from the mean. *)
Definition arithmetic_mean (values : list num) : num :=
  div (py_sum values) (of_int (len values)).

Definition population_stdev (values : list num) : num :=
  pow_half
    (arithmetic_mean
       (map (fun val => pow2 (sub val (arithmetic_mean values))) values)).

(** The square of the deviation of every sample from the mean is in
    range. *)
Definition deviations_in_range (values : list num) : bool :=
  forallb (fun val => pow2_in_range (sub val (arithmetic_mean values))) values.

(** C5 as stated: on every non-empty list [from_values] returns, with the
    mean and the population standard deviation of the samples. *)
Definition from_values_returns_statistics : Prop :=
  forall (values : list num) (unit : string),
    values <> [] ->
    exists lat,
      Latency.from_values values unit = Ok lat /\
      Latency.mean lat = arithmetic_mean values /\
      (2 <= List.length values ->
       Latency.stdev lat = population_stdev values) /\
      (List.length values < 2 -> Latency.stdev lat = zero).

(** C2 as stated, for present inputs: [Latency.aggregate] returns a Latency
    that holds the concatenation of the inputs' values. *)
Definition aggregate_returns_concatenation : Prop :=
  forall (l : Latency.t num) (ls : list (Latency.t num)),
    exists lat,
      Latency.aggregate (map Some (l :: ls)) = Ok (Some lat) /\
      Latency.values lat = List.concat (map (@Latency.values num) (l :: ls)).

(** C9 as stated: on every non-empty list of present inputs each
    aggregation returns, with the unit of the first input. *)
Definition aggregates_return_first_unit : Prop :=
  (forall (l : Latency.t num) (ls : list (Latency.t num)),
      exists lat,
        Latency.aggregate (map Some (l :: ls)) = Ok (Some lat) /\
        Latency.unit lat = Latency.unit l) /\
  (forall (t : Throughput.t num) (ts : list (Throughput.t num)),
      exists r,
        Throughput.aggregate (map Some (t :: ts)) = Ok r /\
        Throughput.unit r = Throughput.unit t) /\
  (forall (e : Efficiency.t num) (es : list (Efficiency.t num)),
      exists r,
        Efficiency.aggregate (map Some (e :: es)) = Ok r /\
        Efficiency.unit r = Efficiency.unit e).

(** The rates as the specification words them: 0 when the divisor equals 0,
    and the volume divided by the divisor otherwise. *)
Definition rate_zero_or_quotient (volume : Z) (divisor : num) : num :=
  if eqb divisor zero then zero else div (of_int volume) divisor.

(** C8 as stated. *)
Definition rates_divide_unless_zero : Prop :=
  (forall (latency : Latency.t num) (volume : Z) (unit : string),
      Throughput.from_latency latency volume unit =
      Ok (Throughput.make unit
            (rate_zero_or_quotient volume (Latency.mean latency)))) /\
  (forall (energy : Energy.t num) (volume : Z) (unit : string),
      Efficiency.from_energy energy volume unit =
      Ok (Efficiency.make unit
            (rate_zero_or_quotient volume (Energy.total energy)))).

(** The body of a region leaves the tracker itself alone. *)
Definition leaves_tracker_alone (body : LatencyTracker.M num Datatypes.unit)
  : Prop :=
  forall s, LatencyTracker.self (snd (body s)) = LatencyTracker.self s.

(** The state after the regions [with tracker.track(): body], one after the
    other, each left by a return or by an exception of its body. *)
Definition regions (bodies : list (LatencyTracker.M num Datatypes.unit))
           (s : LatencyTracker.state num) : LatencyTracker.state num :=
  fold_left
    (fun s body => snd (LatencyTracker.with_ LatencyTracker.track body s))
    bodies s.

(** C10 as stated: on the host-clock path a tracker none of whose regions
    was completed (each body raised) returns the empty Latency from
    [get_latency], and value 0 from [get_throughput]. *)
Definition zero_completed_regions_give_empty_latency : Prop :=
  forall (device backend : string) (w : LatencyTracker.world num)
         (bodies : list (LatencyTracker.M num Datatypes.unit)),
    String.eqb backend "pytorch" && String.eqb device "cuda" = false ->
    Forall leaves_tracker_alone bodies ->
    Forall (fun body => forall s, exists e, fst (body s) = Raise e) bodies ->
    let s := regions bodies (LatencyTracker.__init__ device backend w) in
    fst (LatencyTracker.get_latency s) =
    Ok (Latency.make LATENCY_UNIT zero zero []) /\
    forall (volume : Z) (unit : string),
      fst (LatencyTracker.get_throughput volume unit s) =
      Ok (Throughput.make unit zero).

(** C7 as stated, for a body that leaves the tracker itself alone: the
    exception comes out unchanged, no end marker is added, and
    [get_latency] answers as it did before the region was entered. *)
Definition failed_region_leaves_no_trace : Prop :=
  forall (s0 : LatencyTracker.state num)
         (body : LatencyTracker.M num Datatypes.unit)
         (e : exn) (s2 : LatencyTracker.state num),
    let entered := snd (LatencyTracker.track s0) in
    body entered = (Raise e, s2) ->
    LatencyTracker.self s2 = LatencyTracker.self entered ->
    LatencyTracker.with_ LatencyTracker.track body s0 = (Raise e, s2) /\
    LatencyTracker.end_events (LatencyTracker.self s2) =
    LatencyTracker.end_events (LatencyTracker.self s0) /\
    fst (LatencyTracker.get_latency s2) = fst (LatencyTracker.get_latency s0).

End Vocabulary.

Section GatherVocabulary.
Variable BenchmarkReport : Type.
Variable from_json : string -> result BenchmarkReport.
Variable BenchmarkReport_aggregate : list BenchmarkReport -> result BenchmarkReport.

(** [all(os.path.isfile(...) for rank in range(nproc_per_node))] *)
Definition all_reports_exist (nproc_per_node : nat)
           (after_join : TorchrunLauncher.joined) : bool :=
  forallb
    (fun rank =>
       TorchrunLauncher.isfile after_join (TorchrunLauncher.report_path rank))
    (seq 0 nproc_per_node).

(** C4 as stated: a non-zero exit code of the isolated process always makes
    [launch] raise. *)
Definition nonzero_exit_always_raises : Prop :=
  forall (nproc_per_node : nat) (after_join : TorchrunLauncher.joined),
    TorchrunLauncher.exitcode after_join <> 0%Z ->
    raises (TorchrunLauncher.launch from_json BenchmarkReport_aggregate
              nproc_per_node after_join).

End GatherVocabulary.

(** ** Inputs of the examples *)

(** The specification's example for Energy: E1 = (cpu=1, gpu=2, ram=1,
    total=4) and E2 = (cpu=3, gpu=1, ram=2, total=6). *)
Definition example_E1 : Energy.t float :=
  {| Energy.unit := ENERGY_UNIT; Energy.cpu := 1%float; Energy.ram := 1%float;
     Energy.gpu := 2%float; Energy.total := 4%float |}.

Definition example_E2 : Energy.t float :=
  {| Energy.unit := ENERGY_UNIT; Energy.cpu := 3%float; Energy.ram := 2%float;
     Energy.gpu := 1%float; Energy.total := 6%float |}.

(** The specification's example for Latency: A.values = [1, 2] and
    B.values = [3]; the means stored in A and B are wrong on purpose. *)
Definition example_A : Latency.t float :=
  {| Latency.unit := "s"; Latency.mean := 100%float; Latency.stdev := 0%float;
     Latency.values := [1%float; 2%float] |}.

Definition example_B : Latency.t float :=
  {| Latency.unit := "s"; Latency.mean := 200%float; Latency.stdev := 0%float;
     Latency.values := [3%float] |}.

(** The Latency of one sample of 1 s from which a bias of 3 s was subtracted
    ([Latency.__sub__]): its mean is -2. *)
Definition negative_latency : Latency.t float :=
  {| Latency.unit := "s"; Latency.mean := (-2)%float; Latency.stdev := 0%float;
     Latency.values := [(-2)%float] |}.

(** The Energy [example_E1 - example_E2] ([Energy.__sub__]): its total
    is -2. *)
Definition negative_energy : Energy.t float :=
  {| Energy.unit := ENERGY_UNIT; Energy.cpu := (-2)%float;
     Energy.ram := (-1)%float; Energy.gpu := 1%float;
     Energy.total := (-2)%float |}.

(** A host on which [perf_counter()] reads 0, 1, 2, ... seconds, with no
    distributed process group. *)
Definition example_world : LatencyTracker.world float :=
  {| LatencyTracker.perf_clock := fun n => float_of_Z (Z.of_nat n);
     LatencyTracker.ticks := 0;
     LatencyTracker.cuda_elapsed_ms := fun _ _ => 0%float;
     LatencyTracker.recorded := 0;
     LatencyTracker.dist_initialized := false;
     LatencyTracker.barriers := 0 |}.

(** A fresh tracker on the host-clock path. *)
Definition example_tracker : LatencyTracker.state float :=
  LatencyTracker.__init__ "cpu" "pytorch" example_world.

(** A body that raises at once. *)
Definition example_failing_body : LatencyTracker.M float Datatypes.unit :=
  LatencyTracker.raise (OtherError "KeyError" "missing input").

(** A stand-in for [report.py]: a report is the list of the files it was
    built from; loading never fails and aggregation concatenates. *)
Definition example_from_json (path : string) : result (list string) := Ok [path].

Definition example_aggregate (reports : list (list string)) : result (list string) :=
  Ok (List.concat reports).

(** Three ranks expected; the reports of ranks 0 and 1 exist, the report of
    rank 2 was not written. *)
Definition example_two_of_three (code : Z) : TorchrunLauncher.joined :=
  {| TorchrunLauncher.isfile :=
       fun path => String.eqb path "benchmark_report_rank_0.json" ||
                   String.eqb path "benchmark_report_rank_1.json";
     TorchrunLauncher.exitcode := code |}.

(* ================================================================== *)
(** * Properties *)

(** ** Lists of optional measurements *)

Lemma comprehension_present {T A : Type} (name : string) (proj : T -> A)
      (l : list T) :
  comprehension (getattr name proj) (map Some l) = Ok (map proj l).
Proof.
  induction l as [| x l IH]; cbn [map comprehension getattr bind].
  - reflexivity.
  - rewrite IH. reflexivity.
Qed.

Lemma comprehension_raises {A B : Type} (f : A -> result B) (l : list A) (x : A) :
  In x l -> raises (f x) -> raises (comprehension f l).
Proof.
  induction l as [| y l IH]; intros Hin [e He]; [destruct Hin |].
  cbn [comprehension bind]. destruct Hin as [-> | Hin].
  - rewrite He. now exists e.
  - destruct (f y) as [b | e']; [| now exists e'].
    destruct (IH Hin (ex_intro _ e He)) as [e' He']. rewrite He'. now exists e'.
Qed.

Lemma comprehension_first_raise {A B : Type} (f : A -> result B)
      (before after : list A) (x : A) (e : exn) :
  (forall y, In y before -> returns (f y)) ->
  f x = Raise e ->
  comprehension f (before ++ x :: after) = Raise e.
Proof.
  intros Hbefore Hx. induction before as [| y before IH].
  - cbn [app comprehension]. now rewrite Hx.
  - cbn [app comprehension].
    destruct (Hbefore y (or_introl eq_refl)) as [b ->]. cbn [bind].
    rewrite IH; [reflexivity |]. intros z Hz. apply Hbefore. now right.
Qed.

Lemma comprehension_length {A B : Type} (f : A -> result B) (l : list A)
      (ys : list B) :
  comprehension f l = Ok ys -> List.length ys = List.length l.
Proof.
  revert ys. induction l as [| x l IH]; cbn [comprehension bind]; intros ys Hys.
  - injection Hys as <-. reflexivity.
  - destruct (f x) as [y |]; [| discriminate].
    destruct (comprehension f l) as [ys' |]; [| discriminate].
    injection Hys as <-. cbn. now rewrite (IH ys').
Qed.

Lemma existsb_None_present {T : Type} (l : list T) :
  existsb is_None (map Some l) = false.
Proof. induction l as [| x l IH]; [reflexivity | exact IH]. Qed.

Lemma existsb_None_In {T : Type} (l : list (option T)) :
  existsb is_None l = true <-> In None l.
Proof.
  rewrite existsb_exists. split.
  - intros [[x |] [Hin Hx]]; [discriminate | exact Hin].
  - intros Hin. exists None. now split.
Qed.

Lemma forallb_None_In {T : Type} (l : list (option T)) (x : T) :
  In (Some x) l -> forallb is_None l = false.
Proof.
  intros Hin. destruct (forallb is_None l) eqn:E; [| reflexivity].
  rewrite forallb_forall in E. discriminate (E _ Hin).
Qed.

(** A list of optional values either holds a [None] or is a list of
    present values. *)
Lemma all_present_or_missing {T : Type} (l : list (option T)) :
  (exists l', l = map Some l') \/ In None l.
Proof.
  induction l as [| [x |] l IH].
  - left. now exists [].
  - destruct IH as [[l' ->] | Hin].
    + left. now exists (x :: l').
    + right. now right.
  - right. now left.
Qed.

Lemma len_cons_eqb {A : Type} (x : A) (l : list A) : (len (x :: l) =? 0)%Z = false.
Proof. unfold len. cbn [List.length]. apply Z.eqb_neq. lia. Qed.

Lemma len_cons_gtb {A : Type} (x : A) (l : list A) : (len (x :: l) >? 0)%Z = true.
Proof. unfold len. cbn [List.length]. apply Z.gtb_lt. lia. Qed.

Lemma len_map {A B : Type} (f : A -> B) (l : list A) : len (map f l) = len l.
Proof. unfold len. now rewrite length_map. Qed.

Lemma py_sum_lists_concat {A : Type} (ls : list (list A)) :
  py_sum_lists ls = List.concat ls.
Proof.
  unfold py_sum_lists.
  enough (G : forall acc, fold_left (@app A) ls acc = acc ++ List.concat ls)
    by exact (G []).
  induction ls as [| l ls IH]; intros acc; cbn [fold_left List.concat].
  - now rewrite app_nil_r.
  - rewrite IH. now rewrite app_assoc.
Qed.

Lemma truediv_int_len {num : Type} `{PyNumber num} {A : Type} (q : num)
      (x : A) (l : list A) :
  truediv_int q (len (x :: l)) = Ok (div q (of_int (len (x :: l)))).
Proof. unfold truediv_int. now rewrite len_cons_eqb. Qed.

(** ** The order of binary64

    [>] on floats satisfies [PyNumberLaws], by the specification of the
    primitive comparisons on [spec_float]. *)

Lemma SFltb_irrefl (f : spec_float) : SFltb f f = false.
Proof.
  unfold SFltb, SFcompare.
  destruct f as [s | s | | s m e]; try destruct s; try reflexivity;
    rewrite Z.compare_refl; change (Pos.compare_cont Eq m m) with (Pos.compare m m);
    rewrite Pos.compare_refl; reflexivity.
Qed.

Lemma SFltb_trans (f g h : spec_float) :
  SFltb f g = true -> SFltb g h = true -> SFltb f h = true.
Proof.
  unfold SFltb, SFcompare.
  destruct f as [s1 | s1 | | s1 m1 e1]; destruct g as [s2 | s2 | | s2 m2 e2];
    destruct h as [s3 | s3 | | s3 m3 e3];
    try destruct s1; try destruct s2; try destruct s3;
    try reflexivity; try discriminate;
    change (Pos.compare_cont Eq) with Pos.compare;
    destruct (Z.compare_spec e1 e2); try discriminate;
    destruct (Z.compare_spec e2 e3); try discriminate;
    destruct (Z.compare_spec e1 e3); try reflexivity; try lia; subst;
    destruct (Pos.compare_spec m1 m2); try discriminate;
    destruct (Pos.compare_spec m2 m3); try discriminate;
    destruct (Pos.compare_spec m1 m3); try reflexivity; try lia.
Qed.

Lemma SFltb_zero_neq (f : spec_float) :
  SFltb (S754_zero false) f = true -> SFeqb f (S754_zero false) = false.
Proof.
  destruct f as [s | s | | s m e]; try destruct s; try reflexivity; discriminate.
Qed.

#[export] Instance binary64_laws : PyNumberLaws binary64.
Proof.
  split; cbn [gtb eqb zero binary64].
  - intros x. rewrite ltb_spec. apply SFltb_irrefl.
  - intros x y z Hxy Hyz. rewrite ltb_spec in *. exact (SFltb_trans _ _ _ Hyz Hxy).
  - intros x. rewrite ltb_spec, eqb_spec.
    change (Prim2SF 0) with (S754_zero false). apply SFltb_zero_neq.
Qed.

(** ** [max] returns a maximum *)

Section Maximum.
Context {num : Type} {N : PyNumber num} {L : PyNumberLaws N}.

Lemma gtb_false_step (x y m : num) :
  gtb x m = false -> gtb y m = true -> gtb x y = false.
Proof.
  intros Hx Hy. destruct (gtb x y) eqn:E; [| reflexivity].
  rewrite (gtb_trans _ _ _ E Hy) in Hx. discriminate.
Qed.

Lemma fold_max_spec (xs seen : list num) (m : num) :
  is_maximum_of m seen ->
  is_maximum_of (fold_left (fun m y => if gtb y m then y else m) xs m)
    (seen ++ xs).
Proof.
  revert seen m. induction xs as [| y xs IH]; intros seen m [Hin Hall].
  - cbn [fold_left]. rewrite app_nil_r. now split.
  - cbn [fold_left].
    replace (seen ++ y :: xs) with ((seen ++ [y]) ++ xs)
      by (now rewrite <- app_assoc).
    apply IH. destruct (gtb y m) eqn:E; split.
    + apply in_or_app. right. now left.
    + apply Forall_app. split.
      * eapply Forall_impl; [| exact Hall].
        intros x Hx. cbn beta in *. now apply gtb_false_step with m.
      * constructor; [apply gtb_irrefl | constructor].
    + apply in_or_app. now left.
    + apply Forall_app. split; [exact Hall |].
      constructor; [exact E | constructor].
Qed.

Lemma py_max_spec (x : num) (xs : list num) :
  exists m, py_max (x :: xs) = Ok m /\ is_maximum_of m (x :: xs).
Proof.
  eexists. split; [reflexivity |].
  apply (fold_max_spec xs (seen := [x])). split; [now left |].
  constructor; [apply gtb_irrefl | constructor].
Qed.

End Maximum.

(** On floats none of which is NaN, a maximum in the sense above is the
    usual one: every element is less than or equal to it. *)
Lemma SFcompare_antisym (f g : spec_float) :
  SFcompare g f = option_map CompOpp (SFcompare f g).
Proof.
  unfold SFcompare.
  destruct f as [s1 | s1 | | s1 m1 e1]; destruct g as [s2 | s2 | | s2 m2 e2];
    try destruct s1; try destruct s2; try reflexivity; cbn [option_map];
    change (Pos.compare_cont Eq) with Pos.compare;
    rewrite (Z.compare_antisym e1 e2), (Pos.compare_antisym m1 m2);
    destruct (e1 ?= e2)%Z; cbn [CompOpp]; try reflexivity;
    now rewrite CompOpp_involutive.
Qed.

Lemma SFleb_of_not_ltb (f g : spec_float) :
  SFeqb f f = true -> SFeqb g g = true -> SFltb g f = false -> SFleb f g = true.
Proof.
  unfold SFeqb, SFltb, SFleb. rewrite (SFcompare_antisym f g).
  intros Hf Hg.
  destruct (SFcompare f g) as [[] |] eqn:E; cbn; try congruence.
  destruct f as [s1 | s1 | | s1 m1 e1]; destruct g as [s2 | s2 | | s2 m2 e2];
    discriminate.
Qed.

Lemma binary64_maximum_upper_bound (m : float) (l : list float) :
  is_maximum_of m l ->
  Forall (fun x => PrimFloat.eqb x x = true) l ->
  Forall (fun x => PrimFloat.leb x m = true) l.
Proof.
  intros [Hin Hmax] Hnum. rewrite Forall_forall in *.
  intros x Hx. specialize (Hmax x Hx). cbn [gtb binary64] in Hmax.
  rewrite leb_spec. rewrite ltb_spec in Hmax.
  apply SFleb_of_not_ltb; [| | exact Hmax]; rewrite <- eqb_spec; auto.
Qed.

(** ** Energy.aggregate *)

Section EnergyAggregate.
Context {num : Type} {N : PyNumber num}.

Lemma Energy_aggregate_present (e : Energy.t num) (es : list (Energy.t num)) :
  Energy.aggregate (map Some (e :: es)) =
  (cpu <- py_max (map (@Energy.cpu num) (e :: es)) ;;
   gpu <- py_max (map (@Energy.gpu num) (e :: es)) ;;
   ram <- py_max (map (@Energy.ram num) (e :: es)) ;;
   total <- py_max (map (@Energy.total num) (e :: es)) ;;
   Ok (Some (Energy.make ENERGY_UNIT cpu ram gpu total))).
Proof.
  unfold Energy.aggregate.
  rewrite len_map, len_cons_eqb, existsb_None_present, !comprehension_present.
  reflexivity.
Qed.

Lemma Energy_aggregate_absent (es : list (option (Energy.t num))) :
  forallb is_None es = true -> Energy.aggregate es = Ok None.
Proof.
  intros Hall. unfold Energy.aggregate. rewrite Hall, orb_true_r. reflexivity.
Qed.

Lemma Energy_aggregate_mixed (es : list (option (Energy.t num))) (e : Energy.t num) :
  In None es -> In (Some e) es ->
  Energy.aggregate es = Raise (ValueError "Some energy measurements are missing").
Proof.
  intros Hnone Hsome. unfold Energy.aggregate.
  rewrite (forallb_None_In _ _ Hsome).
  destruct es as [| o es]; [destruct Hnone |].
  rewrite len_cons_eqb. cbn [orb].
  now rewrite (proj2 (existsb_None_In _) Hnone).
Qed.

Context {L : PyNumberLaws N}.

(** C1.  On a non-empty list of present Energy objects, [Energy.aggregate]
    returns an Energy (in kWh) whose cpu, gpu, ram and total are each a
    maximum of that component over the inputs: one of the input values, with
    no input value greater.  On an empty list or a list of absent elements
    only, it returns the absent result [None].  On a list that holds both a
    present and an absent element it raises [ValueError]. *)
Theorem Energy_aggregate_componentwise_max :
  (forall (e : Energy.t num) (es : list (Energy.t num)),
      exists r,
        Energy.aggregate (map Some (e :: es)) = Ok (Some r) /\
        Energy.unit r = ENERGY_UNIT /\
        is_maximum_of (Energy.cpu r) (map (@Energy.cpu num) (e :: es)) /\
        is_maximum_of (Energy.gpu r) (map (@Energy.gpu num) (e :: es)) /\
        is_maximum_of (Energy.ram r) (map (@Energy.ram num) (e :: es)) /\
        is_maximum_of (Energy.total r) (map (@Energy.total num) (e :: es))) /\
  Energy.aggregate (@nil (option (Energy.t num))) = Ok None /\
  (forall es : list (option (Energy.t num)),
      forallb is_None es = true -> Energy.aggregate es = Ok None) /\
  (forall (es : list (option (Energy.t num))) (e : Energy.t num),
      In None es -> In (Some e) es ->
      Energy.aggregate es =
      Raise (ValueError "Some energy measurements are missing")).
Proof.
  split; [| split; [reflexivity | split]].
  - intros e es. rewrite Energy_aggregate_present.
    cbn [map].
    destruct (py_max_spec (Energy.cpu e) (map (@Energy.cpu num) es)) as (c & -> & Hc).
    destruct (py_max_spec (Energy.gpu e) (map (@Energy.gpu num) es)) as (g & -> & Hg).
    destruct (py_max_spec (Energy.ram e) (map (@Energy.ram num) es)) as (r & -> & Hr).
    destruct (py_max_spec (Energy.total e) (map (@Energy.total num) es)) as (t & -> & Ht).
    cbn [bind]. eexists. split; [reflexivity |]. cbn. auto.
  - exact Energy_aggregate_absent.
  - exact Energy_aggregate_mixed.
Qed.

End EnergyAggregate.

Example Energy_aggregate_example :
  Energy.aggregate [Some example_E1; Some example_E2] =
  Ok (Some {| Energy.unit := ENERGY_UNIT; Energy.cpu := 3%float;
              Energy.ram := 2%float; Energy.gpu := 2%float;
              Energy.total := 6%float |}).
Proof. vm_compute. reflexivity. Qed.

Lemma Energy_aggregate_componentwise_max_witness :
  (exists r,
      Energy.aggregate (map Some [example_E1; example_E2]) = Ok (Some r) /\
      Energy.unit r = ENERGY_UNIT /\
      is_maximum_of (Energy.cpu r) [1%float; 3%float] /\
      is_maximum_of (Energy.gpu r) [2%float; 1%float] /\
      is_maximum_of (Energy.ram r) [1%float; 2%float] /\
      is_maximum_of (Energy.total r) [4%float; 6%float]) /\
  Energy.aggregate [None; Some example_E1] =
  Raise (ValueError "Some energy measurements are missing").
Proof.
  destruct (Energy_aggregate_componentwise_max (L := binary64_laws))
    as (Hpresent & _ & _ & Hmixed).
  split.
  - exact (Hpresent example_E1 [example_E2]).
  - apply (Hmixed [None; Some example_E1] example_E1).
    + now left.
    + right. now left.
Defined.

(** ** Latency.from_values *)

Section LatencyStatistics.
Context {num : Type} {N : PyNumber num}.

Lemma arithmetic_mean_unfold (values : list num) :
  arithmetic_mean values = div (py_sum values) (of_int (len values)).
Proof. reflexivity. Qed.

Lemma comprehension_py_pow2 (f : num -> num) (l : list num) :
  comprehension (fun val => py_pow2 (f val)) l =
  if forallb (fun val => pow2_in_range (f val)) l
  then Ok (map (fun val => pow2 (f val)) l)
  else Raise (OverflowError "(34, 'Numerical result out of range')").
Proof.
  induction l as [| x l IH]; [reflexivity |].
  cbn [comprehension forallb map]. unfold py_pow2 at 1.
  destruct (pow2_in_range (f x)); cbn [bind andb]; [| reflexivity].
  rewrite IH. destruct (forallb _ l); reflexivity.
Qed.

Lemma from_values_two_or_more (x y : num) (values : list num) (unit : string) :
  Latency.from_values (x :: y :: values) unit =
  if deviations_in_range (x :: y :: values)
  then Ok (Latency.make unit (arithmetic_mean (x :: y :: values))
             (population_stdev (x :: y :: values)) (x :: y :: values))
  else Raise (OverflowError "(34, 'Numerical result out of range')").
Proof.
  unfold Latency.from_values.
  rewrite len_cons_gtb, truediv_int_len. cbn [bind].
  replace (len (x :: y :: values) >? 1)%Z with true
    by (symmetry; apply Z.gtb_lt; unfold len; cbn [List.length]; lia).
  rewrite comprehension_py_pow2.
  rewrite <- arithmetic_mean_unfold. fold (deviations_in_range (x :: y :: values)).
  destruct (deviations_in_range (x :: y :: values)); [| reflexivity].
  cbn [bind].
  change (map (fun val => pow2 (sub val (arithmetic_mean (x :: y :: values))))
            (x :: y :: values))
    with (pow2 (sub x (arithmetic_mean (x :: y :: values)))
          :: map (fun val => pow2 (sub val (arithmetic_mean (x :: y :: values))))
               (y :: values)).
  rewrite truediv_int_len. cbn [bind].
  unfold population_stdev.
  rewrite (arithmetic_mean_unfold (map _ _)), len_map. reflexivity.
Qed.

Lemma from_values_one (x : num) (unit : string) :
  Latency.from_values [x] unit =
  Ok (Latency.make unit (arithmetic_mean [x]) zero [x]).
Proof. reflexivity. Qed.

Lemma from_values_none (unit : string) :
  Latency.from_values (@nil num) unit = Ok (Latency.make unit zero zero []).
Proof. reflexivity. Qed.

(** What [from_values] returns, when it returns. *)
Lemma from_values_Ok (values : list num) (unit : string) (lat : Latency.t num) :
  Latency.from_values values unit = Ok lat ->
  Latency.values lat = values /\
  Latency.unit lat = unit /\
  (values <> [] -> Latency.mean lat = arithmetic_mean values).
Proof.
  destruct values as [| x [| y values]].
  - rewrite from_values_none. intros [= <-]. cbn. repeat split. congruence.
  - rewrite from_values_one. intros [= <-]. cbn. repeat split.
  - rewrite from_values_two_or_more.
    destruct (deviations_in_range (x :: y :: values)); [| discriminate].
    intros [= <-]. cbn. repeat split.
Qed.

(** [from_values] raises only [OverflowError], and only on two samples or
    more with a square out of range. *)
Lemma from_values_Raise (values : list num) (unit : string) (e : exn) :
  Latency.from_values values unit = Raise e ->
  e = OverflowError "(34, 'Numerical result out of range')" /\
  2 <= List.length values /\
  deviations_in_range values = false.
Proof.
  destruct values as [| x [| y values]].
  - rewrite from_values_none. discriminate.
  - rewrite from_values_one. discriminate.
  - rewrite from_values_two_or_more.
    destruct (deviations_in_range (x :: y :: values)); [discriminate |].
    intros [= <-]. cbn [List.length]. repeat split. lia.
Qed.

(** [from_values] returns when the squares are in range, and on fewer than
    two samples. *)
Lemma from_values_in_range (values : list num) (unit : string) :
  deviations_in_range values = true \/ List.length values < 2 ->
  exists lat, Latency.from_values values unit = Ok lat.
Proof.
  intros Hrange.
  destruct values as [| x [| y values]].
  - rewrite from_values_none. now eexists.
  - rewrite from_values_one. now eexists.
  - rewrite from_values_two_or_more.
    destruct Hrange as [-> | Hlen]; [now eexists |].
    cbn [List.length] in Hlen. lia.
Qed.

Lemma from_values_out_of_range (values : list num) (unit : string) :
  2 <= List.length values ->
  deviations_in_range values = false ->
  Latency.from_values values unit =
  Raise (OverflowError "(34, 'Numerical result out of range')").
Proof.
  intros Hlen Hrange.
  destruct values as [| x [| y values]]; cbn [List.length] in Hlen; try lia.
  rewrite from_values_two_or_more, Hrange. reflexivity.
Qed.

(** C5, amended.  [Latency.from_values] returns a Latency that holds the
    samples and the unit whenever the list has fewer than two samples or
    the square of every deviation from the mean is in range: the mean is
    [sum(values) / len(values)] when the list is not empty; with two samples
    or more the stdev is the population standard deviation of the samples,
    and with fewer than two samples (one, or none) it is 0.  With two
    samples or more and the square of some deviation out of range it raises
    [OverflowError]. *)
Theorem from_values_mean_stdev (values : list num) (unit : string) :
  (deviations_in_range values = true \/ List.length values < 2 ->
   exists lat,
     Latency.from_values values unit = Ok lat /\
     Latency.values lat = values /\
     Latency.unit lat = unit /\
     (values <> [] -> Latency.mean lat = arithmetic_mean values) /\
     (2 <= List.length values -> Latency.stdev lat = population_stdev values) /\
     (List.length values < 2 -> Latency.stdev lat = zero)) /\
  (2 <= List.length values ->
   deviations_in_range values = false ->
   Latency.from_values values unit =
   Raise (OverflowError "(34, 'Numerical result out of range')")).
Proof.
  split.
  - intros Hrange. destruct values as [| x [| y values]].
    + rewrite from_values_none. eexists. split; [reflexivity |].
      cbn. repeat split; try reflexivity; try congruence; lia.
    + rewrite from_values_one. eexists. split; [reflexivity |].
      cbn. repeat split; try reflexivity; lia.
    + rewrite from_values_two_or_more.
      destruct Hrange as [Hrange | Hlen]; [| cbn [List.length] in Hlen; lia].
      rewrite Hrange. eexists. split; [reflexivity |].
      cbn [Latency.values Latency.unit Latency.mean Latency.stdev List.length].
      repeat split; try reflexivity; lia.
  - intros Hlen Hrange.
    destruct values as [| x [| y values]]; cbn [List.length] in Hlen; try lia.
    rewrite from_values_two_or_more, Hrange. reflexivity.
Qed.

End LatencyStatistics.

(** Eight samples with mean 5 and standard deviation 2, and two samples
    whose deviations from their mean 0 have a square above the largest
    float (the samples are 1e200 and -1e200). *)
Definition example_samples : list float :=
  [2%float; 4%float; 4%float; 4%float; 5%float; 5%float; 7%float; 9%float].

Definition example_large_samples : list float :=
  [0x1.4e718d7d7625ap+664%float; (-0x1.4e718d7d7625ap+664)%float].

Lemma from_values_mean_stdev_witness :
  (exists lat,
      Latency.from_values example_samples "s" = Ok lat /\
      Latency.mean lat = 5%float /\
      Latency.stdev lat = 2%float) /\
  Latency.from_values example_large_samples "s" =
  Raise (OverflowError "(34, 'Numerical result out of range')").
Proof.
  split.
  - assert (Hrange : deviations_in_range example_samples = true)
      by (vm_compute; reflexivity).
    destruct (proj1 (from_values_mean_stdev example_samples "s")
                (or_introl Hrange))
      as (lat & Hlat & _ & _ & Hmean & Hstdev & _).
    exists lat. split; [exact Hlat | split].
    + rewrite Hmean; [vm_compute; reflexivity | discriminate].
    + rewrite Hstdev; [vm_compute; reflexivity | cbn; lia].
  - apply (proj2 (from_values_mean_stdev example_large_samples "s")).
    + cbn. lia.
    + vm_compute. reflexivity.
Defined.

(** C5 as stated fails: the two samples 1e200 and -1e200 have mean 0, the
    square of the deviation 1e200 is out of the range of the floats, and
    [from_values] raises [OverflowError] instead of returning. *)
Lemma from_values_returns_statistics_counterexample :
  ~ from_values_returns_statistics (N := binary64).
Proof.
  intros Hclaim.
  destruct (Hclaim example_large_samples "s") as (lat & Hlat & _);
    [discriminate |].
  vm_compute in Hlat. discriminate Hlat.
Qed.

Example from_values_example :
  Latency.from_values example_samples "s" =
  Ok {| Latency.unit := "s"; Latency.mean := 5%float; Latency.stdev := 2%float;
        Latency.values := example_samples |} /\
  Latency.from_values [1%float; 3%float] "s" =
  Ok {| Latency.unit := "s"; Latency.mean := 2%float; Latency.stdev := 1%float;
        Latency.values := [1%float; 3%float] |} /\
  Latency.from_values [5%float] "s" =
  Ok {| Latency.unit := "s"; Latency.mean := 5%float; Latency.stdev := 0%float;
        Latency.values := [5%float] |} /\
  Latency.from_values example_large_samples "s" =
  Raise (OverflowError "(34, 'Numerical result out of range')") /\
  Latency.from_values [infinity; 1%float] "s" =
  Ok {| Latency.unit := "s"; Latency.mean := infinity; Latency.stdev := nan;
        Latency.values := [infinity; 1%float] |}.
Proof. repeat split; vm_compute; reflexivity. Qed.

(** ** Latency.aggregate *)

Section LatencyAggregate.
Context {num : Type} {N : PyNumber num}.

Lemma Latency_aggregate_present (l : Latency.t num) (ls : list (Latency.t num)) :
  Latency.aggregate (map Some (l :: ls)) =
  (lat <- Latency.from_values
            (List.concat (map (@Latency.values num) (l :: ls)))
            (Latency.unit l) ;;
   Ok (Some lat)).
Proof.
  unfold Latency.aggregate.
  rewrite len_map, len_cons_eqb, existsb_None_present, comprehension_present.
  cbn [orb forallb map is_None andb getitem nth_error getattr bind].
  rewrite py_sum_lists_concat. reflexivity.
Qed.

Lemma Latency_aggregate_absent (ls : list (option (Latency.t num))) :
  forallb is_None ls = true -> Latency.aggregate ls = Ok None.
Proof.
  intros Hall. unfold Latency.aggregate. rewrite Hall, orb_true_r. reflexivity.
Qed.

Lemma Latency_aggregate_mixed (ls : list (option (Latency.t num)))
      (l : Latency.t num) :
  In None ls -> In (Some l) ls ->
  Latency.aggregate ls = Raise (ValueError "Some latency measurements are missing").
Proof.
  intros Hnone Hsome. unfold Latency.aggregate.
  rewrite (forallb_None_In _ _ Hsome).
  destruct ls as [| o ls]; [destruct Hnone |].
  rewrite len_cons_eqb. cbn [orb].
  now rewrite (proj2 (existsb_None_In _) Hnone).
Qed.

(** C2, amended.  [Latency.aggregate] returns the absent result [None],
    without raising, on the empty list and on a list whose elements are all
    absent; it raises [ValueError] on a list with both a present and an
    absent element; on a non-empty list of present Latency objects it is
    [Latency.from_values] of the concatenation, in input order, of the
    inputs' values.  So it returns a Latency that holds that concatenation,
    with the mean of the concatenation, when the concatenation has fewer
    than two samples or the square of every deviation from its mean is in
    range, and it raises [OverflowError] otherwise.  The inputs' own mean
    and stdev are not read. *)
Theorem Latency_aggregate_concatenates :
  Latency.aggregate (@nil (option (Latency.t num))) = Ok None /\
  (forall ls : list (option (Latency.t num)),
      forallb is_None ls = true -> Latency.aggregate ls = Ok None) /\
  (forall (ls : list (option (Latency.t num))) (l : Latency.t num),
      In None ls -> In (Some l) ls ->
      Latency.aggregate ls =
      Raise (ValueError "Some latency measurements are missing")) /\
  (forall (l : Latency.t num) (ls : list (Latency.t num)),
      let all_values := List.concat (map (@Latency.values num) (l :: ls)) in
      (deviations_in_range all_values = true \/ List.length all_values < 2 ->
       exists lat,
         Latency.aggregate (map Some (l :: ls)) = Ok (Some lat) /\
         Latency.from_values all_values (Latency.unit l) = Ok lat /\
         Latency.values lat = all_values /\
         (all_values <> [] -> Latency.mean lat = arithmetic_mean all_values)) /\
      (2 <= List.length all_values ->
       deviations_in_range all_values = false ->
       Latency.aggregate (map Some (l :: ls)) =
       Raise (OverflowError "(34, 'Numerical result out of range')"))) /\
  (forall (l l' : Latency.t num) (ls ls' : list (Latency.t num)),
      map (@Latency.values num) (l :: ls) = map (@Latency.values num) (l' :: ls') ->
      Latency.unit l = Latency.unit l' ->
      Latency.aggregate (map Some (l :: ls)) =
      Latency.aggregate (map Some (l' :: ls'))).
Proof.
  split; [reflexivity |].
  split; [exact Latency_aggregate_absent |].
  split; [exact Latency_aggregate_mixed |].
  split.
  - intros l ls all_values. rewrite Latency_aggregate_present. fold all_values.
    split.
    + intros Hrange.
      destruct (from_values_in_range all_values (Latency.unit l) Hrange)
        as (lat & Hlat).
      destruct (from_values_Ok _ _ Hlat) as (Hvalues & _ & Hmean).
      exists lat. rewrite Hlat. cbn [bind]. auto.
    + intros Hlen Hrange.
      rewrite (from_values_out_of_range all_values (Latency.unit l) Hlen Hrange).
      reflexivity.
  - intros l l' ls ls' Hvalues Hunit.
    rewrite !Latency_aggregate_present. now rewrite Hvalues, Hunit.
Qed.

End LatencyAggregate.

(** Two Latency objects of one sample each, 1e200 and -1e200. *)
Definition example_large_A : Latency.t float :=
  {| Latency.unit := "s"; Latency.mean := 0x1.4e718d7d7625ap+664%float;
     Latency.stdev := 0%float;
     Latency.values := [0x1.4e718d7d7625ap+664%float] |}.

Definition example_large_B : Latency.t float :=
  {| Latency.unit := "s"; Latency.mean := (-0x1.4e718d7d7625ap+664)%float;
     Latency.stdev := 0%float;
     Latency.values := [(-0x1.4e718d7d7625ap+664)%float] |}.

Lemma Latency_aggregate_concatenates_witness :
  (exists lat,
      Latency.aggregate [Some example_A; Some example_B] = Ok (Some lat) /\
      Latency.values lat = [1%float; 2%float; 3%float] /\
      Latency.mean lat = 2%float) /\
  Latency.aggregate [Some example_A; None] =
  Raise (ValueError "Some latency measurements are missing") /\
  Latency.aggregate [None; None] = Ok (@None (Latency.t float)) /\
  Latency.aggregate [Some example_large_A; Some example_large_B] =
  Raise (OverflowError "(34, 'Numerical result out of range')").
Proof.
  destruct (Latency_aggregate_concatenates (num := float))
    as (_ & Habsent & Hmixed & Hpresent & _).
  split; [| split; [| split]].
  - assert (Hrange : deviations_in_range [1%float; 2%float; 3%float] = true)
      by (vm_compute; reflexivity).
    destruct (proj1 (Hpresent example_A [example_B]) (or_introl Hrange))
      as (lat & Hagg & _ & Hvalues & Hmean).
    exists lat. split; [exact Hagg | split; [exact Hvalues |]].
    rewrite Hmean; [vm_compute; reflexivity | discriminate].
  - apply (Hmixed _ example_A); [right; now left | now left].
  - apply Habsent. reflexivity.
  - apply (proj2 (Hpresent example_large_A [example_large_B])).
    + cbn. lia.
    + vm_compute. reflexivity.
Defined.

(** C2 as stated fails: the two present inputs hold the samples 1e200 and
    -1e200; the mean of the concatenation is 0, the square of the deviation
    1e200 is out of range, and [Latency.aggregate] raises [OverflowError]
    instead of returning the concatenation. *)
Lemma aggregate_returns_concatenation_counterexample :
  ~ aggregate_returns_concatenation (N := binary64).
Proof.
  intros Hclaim.
  destruct (Hclaim example_large_A [example_large_B]) as (lat & Hlat & _).
  vm_compute in Hlat. discriminate Hlat.
Qed.

(** ** Throughput.aggregate and Efficiency.aggregate *)

Section RateAggregate.
Context {num : Type} {N : PyNumber num}.

Lemma Throughput_aggregate_present (t : Throughput.t num)
      (ts : list (Throughput.t num)) :
  Throughput.aggregate (map Some (t :: ts)) =
  Ok (Throughput.make (Throughput.unit t)
        (py_sum (map (@Throughput.value num) (t :: ts)))).
Proof.
  unfold Throughput.aggregate.
  rewrite len_map, len_cons_eqb, existsb_None_present, comprehension_present.
  reflexivity.
Qed.

Lemma Throughput_aggregate_missing (ts : list (option (Throughput.t num))) :
  In None ts ->
  Throughput.aggregate ts =
  Raise (ValueError "Some throughput measurements are missing").
Proof.
  intros Hnone. unfold Throughput.aggregate.
  destruct ts as [| o ts]; [destruct Hnone |].
  rewrite len_cons_eqb. now rewrite (proj2 (existsb_None_In _) Hnone).
Qed.

Lemma Efficiency_aggregate_present (e : Efficiency.t num)
      (es : list (Efficiency.t num)) :
  Efficiency.aggregate (map Some (e :: es)) =
  Ok (Efficiency.make (Efficiency.unit e)
        (arithmetic_mean (map (@Efficiency.value num) (e :: es)))).
Proof.
  unfold Efficiency.aggregate.
  rewrite len_map, len_cons_eqb, existsb_None_present, comprehension_present.
  cbn [map getitem nth_error getattr bind].
  rewrite truediv_int_len. cbn [bind].
  rewrite arithmetic_mean_unfold.
  change (Efficiency.value e :: map (@Efficiency.value num) es)
    with (map (@Efficiency.value num) (e :: es)).
  now rewrite len_map.
Qed.

Lemma Efficiency_aggregate_missing (es : list (option (Efficiency.t num))) :
  In None es ->
  Efficiency.aggregate es =
  Raise (ValueError "Some efficiency measurements are None").
Proof.
  intros Hnone. unfold Efficiency.aggregate.
  destruct es as [| o es]; [destruct Hnone |].
  rewrite len_cons_eqb. now rewrite (proj2 (existsb_None_In _) Hnone).
Qed.

(** C6.  On a non-empty list of present inputs, [Throughput.aggregate]
    returns the sum of the inputs' values and [Efficiency.aggregate] returns
    their arithmetic mean (the sum divided by the number of inputs); both
    raise [ValueError] on the empty list, and on every list that holds an
    absent input. *)
Theorem Throughput_sums_Efficiency_averages :
  (forall (t : Throughput.t num) (ts : list (Throughput.t num)),
      Throughput.aggregate (map Some (t :: ts)) =
      Ok (Throughput.make (Throughput.unit t)
            (py_sum (map (@Throughput.value num) (t :: ts))))) /\
  (forall (e : Efficiency.t num) (es : list (Efficiency.t num)),
      Efficiency.aggregate (map Some (e :: es)) =
      Ok (Efficiency.make (Efficiency.unit e)
            (arithmetic_mean (map (@Efficiency.value num) (e :: es))))) /\
  Throughput.aggregate (@nil (option (Throughput.t num))) =
  Raise (ValueError "No throughput measurements to aggregate") /\
  Efficiency.aggregate (@nil (option (Efficiency.t num))) =
  Raise (ValueError "No efficiency measurements to aggregate") /\
  (forall ts : list (option (Throughput.t num)),
      In None ts ->
      Throughput.aggregate ts =
      Raise (ValueError "Some throughput measurements are missing")) /\
  (forall es : list (option (Efficiency.t num)),
      In None es ->
      Efficiency.aggregate es =
      Raise (ValueError "Some efficiency measurements are None")).
Proof.
  split; [exact Throughput_aggregate_present |].
  split; [exact Efficiency_aggregate_present |].
  split; [reflexivity |].
  split; [reflexivity |].
  split; [exact Throughput_aggregate_missing | exact Efficiency_aggregate_missing].
Qed.

End RateAggregate.

(** The specification's examples: throughputs 10 and 15 give 25, and
    efficiencies 10 and 20 give 15. *)
Lemma Throughput_sums_Efficiency_averages_witness :
  Throughput.aggregate
    (map Some [Throughput.make "samples/s" 10%float;
               Throughput.make "samples/s" 15%float]) =
  Ok (Throughput.make "samples/s" 25%float) /\
  Efficiency.aggregate
    (map Some [Efficiency.make "samples/kWh" 10%float;
               Efficiency.make "samples/kWh" 20%float]) =
  Ok (Efficiency.make "samples/kWh" 15%float) /\
  Throughput.aggregate [Some (Throughput.make "samples/s" 10%float); None] =
  Raise (ValueError "Some throughput measurements are missing") /\
  Efficiency.aggregate [None; Some (Efficiency.make "samples/kWh" 10%float)] =
  Raise (ValueError "Some efficiency measurements are None").
Proof.
  destruct (Throughput_sums_Efficiency_averages (num := float))
    as (Hsum & Hmean & _ & _ & Htmissing & Hemissing).
  split; [| split; [| split]].
  - rewrite Hsum. vm_compute. reflexivity.
  - rewrite Hmean. vm_compute. reflexivity.
  - apply Htmissing. right. now left.
  - apply Hemissing. now left.
Defined.

(** ** Throughput.from_latency and Efficiency.from_energy *)

Section Rates.
Context {num : Type} {N : PyNumber num}.

Context {L : PyNumberLaws N}.

Lemma eqb_zero_not_gtb (x : num) : eqb x zero = true -> gtb x zero = false.
Proof.
  intros Heq. destruct (gtb x zero) eqn:E; [| reflexivity].
  rewrite (gtb_zero_neq _ E) in Heq. discriminate.
Qed.

Lemma guarded_truediv (volume : Z) (divisor : num) :
  (if gtb divisor zero then int_truediv volume divisor else Ok zero) =
  if gtb divisor zero
  then (if int_in_range volume
        then Ok (div (of_int volume) divisor)
        else Raise (OverflowError "int too large to convert to float"))
  else Ok zero.
Proof.
  unfold int_truediv, truediv.
  destruct (gtb divisor zero) eqn:E; [| reflexivity].
  now rewrite (gtb_zero_neq _ E).
Qed.

(** C8, amended.  [Throughput.from_latency] returns value 0, whatever the
    volume, when the mean is not greater than 0 (so a mean equal to 0 gives
    value 0 and no division by zero, and so does a negative mean or a NaN);
    when the mean is greater than 0 it returns the volume divided by the
    mean if the volume is in the range of the floats, and raises
    [OverflowError] if it is not.  [Efficiency.from_energy] does the same
    with the total energy. *)
Theorem rates_divide_when_positive :
  (forall (latency : Latency.t num) (volume : Z) (unit : string),
      (gtb (Latency.mean latency) zero = false ->
       Throughput.from_latency latency volume unit =
       Ok (Throughput.make unit zero)) /\
      (eqb (Latency.mean latency) zero = true ->
       Throughput.from_latency latency volume unit =
       Ok (Throughput.make unit zero)) /\
      (gtb (Latency.mean latency) zero = true ->
       int_in_range volume = true ->
       Throughput.from_latency latency volume unit =
       Ok (Throughput.make unit (div (of_int volume) (Latency.mean latency)))) /\
      (gtb (Latency.mean latency) zero = true ->
       int_in_range volume = false ->
       Throughput.from_latency latency volume unit =
       Raise (OverflowError "int too large to convert to float"))) /\
  (forall (energy : Energy.t num) (volume : Z) (unit : string),
      (gtb (Energy.total energy) zero = false ->
       Efficiency.from_energy energy volume unit =
       Ok (Efficiency.make unit zero)) /\
      (eqb (Energy.total energy) zero = true ->
       Efficiency.from_energy energy volume unit =
       Ok (Efficiency.make unit zero)) /\
      (gtb (Energy.total energy) zero = true ->
       int_in_range volume = true ->
       Efficiency.from_energy energy volume unit =
       Ok (Efficiency.make unit (div (of_int volume) (Energy.total energy)))) /\
      (gtb (Energy.total energy) zero = true ->
       int_in_range volume = false ->
       Efficiency.from_energy energy volume unit =
       Raise (OverflowError "int too large to convert to float"))).
Proof.
  split.
  - intros latency volume unit.
    unfold Throughput.from_latency. rewrite guarded_truediv.
    split; [intros ->; reflexivity |].
    split; [intros Hzero; rewrite (eqb_zero_not_gtb _ Hzero); reflexivity |].
    split; intros -> ->; reflexivity.
  - intros energy volume unit.
    unfold Efficiency.from_energy. rewrite guarded_truediv.
    split; [intros ->; reflexivity |].
    split; [intros Hzero; rewrite (eqb_zero_not_gtb _ Hzero); reflexivity |].
    split; intros -> ->; reflexivity.
Qed.

End Rates.

(** A volume of 10 ** 400, which is above the largest float. *)
Definition example_large_volume : Z := (10 ^ 400)%Z.

Lemma rates_divide_when_positive_witness :
  Throughput.from_latency (Latency.make "s" 0%float 0%float []) 8 "samples/s" =
  Ok (Throughput.make "samples/s" 0%float) /\
  Throughput.from_latency (Latency.make "s" 2%float 0%float [2%float]) 8 "samples/s" =
  Ok (Throughput.make "samples/s" 4%float) /\
  Throughput.from_latency negative_latency 8 "samples/s" =
  Ok (Throughput.make "samples/s" 0%float) /\
  Throughput.from_latency (Latency.make "s" 2%float 0%float [2%float])
    example_large_volume "samples/s" =
  Raise (OverflowError "int too large to convert to float") /\
  Throughput.from_latency negative_latency example_large_volume "samples/s" =
  Ok (Throughput.make "samples/s" 0%float).
Proof.
  destruct (rates_divide_when_positive (L := binary64_laws)) as (Hlatency & _).
  split; [| split; [| split; [| split]]].
  - apply (proj1 (proj2 (Hlatency (Latency.make "s" 0%float 0%float []) 8%Z
                           "samples/s"))).
    vm_compute. reflexivity.
  - rewrite (proj1 (proj2 (proj2 (Hlatency _ _ _))));
      vm_compute; reflexivity.
  - apply (proj1 (Hlatency negative_latency 8%Z "samples/s")).
    vm_compute. reflexivity.
  - apply (proj2 (proj2 (proj2 (Hlatency _ _ _)))); vm_compute; reflexivity.
  - apply (proj1 (Hlatency negative_latency example_large_volume "samples/s")).
    vm_compute. reflexivity.
Defined.

(** C8 as stated fails: with mean -2 and volume 8 the claim gives 8 / -2 = -4,
    and the code gives 0. *)
Lemma rates_divide_unless_zero_counterexample :
  ~ rates_divide_unless_zero (N := binary64).
Proof.
  intros [Hlatency _].
  specialize (Hlatency negative_latency 8%Z "samples/s").
  apply (f_equal (fun r => match r with
                           | Ok t => PrimFloat.eqb (Throughput.value t) 0%float
                           | Raise _ => false
                           end)) in Hlatency.
  vm_compute in Hlatency. discriminate.
Qed.

Example from_latency_negative_mean :
  Latency.__sub__ (Latency.make "s" 1%float 0%float [1%float]) 3%float =
  Ok negative_latency /\
  Throughput.from_latency negative_latency 8 "samples/s" =
  Ok (Throughput.make "samples/s" 0%float) /\
  rate_zero_or_quotient 8 (Latency.mean negative_latency) = (-4)%float.
Proof. repeat split; vm_compute; reflexivity. Qed.

Example from_energy_negative_total :
  Energy.__sub__ example_E1 example_E2 = Ok negative_energy /\
  Efficiency.from_energy negative_energy 8 "samples/kWh" =
  Ok (Efficiency.make "samples/kWh" 0%float) /\
  rate_zero_or_quotient 8 (Energy.total negative_energy) = (-4)%float.
Proof. repeat split; vm_compute; reflexivity. Qed.

(** ** Units are not compared by the aggregations *)

Section Units.
Context {num : Type} {N : PyNumber num}.

Lemma Latency_aggregate_raises_only (ls : list (option (Latency.t num)))
      (e : exn) :
  Latency.aggregate ls = Raise e ->
  (In None ls /\ (exists l, In (Some l) ls) /\
   e = ValueError "Some latency measurements are missing") \/
  (exists l ls',
      ls = map Some (l :: ls') /\
      e = OverflowError "(34, 'Numerical result out of range')" /\
      2 <= List.length (List.concat (map (@Latency.values num) (l :: ls'))) /\
      deviations_in_range
        (List.concat (map (@Latency.values num) (l :: ls'))) = false).
Proof.
  intros He.
  destruct (all_present_or_missing ls) as [[[| l ls'] ->] | Hnone].
  - discriminate He.
  - right. exists l, ls'. split; [reflexivity |].
    rewrite Latency_aggregate_present in He.
    destruct (Latency.from_values
                (List.concat (map (@Latency.values num) (l :: ls')))
                (Latency.unit l)) as [lat | e'] eqn:Hlat;
      [discriminate He |].
    cbn [bind] in He. injection He as <-.
    exact (from_values_Raise _ _ Hlat).
  - left. split; [exact Hnone |].
    destruct (forallb is_None ls) eqn:Hall.
    + rewrite (Latency_aggregate_absent _ Hall) in He. discriminate He.
    + assert (Hex : existsb (fun o => negb (is_None o)) ls = true).
      { clear -Hall. induction ls as [| [x |] ls IH]; cbn in *;
          [discriminate | reflexivity | auto]. }
      apply existsb_exists in Hex. destruct Hex as ([l |] & Hin & Hl);
        [| discriminate Hl].
      split; [now exists l |].
      rewrite (Latency_aggregate_mixed _ _ Hnone Hin) in He.
      now injection He as <-.
Qed.

Lemma Throughput_aggregate_raises_only (ts : list (option (Throughput.t num))) :
  raises (Throughput.aggregate ts) -> ts = [] \/ In None ts.
Proof.
  intros [e He].
  destruct (all_present_or_missing ts) as [[[| t ts'] ->] | Hnone]; auto.
  rewrite Throughput_aggregate_present in He. discriminate He.
Qed.

Lemma Efficiency_aggregate_raises_only (es : list (option (Efficiency.t num))) :
  raises (Efficiency.aggregate es) -> es = [] \/ In None es.
Proof.
  intros [e He].
  destruct (all_present_or_missing es) as [[[| x es'] ->] | Hnone]; auto.
  rewrite Efficiency_aggregate_present in He. discriminate He.
Qed.

(** C9, amended.  None of [Latency.aggregate], [Throughput.aggregate] and
    [Efficiency.aggregate] compares the units of its inputs: on every
    non-empty list of present inputs, whatever their units, a result that
    is returned carries the unit of the first input.  [Throughput.aggregate]
    and [Efficiency.aggregate] return on every such list, and raise only when
    the list is empty or an input is absent.  [Latency.aggregate] returns on
    such a list when the concatenated samples are fewer than two or the
    square of every deviation from their mean is in range; it raises only
    [ValueError], next to an absent input with a present one, and
    [OverflowError], on present inputs with a square out of range. *)
Theorem aggregate_takes_first_unit :
  (forall (l : Latency.t num) (ls : list (Latency.t num)),
      let all_values := List.concat (map (@Latency.values num) (l :: ls)) in
      (forall lat,
          Latency.aggregate (map Some (l :: ls)) = Ok (Some lat) ->
          Latency.unit lat = Latency.unit l) /\
      (deviations_in_range all_values = true \/ List.length all_values < 2 ->
       exists lat,
         Latency.aggregate (map Some (l :: ls)) = Ok (Some lat) /\
         Latency.unit lat = Latency.unit l)) /\
  (forall (t : Throughput.t num) (ts : list (Throughput.t num)),
      exists r,
        Throughput.aggregate (map Some (t :: ts)) = Ok r /\
        Throughput.unit r = Throughput.unit t) /\
  (forall (e : Efficiency.t num) (es : list (Efficiency.t num)),
      exists r,
        Efficiency.aggregate (map Some (e :: es)) = Ok r /\
        Efficiency.unit r = Efficiency.unit e) /\
  (forall (ls : list (option (Latency.t num))) (e : exn),
      Latency.aggregate ls = Raise e ->
      (In None ls /\ (exists l, In (Some l) ls) /\
       e = ValueError "Some latency measurements are missing") \/
      (exists l ls',
          ls = map Some (l :: ls') /\
          e = OverflowError "(34, 'Numerical result out of range')" /\
          2 <= List.length (List.concat (map (@Latency.values num) (l :: ls'))) /\
          deviations_in_range
            (List.concat (map (@Latency.values num) (l :: ls'))) = false)) /\
  (forall ts : list (option (Throughput.t num)),
      raises (Throughput.aggregate ts) -> ts = [] \/ In None ts) /\
  (forall es : list (option (Efficiency.t num)),
      raises (Efficiency.aggregate es) -> es = [] \/ In None es).
Proof.
  split; [| split; [| split; [| split; [| split]]]].
  - intros l ls all_values. rewrite Latency_aggregate_present.
    fold all_values. split.
    + intros lat Hagg.
      destruct (Latency.from_values all_values (Latency.unit l))
        as [lat' | e] eqn:Hlat; [| discriminate Hagg].
      cbn [bind] in Hagg. injection Hagg as <-.
      exact (proj1 (proj2 (from_values_Ok _ _ Hlat))).
    + intros Hrange.
      destruct (from_values_in_range all_values (Latency.unit l) Hrange)
        as (lat & Hlat).
      exists lat. rewrite Hlat. split; [reflexivity |].
      exact (proj1 (proj2 (from_values_Ok _ _ Hlat))).
  - intros t ts. rewrite Throughput_aggregate_present. eexists. now split.
  - intros e es. rewrite Efficiency_aggregate_present. eexists. now split.
  - exact Latency_aggregate_raises_only.
  - exact Throughput_aggregate_raises_only.
  - exact Efficiency_aggregate_raises_only.
Qed.

End Units.

(** Inputs whose units differ are aggregated all the same, under the unit of
    the first. *)
Lemma aggregate_takes_first_unit_witness :
  (exists r,
      Throughput.aggregate
        (map Some [Throughput.make "samples/s" 10%float;
                   Throughput.make "tokens/s" 15%float]) = Ok r /\
      Throughput.unit r = "samples/s") /\
  (exists r,
      Efficiency.aggregate
        (map Some [Efficiency.make "tokens/kWh" 10%float;
                   Efficiency.make "images/kWh" 20%float]) = Ok r /\
      Efficiency.unit r = "tokens/kWh") /\
  (exists lat,
      Latency.aggregate
        (map Some [Latency.make "s" 1%float 0%float [1%float];
                   Latency.make "ms" 3%float 0%float [3%float]]) = Ok (Some lat) /\
      Latency.unit lat = "s").
Proof.
  destruct (aggregate_takes_first_unit (num := float))
    as (Hlatency & Hthroughput & Hefficiency & _).
  split; [| split].
  - exact (Hthroughput (Throughput.make "samples/s" 10%float)
             [Throughput.make "tokens/s" 15%float]).
  - exact (Hefficiency (Efficiency.make "tokens/kWh" 10%float)
             [Efficiency.make "images/kWh" 20%float]).
  - apply (proj2 (Hlatency (Latency.make "s" 1%float 0%float [1%float])
                    [Latency.make "ms" 3%float 0%float [3%float]])).
    left. vm_compute. reflexivity.
Defined.

(** C9 as stated fails for [Latency.aggregate]: on the two present inputs
    that hold the samples 1e200 and -1e200 it raises [OverflowError], though
    no input is absent and the list is not empty. *)
Lemma aggregates_return_first_unit_counterexample :
  ~ aggregates_return_first_unit (N := binary64).
Proof.
  intros (Hlatency & _).
  destruct (Hlatency example_large_A [example_large_B]) as (lat & Hlat & _).
  vm_compute in Hlat. discriminate Hlat.
Qed.

Example aggregate_mixed_units :
  Throughput.aggregate
    [Some (Throughput.make "samples/s" 10%float);
     Some (Throughput.make "tokens/s" 15%float)] =
  Ok (Throughput.make "samples/s" 25%float) /\
  Latency.aggregate
    [Some (Latency.make "s" 1%float 0%float [1%float]);
     Some (Latency.make "ms" 3%float 0%float [3%float])] =
  Ok (Some (Latency.make "s" 2%float 1%float [1%float; 3%float])).
Proof. split; vm_compute; reflexivity. Qed.

(** ** LatencyTracker *)

Section Tracker.
Import LatencyTracker.
Context {num : Type} {N : PyNumber num}.

Lemma getitem_out_of_range {A : Type} (l : list A) (i : nat) :
  List.length l <= i -> getitem l i = Raise (IndexError "list index out of range").
Proof.
  intros Hle. unfold getitem. now rewrite (proj2 (nth_error_None l i) Hle).
Qed.

Lemma getitem_in_range {A : Type} (l : list A) (i : nat) :
  i < List.length l -> returns (getitem l i).
Proof.
  intros Hlt. unfold getitem. destruct (nth_error l i) as [a |] eqn:E.
  - now exists a.
  - apply nth_error_None in E. lia.
Qed.

(** Entering [track]: the generator reaches its [yield], having appended one
    start marker and no end marker. *)
Lemma track_enter (s0 : state num) :
  exists resume m,
    track s0 = (Ok resume, snd (track s0)) /\
    start_events (self (snd (track s0))) = start_events (self s0) ++ [m] /\
    end_events (self (snd (track s0))) = end_events (self s0) /\
    device (self (snd (track s0))) = device (self s0) /\
    backend (self (snd (track s0))) = backend (self s0).
Proof.
  destruct s0 as [[dev back dist starts ends t0] w].
  unfold track, bindM, get_self, when, _pytorch_cuda_latency, _cpu_latency,
    yield, ret, barrier, perf_counter, cuda_event_record, append_start.
  cbn [self env distributed].
  destruct dist; cbn [self env distributed];
    destruct (is_pytorch_cuda _); cbn;
    do 2 eexists; repeat split.
Qed.

(** Leaving [track] normally: the generator is resumed and appends one end
    marker. *)
Lemma track_body_returns (s0 : state num) (body : M num Datatypes.unit)
      (s2 : state num) :
  body (snd (track s0)) = (Ok tt, s2) ->
  self s2 = self (snd (track s0)) ->
  exists m m',
    fst (with_ track body s0) = Ok tt /\
    start_events (self (snd (with_ track body s0))) =
    start_events (self s0) ++ [m] /\
    end_events (self (snd (with_ track body s0))) =
    end_events (self s0) ++ [m'].
Proof.
  destruct s0 as [[dev back dist starts ends t0] w].
  destruct s2 as [o2 w2].
  unfold with_, bindM.
  unfold track, bindM, get_self, when, _pytorch_cuda_latency, _cpu_latency,
    yield, ret, barrier, perf_counter, cuda_event_record, append_start,
    append_end.
  cbn.
  destruct dist; cbn; destruct (is_pytorch_cuda _); cbn;
    intros Hbody Hself; rewrite Hbody; subst o2; cbn;
    do 2 eexists; repeat split.
Qed.

(** With fewer end markers than start markers, [get_latency] raises: the
    comprehension reaches an index at which [end_events] has no item. *)
Lemma get_latency_unbalanced (s : state num) :
  List.length (end_events (self s)) < List.length (start_events (self s)) ->
  raises (fst (get_latency s)).
Proof.
  intros Hlt.
  set (i := List.length (end_events (self s))).
  assert (Hin : In i (seq 0 (List.length (start_events (self s)))))
    by (apply in_seq; lia).
  unfold get_latency, bindM, get_self, get_env, lift. cbn [fst snd].
  destruct (is_pytorch_cuda (self s)).
  - destruct (getitem_last (start_events (self s))) as [m1 | e1];
      [| now exists e1].
    cbn [bind]. destruct (synchronize m1) as [[] | e2]; [| now exists e2].
    cbn [bind]. destruct (getitem_last (end_events (self s))) as [m2 | e3];
      [| now exists e3].
    cbn [bind]. destruct (synchronize m2) as [[] | e4]; [| now exists e4].
    cbn [bind].
    match goal with
    | |- context [comprehension ?f ?l] =>
        destruct (@comprehension_raises _ _ f l i Hin) as [e He]
    end.
    + destruct (getitem_in_range (start_events (self s)) Hlt) as [m Hm].
      fold i in Hm. rewrite Hm. cbn [bind].
      rewrite getitem_out_of_range by (subst i; lia). now eexists.
    + rewrite He. now exists e.
  - match goal with
    | |- context [comprehension ?f ?l] =>
        destruct (@comprehension_raises _ _ f l i Hin) as [e He]
    end.
    + rewrite getitem_out_of_range by (subst i; lia). now eexists.
    + rewrite He. now exists e.
Qed.

(** The markers of a tracker are of the kind its timing path records:
    clock readings on the host-clock path, CUDA events on the CUDA path.
    [track] keeps it so. *)
Definition is_host_time (m : marker num) : bool :=
  match m with
  | HostTime _ => true
  | CudaEvent _ => false
  end.

Definition recorded_on_path (o : t num) : Prop :=
  Forall (fun m => is_host_time m = negb (is_pytorch_cuda o)) (start_events o) /\
  Forall (fun m => is_host_time m = negb (is_pytorch_cuda o)) (end_events o).

Lemma getitem_Forall {A : Type} (P : A -> Prop) (l : list A) (i : nat) :
  Forall P l -> i < List.length l -> exists a, getitem l i = Ok a /\ P a.
Proof.
  intros Hall Hlt. unfold getitem.
  destruct (nth_error l i) as [a |] eqn:E.
  - exists a. split; [reflexivity |].
    exact (proj1 (Forall_forall P l) Hall a (nth_error_In _ _ E)).
  - apply nth_error_None in E. lia.
Qed.

Lemma getitem_last_Forall {A : Type} (P : A -> Prop) (l : list A) :
  Forall P l -> l <> [] -> exists a, getitem_last l = Ok a /\ P a.
Proof.
  intros Hall Hne. destruct l as [| x l]; [congruence |].
  unfold getitem_last. apply getitem_Forall; [exact Hall |].
  cbn [List.length]. lia.
Qed.

Lemma seq_split (k n : nat) :
  k < n -> seq 0 n = seq 0 k ++ k :: seq (S k) (n - S k).
Proof.
  intros Hlt. replace n with (k + S (n - S k)) at 1 by lia.
  rewrite seq_app. reflexivity.
Qed.

(** With fewer end markers than start markers, [get_latency] raises
    [IndexError]: the markers are paired up to the first index at which
    [end_events] has no item. *)
Lemma get_latency_dangling (s : state num) :
  recorded_on_path (self s) ->
  List.length (end_events (self s)) < List.length (start_events (self s)) ->
  get_latency s = (Raise (IndexError "list index out of range"), s).
Proof.
  intros [Hstarts Hends] Hlt.
  set (k := List.length (end_events (self s))) in *.
  unfold get_latency, bindM, get_self, get_env, lift. cbn [fst snd].
  destruct (is_pytorch_cuda (self s)) eqn:Hpath; cbn [negb] in Hstarts, Hends.
  - destruct (@getitem_last_Forall _ _ (start_events (self s)) Hstarts)
      as (m1 & -> & Hm1).
    { intros Hnil. rewrite Hnil in Hlt. cbn in Hlt. lia. }
    destruct m1 as [t1 | i1]; [discriminate Hm1 |]. cbn [bind synchronize].
    destruct (end_events (self s)) as [| e0 ends'] eqn:Hends_eq;
      [reflexivity |].
    destruct (@getitem_last_Forall _ _ (e0 :: ends') Hends)
      as (m2 & -> & Hm2); [discriminate |].
    destruct m2 as [t2 | i2]; [discriminate Hm2 |]. cbn [bind synchronize].
    rewrite (seq_split Hlt).
    rewrite (@comprehension_first_raise _ _ _ (seq 0 k) _ k
               (IndexError "list index out of range")); [reflexivity | |].
    + intros i Hi. apply in_seq in Hi.
      destruct (@getitem_Forall _ _ (start_events (self s)) i Hstarts)
        as (a & -> & Ha); [lia |].
      destruct (@getitem_Forall _ _ (e0 :: ends') i Hends)
        as (b & -> & Hb); [fold k; lia |].
      destruct a as [ta | ia]; [discriminate Ha |].
      destruct b as [tb | ib]; [discriminate Hb |].
      cbn [bind elapsed_time]. now eexists.
    + destruct (@getitem_Forall _ _ (start_events (self s)) k Hstarts)
        as (a & -> & Ha); [lia |].
      cbn [bind]. now rewrite getitem_out_of_range by (subst k; lia).
  - rewrite (seq_split Hlt).
    rewrite (@comprehension_first_raise _ _ _ (seq 0 k) _ k
               (IndexError "list index out of range")); [reflexivity | |].
    + intros i Hi. apply in_seq in Hi.
      destruct (@getitem_Forall _ _ (end_events (self s)) i Hends)
        as (b & -> & Hb); [fold k; lia |].
      destruct (@getitem_Forall _ _ (start_events (self s)) i Hstarts)
        as (a & -> & Ha); [lia |].
      destruct a as [ta | ia]; [| discriminate Ha].
      destruct b as [tb | ib]; [| discriminate Hb].
      cbn [bind marker_sub]. now eexists.
    + now rewrite getitem_out_of_range by (subst k; lia).
Qed.

(** One region, whatever the way its body ends: one start marker more, at
    most one end marker more, each of the kind of the path. *)
Lemma region_step (s : state num) (body : M num Datatypes.unit) :
  leaves_tracker_alone body ->
  let s' := snd (with_ track body s) in
  (device (self s') = device (self s) /\ backend (self s') = backend (self s)) /\
  (exists m,
      start_events (self s') = start_events (self s) ++ [m] /\
      is_host_time m = negb (is_pytorch_cuda (self s))) /\
  (end_events (self s') = end_events (self s) \/
   exists m,
     end_events (self s') = end_events (self s) ++ [m] /\
     is_host_time m = negb (is_pytorch_cuda (self s))).
Proof.
  intros Halone. cbv zeta.
  destruct s as [[dev back dist starts ends t0] w].
  cbn [self].
  destruct (is_pytorch_cuda (make dev back dist starts ends t0)) eqn:Hpath;
  unfold with_, track, _pytorch_cuda_latency, _cpu_latency, get_self, when,
    yield, barrier, perf_counter, cuda_event_record, append_start,
    append_end, ret, bindM;
  cbn [self env distributed start_events end_events];
  destruct dist; cbn [self env distributed start_events end_events fst snd];
  rewrite Hpath; cbn [self env distributed start_events end_events fst snd];
    match goal with
    | |- context [body ?st] =>
        pose proof (Halone st) as Hself;
        destruct (body st) as [[[] | e] [o2 w2]]
    end;
    cbn [self env snd] in Hself; subst o2;
    cbn [self env distributed start_events end_events fst snd device backend
         negb is_host_time];
    (split; [split; reflexivity |]);
    (split; [eexists; split; reflexivity |]);
    first [left; reflexivity | right; eexists; split; reflexivity].
Qed.

(** A dangling start marker stays through every later region. *)
Lemma regions_dangling (bodies : list (M num Datatypes.unit)) (s : state num) :
  Forall leaves_tracker_alone bodies ->
  recorded_on_path (self s) ->
  List.length (end_events (self s)) < List.length (start_events (self s)) ->
  recorded_on_path (self (regions bodies s)) /\
  List.length (end_events (self (regions bodies s))) <
  List.length (start_events (self (regions bodies s))).
Proof.
  intros Hbodies. revert s.
  induction Hbodies as [| body bodies Hbody Hbodies IH]; intros s Hpath Hlt;
    [split; assumption |].
  cbn [regions fold_left].
  change (fold_left _ bodies ?s0) with (regions bodies s0).
  destruct (region_step s Hbody) as ((Hdev & Hback) & (m & Hstart & Hm) & Hend).
  assert (Hsame : is_pytorch_cuda
                    (self (snd (with_ track body s))) =
                  is_pytorch_cuda (self s))
    by (unfold is_pytorch_cuda; now rewrite Hdev, Hback).
  destruct Hpath as [Hstarts Hends].
  apply IH.
  - unfold recorded_on_path. rewrite Hsame, Hstart. split.
    + apply Forall_app. split; [exact Hstarts |]. constructor; [exact Hm |].
      constructor.
    + destruct Hend as [-> | (m' & -> & Hm')]; [exact Hends |].
      apply Forall_app. split; [exact Hends |]. constructor; [exact Hm' |].
      constructor.
  - rewrite Hstart, length_app. cbn [List.length].
    destruct Hend as [-> | (m' & -> & Hm')]; [lia |].
    rewrite length_app. cbn [List.length]. lia.
Qed.

(** A fresh tracker has no marker, and so only markers of its path. *)
Lemma init_recorded_on_path (device backend : string) (w : world num) :
  recorded_on_path (self (__init__ device backend w)).
Proof. split; constructor. Qed.

(** After a region whose body raised, the start marker of the region has no
    end marker. *)
Lemma failed_region_dangling (s0 s2 : state num) (body : M num Datatypes.unit)
      (e : exn) :
  body (snd (track s0)) = (Raise e, s2) ->
  self s2 = self (snd (track s0)) ->
  recorded_on_path (self s0) ->
  List.length (end_events (self s0)) <= List.length (start_events (self s0)) ->
  is_pytorch_cuda (self s2) = is_pytorch_cuda (self s0) /\
  recorded_on_path (self s2) /\
  List.length (end_events (self s2)) < List.length (start_events (self s2)).
Proof.
  intros Hbody Hself [Hstarts Hends] Hle.
  destruct (track_enter s0) as (resume & m & Htrack & Hstart & Hend & Hdev & Hback).
  assert (Hsame : is_pytorch_cuda (self s2) = is_pytorch_cuda (self s0))
    by (unfold is_pytorch_cuda; now rewrite Hself, Hdev, Hback).
  assert (Hm : is_host_time m = negb (is_pytorch_cuda (self s0))).
  { clear -Htrack Hstart.
    destruct s0 as [[dev back dist starts ends t0] w].
    revert Htrack Hstart.
    unfold track, bindM, get_self, when, _pytorch_cuda_latency, _cpu_latency,
      yield, ret, barrier, perf_counter, cuda_event_record, append_start.
    cbn [self env distributed].
    destruct dist; cbn [self env distributed];
      destruct (is_pytorch_cuda _); cbn;
      intros _ Hs; apply app_inv_head in Hs; injection Hs as <-;
      reflexivity. }
  split; [exact Hsame | split].
  - unfold recorded_on_path. rewrite Hsame, Hself, Hstart, Hend. split.
    + apply Forall_app. split; [exact Hstarts |].
      constructor; [exact Hm | constructor].
    + exact Hends.
  - rewrite Hself, Hstart, Hend, length_app. cbn [List.length]. lia.
Qed.

(** After [reset()] the host-clock tracker has no marker, and its Latency is
    the empty one. *)
Lemma get_latency_after_reset (s : state num) :
  is_pytorch_cuda (self s) = false ->
  fst (get_latency (snd (reset s))) =
  Ok (Latency.make LATENCY_UNIT zero zero []).
Proof.
  intros Hhost. unfold get_latency, bindM, get_self, get_env, lift.
  change (is_pytorch_cuda (self (snd (reset s))))
    with (is_pytorch_cuda (self s)).
  rewrite Hhost. reflexivity.
Qed.

(** C7, amended.  When the body of a [track()] region raises, the [with]
    statement raises the same exception and leaves the state as the body
    left it: neither the end marker nor the closing barrier is recorded.
    The start marker appended on entry stays.  So, when the tracker held
    markers of its own timing path, no more end than start markers, and the
    body has not touched the tracker, no value is recorded for the region,
    [start_events] is left longer than [end_events], and the next
    [get_latency()] raises [IndexError] instead of computing statistics; it
    raises [IndexError] again after any further regions,
    completed or failed; [reset()] empties both lists of markers, and on the
    host-clock path [get_latency()] then returns the empty Latency. *)
Theorem track_body_exception (s0 : state num) (body : M num Datatypes.unit)
        (e : exn) (s2 : state num) :
  body (snd (track s0)) = (Raise e, s2) ->
  with_ track body s0 = (Raise e, s2) /\
  end_events (self (snd (track s0))) = end_events (self s0) /\
  (exists m,
      start_events (self (snd (track s0))) = start_events (self s0) ++ [m]) /\
  (self s2 = self (snd (track s0)) ->
   recorded_on_path (self s0) ->
   List.length (end_events (self s0)) <= List.length (start_events (self s0)) ->
   List.length (end_events (self s2)) < List.length (start_events (self s2)) /\
   fst (get_latency s2) = Raise (IndexError "list index out of range") /\
   (forall bodies : list (M num Datatypes.unit),
       Forall leaves_tracker_alone bodies ->
       fst (get_latency (regions bodies s2)) =
       Raise (IndexError "list index out of range")) /\
   start_events (self (snd (reset s2))) = [] /\
   end_events (self (snd (reset s2))) = [] /\
   (is_pytorch_cuda (self s0) = false ->
    fst (get_latency (snd (reset s2))) =
    Ok (Latency.make LATENCY_UNIT zero zero []))).
Proof.
  intros Hbody.
  destruct (track_enter s0) as (resume & m & Htrack & Hstart & Hend & Hdev & Hback).
  split; [| split; [exact Hend | split; [now exists m |]]].
  - unfold with_, bindM. rewrite Htrack, Hbody. reflexivity.
  - intros Hself Hpath Hle.
    destruct (@failed_region_dangling s0 s2 body e Hbody Hself Hpath Hle)
      as (Hsame & Hpath2 & Hlt2).
    split; [exact Hlt2 |].
    split; [now rewrite (@get_latency_dangling s2 Hpath2 Hlt2) |].
    split.
    + intros bodies Hbodies.
      destruct (@regions_dangling bodies s2 Hbodies Hpath2 Hlt2) as (Hpath3 & Hlt3).
      now rewrite (@get_latency_dangling _ Hpath3 Hlt3).
    + split; [reflexivity | split; [reflexivity |]].
      intros Hhost. apply get_latency_after_reset.
      now rewrite Hsame.
Qed.

End Tracker.

Example failed_region_trace :
  let after := snd (LatencyTracker.with_ LatencyTracker.track
                      example_failing_body example_tracker) in
  fst (LatencyTracker.with_ LatencyTracker.track
         example_failing_body example_tracker) =
  Raise (OtherError "KeyError" "missing input") /\
  LatencyTracker.start_events (LatencyTracker.self after) =
  [LatencyTracker.HostTime 1%float] /\
  LatencyTracker.end_events (LatencyTracker.self after) = [] /\
  fst (LatencyTracker.get_latency after) =
  Raise (IndexError "list index out of range") /\
  fst (LatencyTracker.get_latency example_tracker) =
  Ok (Latency.make "s" 0%float 0%float []).
Proof. vm_compute. repeat split. Qed.

(** A failed region followed by a completed one: the end marker of the
    second region is paired with the start marker of the failed one, before
    [get_latency] runs out of end markers. *)
Example failed_then_completed_region :
  let s1 := snd (LatencyTracker.with_ LatencyTracker.track
                   example_failing_body example_tracker) in
  let s2 := snd (LatencyTracker.with_ LatencyTracker.track
                   (LatencyTracker.ret tt) s1) in
  LatencyTracker.start_events (LatencyTracker.self s2) =
  [LatencyTracker.HostTime 1%float; LatencyTracker.HostTime 2%float] /\
  LatencyTracker.end_events (LatencyTracker.self s2) =
  [LatencyTracker.HostTime 3%float] /\
  fst (LatencyTracker.get_latency s2) =
  Raise (IndexError "list index out of range").
Proof. vm_compute. repeat split. Qed.

Lemma track_body_exception_witness :
  LatencyTracker.with_ LatencyTracker.track example_failing_body example_tracker =
  (Raise (OtherError "KeyError" "missing input"),
   snd (LatencyTracker.track example_tracker)) /\
  fst (LatencyTracker.get_latency
         (snd (LatencyTracker.track example_tracker))) =
  Raise (IndexError "list index out of range") /\
  fst (LatencyTracker.get_latency
         (regions [LatencyTracker.ret tt]
            (snd (LatencyTracker.track example_tracker)))) =
  Raise (IndexError "list index out of range") /\
  fst (LatencyTracker.get_latency
         (snd (LatencyTracker.reset
                 (snd (LatencyTracker.track example_tracker))))) =
  Ok (Latency.make "s" 0%float 0%float []).
Proof.
  destruct (@track_body_exception float binary64 example_tracker
              example_failing_body (OtherError "KeyError" "missing input")
              (snd (LatencyTracker.track example_tracker)) eq_refl)
    as (Hraise & _ & _ & Hlatency).
  split; [exact Hraise |].
  destruct (Hlatency eq_refl) as (_ & Hnext & Hlater & _ & _ & Hreset).
  - apply init_recorded_on_path.
  - vm_compute. lia.
  - split; [exact Hnext |]. split.
    + apply Hlater. constructor; [| constructor]. intros s. reflexivity.
    + apply Hreset. reflexivity.
Defined.

(** C7 as stated fails: after the failed region [get_latency] raises
    [IndexError], where before it returned the empty Latency. *)
Lemma failed_region_leaves_no_trace_counterexample :
  ~ failed_region_leaves_no_trace (N := binary64).
Proof.
  intros Hclaim.
  destruct (Hclaim example_tracker example_failing_body
              (OtherError "KeyError" "missing input")
              (snd (LatencyTracker.track example_tracker)) eq_refl eq_refl)
    as (_ & _ & Hsame).
  vm_compute in Hsame. discriminate Hsame.
Qed.

(** ** A tracker without regions *)

Section EmptyTracker.
Import LatencyTracker.
Context {num : Type} {N : PyNumber num}.

Lemma init_no_events (device backend : string) (w : world num) :
  start_events (self (__init__ device backend w)) = [] /\
  end_events (self (__init__ device backend w)) = [] /\
  is_pytorch_cuda (self (__init__ device backend w)) =
  String.eqb backend "pytorch" && String.eqb device "cuda".
Proof. repeat split. Qed.

Lemma reset_no_events (s : state num) :
  start_events (self (snd (reset s))) = [] /\
  end_events (self (snd (reset s))) = [] /\
  is_pytorch_cuda (self (snd (reset s))) = is_pytorch_cuda (self s).
Proof. repeat split. Qed.

Lemma get_latency_no_events (s : state num) :
  is_pytorch_cuda (self s) = false ->
  start_events (self s) = [] ->
  get_latency s = (Ok (Latency.make LATENCY_UNIT zero zero []), s).
Proof.
  intros Hhost Hstart.
  unfold get_latency, bindM, get_self, get_env, lift.
  rewrite Hhost, Hstart. reflexivity.
Qed.

(** On the CUDA path the same tracker raises: [start_events[-1]] does not
    exist. *)
Lemma get_latency_no_events_cuda (s : state num) :
  is_pytorch_cuda (self s) = true ->
  start_events (self s) = [] ->
  get_latency s = (Raise (IndexError "list index out of range"), s).
Proof.
  intros Hcuda Hstart.
  unfold get_latency, bindM, get_self, get_env, lift.
  rewrite Hcuda, Hstart. reflexivity.
Qed.

Context {L : PyNumberLaws N}.

(** C10, amended.  [Latency.from_values] of the empty list returns the
    Latency with mean 0, stdev 0 and no values, and does not raise.  So, on
    the host-clock path, a tracker in which no [track()] region was entered
    (fresh from its constructor, or just reset) returns that empty Latency
    from [get_latency()], and [get_throughput] returns value 0 for every
    volume.  A tracker whose only region was left by an exception has
    completed no region either, but its [get_latency()] and
    [get_throughput] raise [IndexError]. *)
Theorem empty_tracker_latency_throughput :
  (forall unit : string,
      Latency.from_values (@nil num) unit = Ok (Latency.make unit zero zero [])) /\
  (forall s : state num,
      is_pytorch_cuda (self s) = false ->
      start_events (self s) = [] ->
      fst (get_latency s) = Ok (Latency.make LATENCY_UNIT zero zero []) /\
      forall (volume : Z) (unit : string),
        fst (get_throughput volume unit s) = Ok (Throughput.make unit zero)) /\
  (forall (device backend : string) (w : world num),
      String.eqb backend "pytorch" && String.eqb device "cuda" = false ->
      fst (get_latency (__init__ device backend w)) =
      Ok (Latency.make LATENCY_UNIT zero zero []) /\
      forall (volume : Z) (unit : string),
        fst (get_throughput volume unit (__init__ device backend w)) =
        Ok (Throughput.make unit zero)) /\
  (forall s : state num,
      is_pytorch_cuda (self s) = false ->
      fst (get_latency (snd (reset s))) =
      Ok (Latency.make LATENCY_UNIT zero zero [])) /\
  (forall (s s2 : state num) (body : M num Datatypes.unit) (e : exn),
      start_events (self s) = [] ->
      end_events (self s) = [] ->
      body (snd (track s)) = (Raise e, s2) ->
      self s2 = self (snd (track s)) ->
      with_ track body s = (Raise e, s2) /\
      fst (get_latency s2) = Raise (IndexError "list index out of range") /\
      forall (volume : Z) (unit : string),
        fst (get_throughput volume unit s2) =
        Raise (IndexError "list index out of range")).
Proof.
  assert (Hempty : forall s : state num,
             is_pytorch_cuda (self s) = false ->
             start_events (self s) = [] ->
             fst (get_latency s) = Ok (Latency.make LATENCY_UNIT zero zero []) /\
             forall (volume : Z) (unit : string),
               fst (get_throughput volume unit s) =
               Ok (Throughput.make unit zero)).
  { intros s Hhost Hstart. split.
    - now rewrite get_latency_no_events.
    - intros volume unit. unfold get_throughput, bindM.
      rewrite get_latency_no_events by assumption.
      unfold lift, Throughput.from_latency. cbn [fst Latency.mean].
      now rewrite gtb_irrefl. }
  split; [intros unit; apply from_values_none |].
  split; [exact Hempty |].
  split; [| split].
  - intros device backend w Hhost. apply Hempty; [exact Hhost | reflexivity].
  - intros s Hhost. apply Hempty; [exact Hhost | reflexivity].
  - intros s s2 body e Hstart Hend Hbody Hself.
    destruct (track_enter s) as (resume & m & Htrack & _).
    split; [unfold with_, bindM; rewrite Htrack, Hbody; reflexivity |].
    assert (Hpath : recorded_on_path (self s))
      by (unfold recorded_on_path; rewrite Hstart, Hend; split; constructor).
    assert (Hle : List.length (end_events (self s)) <=
                  List.length (start_events (self s)))
      by (rewrite Hstart, Hend; reflexivity).
    destruct (@failed_region_dangling _ s s2 body e Hbody Hself Hpath Hle)
      as (_ & Hpath2 & Hlt2).
    split.
    + now rewrite (@get_latency_dangling _ _ s2 Hpath2 Hlt2).
    + intros volume unit. unfold get_throughput, bindM.
      now rewrite (@get_latency_dangling _ _ s2 Hpath2 Hlt2).
Qed.

End EmptyTracker.

Lemma empty_tracker_latency_throughput_witness :
  fst (LatencyTracker.get_latency example_tracker) =
  Ok (Latency.make "s" 0%float 0%float []) /\
  fst (LatencyTracker.get_throughput 32 "samples/s" example_tracker) =
  Ok (Throughput.make "samples/s" 0%float) /\
  fst (LatencyTracker.get_throughput 32 "samples/s"
         (snd (LatencyTracker.with_ LatencyTracker.track example_failing_body
                 example_tracker))) =
  Raise (IndexError "list index out of range").
Proof.
  destruct (empty_tracker_latency_throughput (L := binary64_laws))
    as (_ & _ & Hinit & _ & Hfailed).
  destruct (Hinit "cpu" "pytorch" example_world eq_refl) as (Hlatency & Hthroughput).
  split; [exact Hlatency | split; [exact (Hthroughput 32%Z "samples/s") |]].
  destruct (Hfailed example_tracker
              (snd (LatencyTracker.track example_tracker))
              example_failing_body (OtherError "KeyError" "missing input")
              eq_refl eq_refl eq_refl eq_refl)
    as (Hwith & _ & Hraise).
  rewrite Hwith. exact (Hraise 32%Z "samples/s").
Defined.

(** C10 as stated fails: a fresh host-clock tracker whose one region was
    left by an exception has completed no region, and its [get_latency()]
    raises [IndexError] instead of returning the empty Latency. *)
Lemma zero_completed_regions_give_empty_latency_counterexample :
  ~ zero_completed_regions_give_empty_latency (N := binary64).
Proof.
  intros Hclaim.
  destruct (Hclaim "cpu" "pytorch" example_world [example_failing_body] eq_refl)
    as (Hlatency & _).
  - constructor; [| constructor]. intros s. reflexivity.
  - constructor; [| constructor]. intros s. eexists. reflexivity.
  - vm_compute in Hlatency. discriminate Hlatency.
Qed.

(** ** TorchrunLauncher.launch: the gather step *)

Section Gather.
Import TorchrunLauncher.
Variable BenchmarkReport : Type.
Variable from_json : string -> result BenchmarkReport.
Variable BenchmarkReport_aggregate : list BenchmarkReport -> result BenchmarkReport.

Lemma all_reports_exist_spec (nproc_per_node : nat) (after_join : joined) :
  all_reports_exist nproc_per_node after_join = true <->
  forall rank, rank < nproc_per_node ->
               isfile after_join (report_path rank) = true.
Proof.
  unfold all_reports_exist. rewrite forallb_forall. split.
  - intros Hall rank Hlt. apply Hall, in_seq. lia.
  - intros Hall rank Hin. apply Hall. apply in_seq in Hin. lia.
Qed.

Lemma missing_report_not_all (nproc_per_node : nat) (after_join : joined)
      (rank : nat) :
  rank < nproc_per_node ->
  isfile after_join (report_path rank) = false ->
  all_reports_exist nproc_per_node after_join = false.
Proof.
  intros Hlt Hmissing.
  destruct (all_reports_exist nproc_per_node after_join) eqn:E; [| reflexivity].
  rewrite all_reports_exist_spec in E. rewrite (E rank Hlt) in Hmissing.
  discriminate.
Qed.

Lemma launch_unfold (nproc_per_node : nat) (after_join : joined) :
  TorchrunLauncher.launch from_json BenchmarkReport_aggregate nproc_per_node after_join =
  if all_reports_exist nproc_per_node after_join
  then
    reports <- comprehension (fun rank => from_json (report_path rank))
                 (seq 0 nproc_per_node) ;;
    BenchmarkReport_aggregate reports
  else
    Raise (RuntimeError
             (if (exitcode after_join =? 0)%Z
              then "Could not retrieve report from isolated process."
              else nonzero_exit_message (exitcode after_join))).
Proof.
  unfold TorchrunLauncher.launch, all_reports_exist.
  destruct (forallb _ _).
  - destruct (comprehension _ _) as [reports |]; [| reflexivity].
    cbn [bind]. now destruct (BenchmarkReport_aggregate reports).
  - now destruct (exitcode after_join =? 0)%Z.
Qed.

(** C3.  If one of the [nproc_per_node] rank report files
    [benchmark_report_rank_{rank}.json] is missing after the join, [launch]
    raises [RuntimeError], whatever the exit code of the isolated process.
    A report is returned only when all of these files exist, and it is then
    the aggregation of the reports loaded from all of them, in rank order:
    never of a part of them. *)
Theorem gather_needs_every_rank_report (nproc_per_node : nat) (after_join : joined) :
  (forall rank,
      rank < nproc_per_node ->
      isfile after_join (report_path rank) = false ->
      exists msg, TorchrunLauncher.launch from_json BenchmarkReport_aggregate nproc_per_node after_join = Raise (RuntimeError msg)) /\
  (forall report,
      TorchrunLauncher.launch from_json BenchmarkReport_aggregate nproc_per_node after_join = Ok report ->
      (forall rank, rank < nproc_per_node ->
                    isfile after_join (report_path rank) = true) /\
      exists reports,
        comprehension (fun rank => from_json (report_path rank))
          (seq 0 nproc_per_node) = Ok reports /\
        List.length reports = nproc_per_node /\
        BenchmarkReport_aggregate reports = Ok report).
Proof.
  rewrite launch_unfold. split.
  - intros rank Hlt Hmissing.
    rewrite (@missing_report_not_all _ _ _ Hlt Hmissing). now eexists.
  - intros report Hlaunch.
    destruct (all_reports_exist nproc_per_node after_join) eqn:Hall;
      [| discriminate Hlaunch].
    split; [now apply all_reports_exist_spec |].
    destruct (comprehension _ _) as [reports |] eqn:Hload; [| discriminate Hlaunch].
    exists reports. split; [reflexivity | split; [| exact Hlaunch]].
    rewrite (comprehension_length _ _ Hload). apply length_seq.
Qed.

(** C4, amended.  When the isolated process exits with a non-zero code and
    one of the rank report files is missing, [launch] raises [RuntimeError]
    with that exit code in its message.  When every rank report file exists,
    the exit code is not read: [launch] does what it does for exit code 0,
    loading and aggregating the reports. *)
Theorem nonzero_exit_raises_when_report_missing
        (nproc_per_node : nat) (after_join : joined) :
  exitcode after_join <> 0%Z ->
  (forall rank,
      rank < nproc_per_node ->
      isfile after_join (report_path rank) = false ->
      TorchrunLauncher.launch from_json BenchmarkReport_aggregate nproc_per_node after_join =
      Raise (RuntimeError (nonzero_exit_message (exitcode after_join)))) /\
  ((forall rank, rank < nproc_per_node ->
                 isfile after_join (report_path rank) = true) ->
   TorchrunLauncher.launch from_json BenchmarkReport_aggregate nproc_per_node after_join =
   TorchrunLauncher.launch from_json BenchmarkReport_aggregate nproc_per_node (make_joined (isfile after_join) 0)).
Proof.
  intros Hcode. rewrite !launch_unfold. split.
  - intros rank Hlt Hmissing.
    rewrite (@missing_report_not_all _ _ _ Hlt Hmissing).
    now rewrite (proj2 (Z.eqb_neq _ _) Hcode).
  - intros Hall.
    assert (E : all_reports_exist nproc_per_node after_join = true)
      by now apply all_reports_exist_spec.
    assert (E0 : all_reports_exist nproc_per_node
                   (make_joined (isfile after_join) 0) = true)
      by exact E.
    now rewrite E, E0.
Qed.

End Gather.

Lemma gather_needs_every_rank_report_witness :
  exists msg,
    TorchrunLauncher.launch example_from_json example_aggregate 3
      (example_two_of_three 0) = Raise (RuntimeError msg).
Proof.
  apply (proj1 (gather_needs_every_rank_report example_from_json
                  example_aggregate 3 (example_two_of_three 0)) 2).
  - lia.
  - reflexivity.
Defined.

Example gather_two_of_three :
  TorchrunLauncher.launch example_from_json example_aggregate 3
    (example_two_of_three 0) =
  Raise (RuntimeError "Could not retrieve report from isolated process.") /\
  TorchrunLauncher.launch example_from_json example_aggregate 3
    (example_two_of_three 1) =
  Raise (RuntimeError "Process exited with non-zero code 1.") /\
  TorchrunLauncher.launch example_from_json example_aggregate 2
    (example_two_of_three 0) =
  Ok ["benchmark_report_rank_0.json"; "benchmark_report_rank_1.json"].
Proof. vm_compute. repeat split. Qed.

Lemma nonzero_exit_raises_when_report_missing_witness :
  TorchrunLauncher.launch example_from_json example_aggregate 3
    (example_two_of_three 1) =
  Raise (RuntimeError "Process exited with non-zero code 1.").
Proof.
  apply (proj1 (nonzero_exit_raises_when_report_missing example_from_json
                  example_aggregate 3 (example_two_of_three 1)
                  ltac:(discriminate)) 2).
  - lia.
  - reflexivity.
Defined.

(** C4 as stated fails: both rank reports exist and the isolated process
    exited with code 1; [launch] returns the aggregated report. *)
Lemma nonzero_exit_always_raises_counterexample :
  ~ nonzero_exit_always_raises example_from_json example_aggregate.
Proof.
  intros Hclaim.
  destruct (Hclaim 2 (example_two_of_three 1) ltac:(discriminate)) as [e He].
  vm_compute in He. discriminate He.
Qed.

Example nonzero_exit_all_reports :
  TorchrunLauncher.exitcode (example_two_of_three 1) = 1%Z /\
  TorchrunLauncher.launch example_from_json example_aggregate 2
    (example_two_of_three 1) =
  Ok ["benchmark_report_rank_0.json"; "benchmark_report_rank_1.json"].
Proof. vm_compute. repeat split. Qed.

(* ================================================================== *)
(** * Further properties of the statistics *)

(** ** Indexing and slicing *)

Lemma adjust_bound_range (length step bound : Z) :
  (0 <= length)%Z ->
  (if (step <? 0)%Z
   then (-1 <= adjust_bound length step bound <= length - 1)%Z
   else (0 <= adjust_bound length step bound <= length)%Z).
Proof.
  intros Hlen. unfold adjust_bound.
  destruct (step <? 0)%Z; destruct (bound <? 0)%Z eqn:Hb;
    [destruct (bound + length <? 0)%Z eqn:Hb'
    | destruct (length <=? bound)%Z eqn:Hb'
    | destruct (bound + length <? 0)%Z eqn:Hb'
    | destruct (length <=? bound)%Z eqn:Hb'];
    rewrite ?Z.ltb_lt, ?Z.ltb_ge, ?Z.leb_le, ?Z.leb_gt in *; lia.
Qed.

(** Every index a slice selects lies inside the list. *)
Lemma slice_indices_in_range (sl : slice) (length start step : Z) (count : nat) :
  (0 <= length)%Z ->
  slice_indices sl length = Ok (start, step, count) ->
  forall k, k < count -> (0 <= start + Z.of_nat k * step < length)%Z.
Proof.
  intros Hlen. unfold slice_indices.
  set (st := match slice_step sl with Some st => st | None => 1%Z end).
  destruct (st =? 0)%Z eqn:Hzero; [discriminate |].
  apply Z.eqb_neq in Hzero.
  set (a := match slice_start sl with
            | Some x => adjust_bound length st x
            | None => if (st <? 0)%Z then (length - 1)%Z else 0%Z
            end).
  set (b := match slice_stop sl with
            | Some x => adjust_bound length st x
            | None => if (st <? 0)%Z then (-1)%Z else length
            end).
  assert (Ha : if (st <? 0)%Z then (-1 <= a <= length - 1)%Z
               else (0 <= a <= length)%Z).
  { subst a. destruct (slice_start sl) as [x |].
    - now apply adjust_bound_range.
    - destruct (st <? 0)%Z; lia. }
  assert (Hb : if (st <? 0)%Z then (-1 <= b <= length - 1)%Z
               else (0 <= b <= length)%Z).
  { subst b. destruct (slice_stop sl) as [x |].
    - now apply adjust_bound_range.
    - destruct (st <? 0)%Z; lia. }
  clearbody a b. intros Heq. injection Heq as <- <- <-. intros k Hk.
  destruct (st <? 0)%Z eqn:Hneg.
  - apply Z.ltb_lt in Hneg.
    destruct (b <? a)%Z eqn:Hba; [| cbn in Hk; lia].
    apply Z.ltb_lt in Hba.
    assert (Hq := Z.mul_div_le (a - b - 1) (- st) ltac:(lia)).
    assert (Hq0 : (0 <= (a - b - 1) / (- st))%Z)
      by (apply Z.div_pos; lia).
    assert (Hkq : (Z.of_nat k <= (a - b - 1) / (- st))%Z) by lia.
    nia.
  - apply Z.ltb_ge in Hneg.
    destruct (a <? b)%Z eqn:Hab; [| cbn in Hk; lia].
    apply Z.ltb_lt in Hab.
    assert (Hq := Z.mul_div_le (b - a - 1) st ltac:(lia)).
    assert (Hq0 : (0 <= (b - a - 1) / st)%Z) by (apply Z.div_pos; lia).
    assert (Hkq : (Z.of_nat k <= (b - a - 1) / st)%Z) by lia.
    nia.
Qed.

Lemma comprehension_getitem_total {A : Type} (l : list A) (f : nat -> nat)
      (ks : list nat) :
  (forall k, In k ks -> f k < List.length l) ->
  exists sel,
    comprehension (fun k => getitem l (f k)) ks = Ok sel /\
    List.length sel = List.length ks /\
    Forall (fun x => In x l) sel.
Proof.
  induction ks as [| k ks IH]; intros Hin.
  - exists []. repeat split. constructor.
  - destruct IH as (sel & Hsel & Hlen & Hall);
      [intros k' Hk'; apply Hin; now right |].
    cbn [comprehension bind]. unfold getitem at 1.
    destruct (nth_error l (f k)) as [x |] eqn:Hx.
    + cbn [bind]. rewrite Hsel. cbn [bind]. exists (x :: sel).
      repeat split.
      * cbn. now rewrite Hlen.
      * constructor; [now apply nth_error_In with (f k) | exact Hall].
    + apply nth_error_None in Hx. specialize (Hin k (or_introl eq_refl)). lia.
Qed.

(** A slice whose step is not 0 never raises, whatever its bounds: it
    selects items of the list, no more than the list holds... *)
Lemma getslice_returns {A : Type} (l : list A) (sl : slice) :
  slice_step sl <> Some 0%Z ->
  exists sel,
    getslice l sl = Ok sel /\ Forall (fun x => In x l) sel.
Proof.
  intros Hstep. unfold getslice.
  destruct (slice_indices sl (len l)) as [[[start step] count] | e] eqn:Hix.
  - cbn [bind].
    destruct (@comprehension_getitem_total A l
                (fun k => Z.to_nat (start + Z.of_nat k * step)) (seq 0 count))
      as (sel & Hsel & _ & Hall).
    + intros k Hk. apply in_seq in Hk.
      assert (H := @slice_indices_in_range sl (len l) start step count
                     ltac:(unfold len; lia) Hix k ltac:(lia)).
      unfold len in H. lia.
    + exists sel. now split.
  - exfalso. unfold slice_indices in Hix.
    destruct (slice_step sl) as [st |] eqn:Hst.
    + destruct (st =? 0)%Z eqn:Hz; [| discriminate Hix].
      apply Z.eqb_eq in Hz. subst st. now apply Hstep.
    + cbn in Hix. discriminate Hix.
Qed.

(** ... and a step of 0 raises [ValueError]. *)
Lemma getslice_step_zero {A : Type} (l : list A) (start stop : option Z) :
  getslice l (make_slice start stop (Some 0%Z)) =
  Raise (ValueError "slice step cannot be zero").
Proof. reflexivity. Qed.

Lemma comprehension_getitem_range {A : Type} (l : list A) (a c : nat) :
  a + c <= List.length l ->
  comprehension (fun k => getitem l (a + k)) (seq 0 c) =
  Ok (firstn c (skipn a l)).
Proof.
  revert a l. induction c as [| c IH]; intros a l Hle; [reflexivity |].
  cbn [seq comprehension]. rewrite Nat.add_0_r.
  destruct (skipn a l) as [| x rest] eqn:Hskip.
  { assert (H := length_skipn a l). rewrite Hskip in H. cbn in H. lia. }
  assert (Hx : nth_error l a = Some x).
  { rewrite <- (firstn_skipn a l) at 1.
    rewrite nth_error_app2 by (rewrite length_firstn; lia).
    rewrite length_firstn, Nat.min_l by lia.
    now rewrite Nat.sub_diag, Hskip. }
  unfold getitem at 1. rewrite Hx. cbn [bind].
  rewrite <- seq_shift.
  assert (Hmap : forall (ks : list nat),
             comprehension (fun k => getitem l (a + k)) (map S ks) =
             comprehension (fun k => getitem l (S a + k)) ks).
  { induction ks as [| k ks IHks]; [reflexivity |].
    cbn [map comprehension]. rewrite IHks.
    now replace (a + S k) with (S a + k) by lia. }
  rewrite Hmap, (IH (S a) l) by lia. cbn [bind firstn].
  replace (skipn (S a) l) with rest; [reflexivity |].
  change (S a) with (1 + a). rewrite <- skipn_skipn, Hskip. reflexivity.
Qed.

Lemma comprehension_ext {A B : Type} (f g : A -> result B) (l : list A) :
  (forall x, In x l -> f x = g x) ->
  comprehension f l = comprehension g l.
Proof.
  induction l as [| x l IH]; intros Hfg; [reflexivity |].
  cbn [comprehension]. rewrite (Hfg x (or_introl eq_refl)), IH; [reflexivity |].
  intros y Hy. apply Hfg. now right.
Qed.

(** [lst[a:b]] with [0 <= a <= b <= len(lst)] is the items from position
    [a] up to, not including, position [b]. *)
Lemma getslice_range {A : Type} (l : list A) (a b : nat) :
  a <= b <= List.length l ->
  getslice l (make_slice (Some (Z.of_nat a)) (Some (Z.of_nat b)) None) =
  Ok (firstn (b - a) (skipn a l)).
Proof.
  intros [Hab Hb].
  assert (Hix : slice_indices
                  (make_slice (Some (Z.of_nat a)) (Some (Z.of_nat b)) None)
                  (len l) = Ok (Z.of_nat a, 1%Z, b - a)).
  { unfold slice_indices, adjust_bound, len.
    cbn [slice_step slice_start slice_stop Z.eqb Z.ltb Z.compare].
    replace (Z.of_nat a <? 0)%Z with false by (symmetry; apply Z.ltb_ge; lia).
    replace (Z.of_nat b <? 0)%Z with false by (symmetry; apply Z.ltb_ge; lia).
    destruct (Z.of_nat (List.length l) <=? Z.of_nat a)%Z eqn:Ha;
      destruct (Z.of_nat (List.length l) <=? Z.of_nat b)%Z eqn:Hb';
      rewrite ?Z.leb_le, ?Z.leb_gt in *;
      match goal with
      | |- context [(?x <? ?y)%Z] => destruct (Z.ltb_spec x y)
      end; rewrite ?Z.div_1_r; repeat f_equal; lia. }
  unfold getslice. rewrite Hix. cbn [bind].
  rewrite <- comprehension_getitem_range by lia.
  apply comprehension_ext. intros k _. f_equal. lia.
Qed.


(** ** Latency: statistics are functions of the samples *)

Section LatencyInvariant.
Context {num : Type} {N : PyNumber num}.

(** The mean and stdev stored in [lat] are the ones [from_values] computes
    from the samples stored in [lat]. *)
Definition recomputed (lat : Latency.t num) : Prop :=
  Latency.from_values (Latency.values lat) (Latency.unit lat) = Ok lat.

Lemma bind_Ok {A B : Type} (c : result A) (k : A -> result B) (b : B) :
  bind c k = Ok b -> exists a, c = Ok a /\ k a = Ok b.
Proof. destruct c as [a | e]; [now exists a | discriminate]. Qed.

Lemma from_values_recomputed (values : list num) (unit : string)
      (lat : Latency.t num) :
  Latency.from_values values unit = Ok lat -> recomputed lat.
Proof.
  intros Hlat. unfold recomputed.
  destruct (from_values_Ok _ _ Hlat) as (Hvalues & Hunit & _).
  now rewrite Hvalues, Hunit.
Qed.

(** X1.  Every Latency that [from_values], [__sub__], [__getitem__] or
    [aggregate] returns stores the mean and stdev of its own samples:
    building it again with [from_values] from its values and unit gives the
    same object. *)
Theorem Latency_results_are_recomputed :
  (forall (values : list num) (unit : string) (lat : Latency.t num),
      Latency.from_values values unit = Ok lat -> recomputed lat) /\
  (forall (self : Latency.t num) (scalar : num) (lat : Latency.t num),
      Latency.__sub__ self scalar = Ok lat -> recomputed lat) /\
  (forall (self : Latency.t num) (index : Latency.index) (lat : Latency.t num),
      Latency.__getitem__ self index = Ok lat -> recomputed lat) /\
  (forall (latencies : list (option (Latency.t num))) (lat : Latency.t num),
      Latency.aggregate latencies = Ok (Some lat) -> recomputed lat).
Proof.
  split; [exact from_values_recomputed |].
  split; [intros self scalar lat; apply from_values_recomputed |].
  split.
  - intros self [i | sl] lat; unfold Latency.__getitem__; intros Hget;
      apply bind_Ok in Hget; destruct Hget as (x & _ & Hlat);
      exact (from_values_recomputed _ _ Hlat).
  - intros latencies lat. unfold Latency.aggregate.
    destruct (_ || _); [discriminate |].
    destruct (existsb _ _); [discriminate |].
    intros Hagg.
    apply bind_Ok in Hagg. destruct Hagg as (first & _ & Hagg).
    apply bind_Ok in Hagg. destruct Hagg as (unit & _ & Hagg).
    apply bind_Ok in Hagg. destruct Hagg as (lists & _ & Hagg).
    apply bind_Ok in Hagg. destruct Hagg as (lat' & Hlat & Hsome).
    injection Hsome as <-. exact (from_values_recomputed _ _ Hlat).
Qed.

End LatencyInvariant.

Lemma Latency_results_are_recomputed_witness :
  recomputed (Latency.make "s" 2%float 1%float [1%float; 3%float]) /\
  recomputed (Latency.make "s" 3%float 0%float [3%float]).
Proof.
  destruct (Latency_results_are_recomputed (num := float))
    as (_ & _ & Hgetitem & Haggregate).
  split.
  - apply (Haggregate
             [Some (Latency.make "s" 1%float 0%float [1%float]);
              Some (Latency.make "ms" 3%float 0%float [3%float])]).
    vm_compute. reflexivity.
  - apply (Hgetitem (Latency.make "s" 2%float 1%float [1%float; 3%float])
             (Latency.Int (-1))).
    vm_compute. reflexivity.
Defined.

(** ** Latency.__getitem__ *)

Section LatencyGetitem.
Context {num : Type} {N : PyNumber num}.

Lemma getitem_int_in_range {A : Type} (l : list A) (i : Z) :
  (- len l <= i < len l)%Z ->
  exists x,
    nth_error l (Z.to_nat (i mod len l)) = Some x /\ getitem_int l i = Ok x.
Proof.
  intros Hi. unfold getitem_int.
  assert (Hmod : (i mod len l = if (i <? 0)%Z then i + len l else i)%Z).
  { destruct (Z.ltb_spec i 0).
    - symmetry. apply Z.mod_unique_pos with (-1)%Z; lia.
    - apply Z.mod_small. lia. }
  rewrite Hmod.
  set (i' := if (i <? 0)%Z then (i + len l)%Z else i) in *.
  assert (Hi' : (0 <= i' < len l)%Z)
    by (subst i'; destruct (Z.ltb_spec i 0); lia).
  replace (i' <? 0)%Z with false by (symmetry; apply Z.ltb_ge; lia).
  replace (len l <=? i')%Z with false by (symmetry; apply Z.leb_gt; lia).
  cbn [orb]. unfold getitem.
  destruct (nth_error l (Z.to_nat i')) as [x |] eqn:Hx; [now exists x |].
  apply nth_error_None in Hx. unfold len in Hi'. lia.
Qed.

Lemma getitem_int_out_of_range {A : Type} (l : list A) (i : Z) :
  (i < - len l \/ len l <= i)%Z ->
  getitem_int l i = Raise (IndexError "list index out of range").
Proof.
  intros Hi. unfold getitem_int.
  assert (Hlen : (0 <= len l)%Z) by (unfold len; lia).
  destruct (Z.ltb_spec i 0).
  - destruct (Z.ltb_spec (i + len l) 0); [reflexivity | lia].
  - destruct (Z.ltb_spec i 0); [lia |].
    destruct (Z.leb_spec (len l) i); [reflexivity | lia].
Qed.

Lemma getslice_past_the_end {A : Type} (l : list A) (start : Z) (stop : option Z) :
  (len l <= start)%Z ->
  getslice l (make_slice (Some start) stop None) = Ok [].
Proof.
  intros Hstart.
  assert (Hlen : (0 <= len l)%Z) by (unfold len; lia).
  unfold getslice, slice_indices.
  cbn [slice_step slice_start slice_stop Z.eqb Z.ltb Z.compare].
  assert (Ha : adjust_bound (len l) 1 start = len l).
  { unfold adjust_bound. destruct (Z.ltb_spec start 0); [lia |].
    destruct (Z.leb_spec (len l) start); [reflexivity | lia]. }
  rewrite Ha.
  assert (Hb : (match stop with
                | Some sp => adjust_bound (len l) 1 sp
                | None => len l
                end <= len l)%Z).
  { destruct stop as [sp |]; [| lia].
    assert (H := @adjust_bound_range (len l) 1 sp Hlen).
    cbn [Z.ltb Z.compare] in H. lia. }
  match goal with
  | |- context [(?x <? ?y)%Z] => destruct (Z.ltb_spec x y); [lia |]
  end.
  reflexivity.
Qed.

(** X2.  Indexing a Latency with an [int] inside [-len, len) returns the
    Latency of that one sample (a negative index counting from the end),
    with stdev 0; an [int] outside raises [IndexError].  With a slice whose
    step is not 0 the selection of the samples does not raise, whatever the
    bounds, and the result is [from_values] of the selected samples with the
    same unit (so it raises only as [from_values] does); [lat[a:b]] is
    [from_values] of the samples from position [a] up to [b], and a slice
    that starts past the end gives the empty Latency with mean 0 and
    stdev 0. *)
Theorem Latency_getitem_int_and_slice (self : Latency.t num) :
  (forall i : Z,
      (- len (Latency.values self) <= i < len (Latency.values self))%Z ->
      exists value,
        nth_error (Latency.values self)
          (Z.to_nat (i mod len (Latency.values self))) = Some value /\
        Latency.__getitem__ self (Latency.Int i) =
        Ok (Latency.make (Latency.unit self) (arithmetic_mean [value]) zero
              [value])) /\
  (forall i : Z,
      (i < - len (Latency.values self) \/ len (Latency.values self) <= i)%Z ->
      Latency.__getitem__ self (Latency.Int i) =
      Raise (IndexError "list index out of range")) /\
  (forall sl : slice,
      slice_step sl <> Some 0%Z ->
      exists selected,
        getslice (Latency.values self) sl = Ok selected /\
        Forall (fun value => In value (Latency.values self)) selected /\
        Latency.__getitem__ self (Latency.Slice sl) =
        Latency.from_values selected (Latency.unit self)) /\
  (forall a b : nat,
      a <= b <= List.length (Latency.values self) ->
      Latency.__getitem__ self
        (Latency.Slice (make_slice (Some (Z.of_nat a)) (Some (Z.of_nat b)) None)) =
      Latency.from_values (firstn (b - a) (skipn a (Latency.values self)))
        (Latency.unit self)) /\
  (forall (start : Z) (stop : option Z),
      (len (Latency.values self) <= start)%Z ->
      Latency.__getitem__ self
        (Latency.Slice (make_slice (Some start) stop None)) =
      Ok (Latency.make (Latency.unit self) zero zero [])).
Proof.
  split; [| split; [| split; [| split]]].
  - intros i Hi.
    destruct (@getitem_int_in_range _ (Latency.values self) i Hi)
      as (value & Hnth & Hget).
    exists value. split; [exact Hnth |].
    unfold Latency.__getitem__. rewrite Hget. cbn [bind].
    apply from_values_one.
  - intros i Hi. unfold Latency.__getitem__.
    now rewrite getitem_int_out_of_range.
  - intros sl Hstep.
    destruct (@getslice_returns _ (Latency.values self) sl Hstep)
      as (sel & Hsel & Hall).
    exists sel. split; [exact Hsel | split; [exact Hall |]].
    unfold Latency.__getitem__. rewrite Hsel. reflexivity.
  - intros a b Hab. unfold Latency.__getitem__.
    now rewrite getslice_range.
  - intros start stop Hstart. unfold Latency.__getitem__.
    now rewrite getslice_past_the_end.
Qed.

End LatencyGetitem.

Lemma Latency_getitem_int_and_slice_witness :
  Latency.__getitem__ example_A (Latency.Int 2) =
  Raise (IndexError "list index out of range") /\
  Latency.__getitem__ example_A
    (Latency.Slice (make_slice (Some 5%Z) (Some 9%Z) None)) =
  Ok (Latency.make "s" 0%float 0%float []) /\
  (exists value,
      nth_error (Latency.values example_A) 1 = Some value /\
      Latency.__getitem__ example_A (Latency.Int (-1)) =
      Ok (Latency.make "s" (arithmetic_mean [value]) 0%float [value])).
Proof.
  destruct (Latency_getitem_int_and_slice example_A)
    as (Hin & Hout & _ & _ & Hpast).
  split; [| split].
  - apply Hout. right. vm_compute. discriminate.
  - apply Hpast. vm_compute. discriminate.
  - apply (Hin (-1)%Z). vm_compute. split; [discriminate | reflexivity].
Defined.

Example Latency_getitem_examples :
  Latency.__getitem__ example_A (Latency.Int (-1)) =
  Ok (Latency.make "s" 2%float 0%float [2%float]) /\
  Latency.__getitem__ example_A
    (Latency.Slice (make_slice None None (Some (-1)%Z))) =
  Ok (Latency.make "s" 1.5%float 0.5%float [2%float; 1%float]).
Proof. split; vm_compute; reflexivity. Qed.


(** ** Latency.__sub__ and Latency.aggregate *)

Section LatencySubtraction.
Context {num : Type} {N : PyNumber num}.

Lemma Latency_sub_Ok (self : Latency.t num) (scalar : num)
      (lat : Latency.t num) :
  Latency.__sub__ self scalar = Ok lat ->
  Latency.values lat = map (fun value => sub value scalar) (Latency.values self) /\
  Latency.unit lat = Latency.unit self.
Proof.
  unfold Latency.__sub__. intros Hlat.
  destruct (from_values_Ok _ _ Hlat) as (Hvalues & Hunit & _). now split.
Qed.

Lemma Latency_sub_each_Ok (ls shifted : list (Latency.t num)) (scalar : num) :
  comprehension (fun lat => Latency.__sub__ lat scalar) ls = Ok shifted ->
  map (@Latency.values num) shifted =
  map (fun lat => map (fun value => sub value scalar) (Latency.values lat)) ls /\
  map (@Latency.unit num) shifted = map (@Latency.unit num) ls.
Proof.
  revert shifted. induction ls as [| l ls IH]; intros shifted Hshifted.
  - injection Hshifted as <-. split; reflexivity.
  - cbn [comprehension] in Hshifted.
    apply bind_Ok in Hshifted. destruct Hshifted as (l' & Hl' & Hshifted).
    apply bind_Ok in Hshifted. destruct Hshifted as (rest & Hrest & Hshifted).
    injection Hshifted as <-.
    destruct (Latency_sub_Ok _ _ Hl') as (Hv & Hu).
    destruct (IH rest Hrest) as (Hvalues & Hunits).
    cbn [map]. rewrite Hv, Hu, Hvalues, Hunits. split; reflexivity.
Qed.

(** X3.  Subtracting a bias commutes with aggregation.  On present inputs
    whose aggregate and whose separate subtractions return, subtracting the
    scalar from the aggregate and aggregating the shifted inputs are both
    [from_values] of the shifted samples of all inputs, in input order,
    under the unit of the first input: the one returns a Latency exactly
    when the other does, and then the same Latency. *)
Theorem Latency_sub_commutes_with_aggregate
        (l : Latency.t num) (ls : list (Latency.t num)) (scalar : num)
        (agg : Latency.t num) (shifted : list (Latency.t num)) :
  Latency.aggregate (map Some (l :: ls)) = Ok (Some agg) ->
  comprehension (fun lat => Latency.__sub__ lat scalar) (l :: ls) = Ok shifted ->
  let shifted_values :=
    map (fun value => sub value scalar)
      (List.concat (map (@Latency.values num) (l :: ls))) in
  Latency.__sub__ agg scalar =
  Latency.from_values shifted_values (Latency.unit l) /\
  Latency.aggregate (map Some shifted) =
  (lat <- Latency.from_values shifted_values (Latency.unit l) ;;
   Ok (Some lat)) /\
  (forall shifted_agg,
      Latency.__sub__ agg scalar = Ok shifted_agg <->
      Latency.aggregate (map Some shifted) = Ok (Some shifted_agg)).
Proof.
  intros Hagg Hshifted shifted_values.
  rewrite Latency_aggregate_present in Hagg.
  apply bind_Ok in Hagg. destruct Hagg as (agg' & Hagg & Hsome).
  injection Hsome as ->.
  destruct (from_values_Ok _ _ Hagg) as (Hagg_values & Hagg_unit & _).
  destruct (Latency_sub_each_Ok _ _ Hshifted) as (Hvalues & Hunits).
  assert (Hsub : Latency.__sub__ agg scalar =
                 Latency.from_values shifted_values (Latency.unit l)).
  { unfold Latency.__sub__. now rewrite Hagg_values, Hagg_unit. }
  assert (Haggs : Latency.aggregate (map Some shifted) =
                  (lat <- Latency.from_values shifted_values (Latency.unit l) ;;
                   Ok (Some lat))).
  { destruct shifted as [| l' shifted]; [discriminate Hunits |].
    rewrite Latency_aggregate_present, Hvalues.
    cbn [map] in Hunits. injection Hunits as Hunit _. rewrite Hunit.
    subst shifted_values. now rewrite concat_map, map_map. }
  split; [exact Hsub | split; [exact Haggs |]].
  intros shifted_agg. rewrite Hsub, Haggs.
  destruct (Latency.from_values shifted_values (Latency.unit l))
    as [lat | e]; cbn [bind].
  - split; [intros [= ->]; reflexivity | intros [= ->]; reflexivity].
  - split; discriminate.
Qed.

End LatencySubtraction.

Lemma Latency_sub_commutes_with_aggregate_witness :
  Latency.__sub__ (Latency.make "s" 2%float 1%float [1%float; 3%float])
    1%float =
  Latency.from_values [0%float; 2%float] "s" /\
  Latency.aggregate
    (map Some [Latency.make "s" 0%float 0%float [0%float];
               Latency.make "s" 2%float 0%float [2%float]]) =
  Ok (Some (Latency.make "s" 1%float 1%float [0%float; 2%float])).
Proof.
  assert (Hagg :
            Latency.aggregate
              (map Some [Latency.make "s" 1%float 0%float [1%float];
                         Latency.make "s" 3%float 0%float [3%float]]) =
            Ok (Some (Latency.make "s" 2%float 1%float [1%float; 3%float])))
    by (vm_compute; reflexivity).
  assert (Hshifted :
            comprehension (fun lat => Latency.__sub__ lat 1%float)
              [Latency.make "s" 1%float 0%float [1%float];
               Latency.make "s" 3%float 0%float [3%float]] =
            Ok [Latency.make "s" 0%float 0%float [0%float];
                Latency.make "s" 2%float 0%float [2%float]])
    by (vm_compute; reflexivity).
  destruct (Latency_sub_commutes_with_aggregate _ _ _ Hagg Hshifted)
    as (Hsub & _ & Hsame).
  split; [exact Hsub |].
  apply Hsame. vm_compute. reflexivity.
Defined.

Example Latency_sub_aggregate_example :
  (shifted <- comprehension (fun lat => Latency.__sub__ lat 1%float)
                [Latency.make "s" 1%float 0%float [1%float];
                 Latency.make "s" 3%float 0%float [3%float]] ;;
   Latency.aggregate (map Some shifted)) =
  Ok (Some (Latency.make "s" 1%float 1%float [0%float; 2%float])).
Proof. vm_compute. reflexivity. Qed.


(** ** LatencyTracker: completed regions *)

Section TrackerSamples.
Import LatencyTracker.
Context {num : Type} {N : PyNumber num}.

(** The samples of a tracker on the host-clock path: one difference
    [end - start] per pair of markers. *)
Definition host_samples (starts ends : list num) : list num :=
  map (fun p => sub (fst p) (snd p)) (combine ends starts).

(** The samples of a tracker on the CUDA path: the time the device reports
    between the two events of a pair, in seconds. *)
Definition cuda_samples (w : world num) (starts ends : list nat) : list num :=
  map (fun p => div (cuda_elapsed_ms w (fst p) (snd p)) (of_int 1000))
    (combine starts ends).

Lemma comprehension_seq {B : Type} (f : nat -> result B) (g : nat -> B) (n : nat) :
  (forall i, i < n -> f i = Ok (g i)) ->
  comprehension f (seq 0 n) = Ok (map g (seq 0 n)).
Proof.
  intros Hfg.
  assert (G : forall l, (forall i, In i l -> f i = Ok (g i)) ->
                        comprehension f l = Ok (map g l)).
  { induction l as [| i l IH]; intros Hl; [reflexivity |].
    cbn [comprehension map]. rewrite (Hl i (or_introl eq_refl)). cbn [bind].
    rewrite IH; [reflexivity |]. intros j Hj. apply Hl. now right. }
  apply G. intros i Hi. apply Hfg. apply in_seq in Hi. lia.
Qed.

Lemma map_seq_combine {A B C : Type} (h : A -> B -> C) (xs : list A)
      (ys : list B) (dx : A) (dy : B) :
  List.length xs = List.length ys ->
  map (fun i => h (nth i xs dx) (nth i ys dy)) (seq 0 (List.length xs)) =
  map (fun p => h (fst p) (snd p)) (combine xs ys).
Proof.
  revert ys. induction xs as [| x xs IH]; intros [| y ys] Hlen;
    try discriminate; [reflexivity |].
  cbn [List.length seq map combine fst snd nth]. f_equal.
  rewrite <- seq_shift, map_map. apply IH. now injection Hlen.
Qed.

Lemma combine_snoc {A B : Type} (xs : list A) (ys : list B) (x : A) (y : B) :
  List.length xs = List.length ys ->
  combine (xs ++ [x]) (ys ++ [y]) = combine xs ys ++ [(x, y)].
Proof.
  revert ys. induction xs as [| x' xs IH]; intros [| y' ys] Hlen;
    try discriminate; [reflexivity |].
  cbn [app combine]. f_equal. apply IH. now injection Hlen.
Qed.

Lemma getitem_map_nth {A B : Type} (c : A -> B) (l : list A) (i : nat) (d : A) :
  i < List.length l -> getitem (map c l) i = Ok (c (nth i l d)).
Proof.
  intros Hlt. unfold getitem.
  rewrite nth_error_map, (nth_error_nth' l d Hlt). reflexivity.
Qed.

(** On the host-clock path, a tracker with as many end markers as start
    markers computes its Latency from the differences of the pairs. *)
Lemma get_latency_host_pairs (s : state num) (starts ends : list num) :
  is_pytorch_cuda (self s) = false ->
  start_events (self s) = map HostTime starts ->
  end_events (self s) = map HostTime ends ->
  List.length starts = List.length ends ->
  fst (get_latency s) =
  Latency.from_values (host_samples starts ends) LATENCY_UNIT.
Proof.
  intros Hhost Hstart Hend Hlen.
  unfold get_latency, bindM, get_self, get_env, lift.
  rewrite Hhost, Hstart, Hend. cbn [fst snd].
  rewrite length_map.
  rewrite (@comprehension_seq _ _
             (fun i => sub (nth i ends zero) (nth i starts zero))).
  - cbn [fst snd]. unfold host_samples.
    rewrite Hlen. now rewrite (map_seq_combine sub ends starts zero zero).
  - intros i Hi.
    rewrite (getitem_map_nth HostTime ends zero) by lia. cbn [bind].
    rewrite (getitem_map_nth HostTime starts zero) by lia. reflexivity.
Qed.

(** X4.  On the host-clock path, a [track()] region whose body returns
    adds exactly one sample to the ones the tracker had: the clock reading
    taken when the region is left minus the reading taken when it was
    entered.  (The tracker had as many end as start markers, and the body
    did not touch it.) *)
Theorem completed_region_adds_one_sample
        (s0 s2 : state num) (body : M num Datatypes.unit)
        (starts ends : list num) :
  is_pytorch_cuda (self s0) = false ->
  start_events (self s0) = map HostTime starts ->
  end_events (self s0) = map HostTime ends ->
  List.length starts = List.length ends ->
  body (snd (track s0)) = (Ok tt, s2) ->
  self s2 = self (snd (track s0)) ->
  let entry_time := perf_clock (env s0) (ticks (env s0)) in
  let exit_time := perf_clock (env s2) (ticks (env s2)) in
  fst (with_ track body s0) = Ok tt /\
  fst (get_latency (snd (with_ track body s0))) =
  Latency.from_values
    (host_samples starts ends ++ [sub exit_time entry_time]) LATENCY_UNIT.
Proof.
  intros Hhost Hstart Hend Hlen Hbody Hself entry_time exit_time.
  assert (Hafter :
            fst (with_ track body s0) = Ok tt /\
            is_pytorch_cuda (self (snd (with_ track body s0))) = false /\
            start_events (self (snd (with_ track body s0))) =
            map HostTime (starts ++ [entry_time]) /\
            end_events (self (snd (with_ track body s0))) =
            map HostTime (ends ++ [exit_time])).
  { subst entry_time exit_time. revert Hhost Hstart Hend Hbody Hself.
    destruct s0 as [[dev back dist starts0 ends0 t0] w].
    destruct s2 as [o2 w2].
    unfold with_, bindM.
    unfold track, bindM, get_self, when, _pytorch_cuda_latency, _cpu_latency,
      yield, ret, barrier, perf_counter, cuda_event_record, append_start,
      append_end.
    cbn [self env start_events end_events].
    intros Hhost -> ->. rewrite !map_app. cbn [map].
    destruct dist; cbn; rewrite Hhost; cbn;
      intros Hbody Hself; rewrite Hbody; subst o2; cbn;
      repeat split; exact Hhost. }
  destruct Hafter as (Hok & Hhost' & Hstart' & Hend').
  split; [exact Hok |].
  rewrite (@get_latency_host_pairs _ _ _ Hhost' Hstart' Hend')
    by (rewrite !length_app; cbn; lia).
  unfold host_samples. rewrite combine_snoc by lia.
  rewrite map_app. reflexivity.
Qed.

Lemma truediv_int_1000 (x : num) : truediv_int x 1000 = Ok (div x (of_int 1000)).
Proof. reflexivity. Qed.

(** X5.  On the CUDA path, [get_latency()] of a tracker in which no region
    was entered raises [IndexError] (there is no last start event to
    synchronise), and so does [get_throughput]; with as many end events as
    start events, and at least one pair, it returns the Latency of the
    device times between the events of each pair, divided by 1000. *)
Theorem cuda_tracker_latency (s : state num) :
  is_pytorch_cuda (self s) = true ->
  (start_events (self s) = [] ->
   fst (get_latency s) = Raise (IndexError "list index out of range") /\
   forall (volume : Z) (unit : string),
     fst (get_throughput volume unit s) =
     Raise (IndexError "list index out of range")) /\
  (forall (i j : nat) (starts ends : list nat),
      start_events (self s) = map CudaEvent (i :: starts) ->
      end_events (self s) = map CudaEvent (j :: ends) ->
      List.length starts = List.length ends ->
      fst (get_latency s) =
      Latency.from_values (cuda_samples (env s) (i :: starts) (j :: ends))
        LATENCY_UNIT).
Proof.
  intros Hcuda. split.
  - intros Hstart. split.
    + now rewrite get_latency_no_events_cuda.
    + intros volume unit. unfold get_throughput, bindM.
      now rewrite get_latency_no_events_cuda.
  - intros i j starts ends Hstart Hend Hlen.
    unfold get_latency, bindM, get_self, get_env, lift.
    rewrite Hcuda, Hstart, Hend. cbn [fst snd].
    assert (Hlast : forall (k : nat) (ks : list nat),
               exists m, getitem_last (map (@CudaEvent num) (k :: ks)) =
                         Ok (CudaEvent m)).
    { intros k ks. unfold getitem_last. cbn [map].
      rewrite <- (map_cons (@CudaEvent num) k ks), length_map.
      assert (Hlt : List.length (k :: ks) - 1 < List.length (k :: ks))
        by (cbn; lia).
      rewrite (getitem_map_nth (@CudaEvent num) (k :: ks) 0 Hlt).
      now eexists. }
    destruct (Hlast i starts) as [m1 ->]. cbn [bind synchronize].
    destruct (Hlast j ends) as [m2 ->]. cbn [bind synchronize].
    rewrite length_map.
    rewrite (@comprehension_seq _ _
               (fun k => div (cuda_elapsed_ms (env s)
                                (nth k (i :: starts) 0) (nth k (j :: ends) 0))
                             (of_int 1000))).
    + cbn [fst snd]. unfold cuda_samples.
      rewrite (map_seq_combine
                 (fun a b => div (cuda_elapsed_ms (env s) a b) (of_int 1000))
                 (i :: starts) (j :: ends) 0 0) by (cbn; lia).
      reflexivity.
    + intros k Hk.
      rewrite (getitem_map_nth (@CudaEvent num) (i :: starts) 0) by lia.
      cbn [bind].
      rewrite (getitem_map_nth (@CudaEvent num) (j :: ends) 0)
        by (cbn in *; lia).
      cbn [bind elapsed_time]. apply truediv_int_1000.
Qed.

End TrackerSamples.

Lemma completed_region_adds_one_sample_witness :
  fst (LatencyTracker.get_latency
         (snd (LatencyTracker.with_ LatencyTracker.track
                 (LatencyTracker.ret tt) example_tracker))) =
  Latency.from_values [1%float] LATENCY_UNIT.
Proof.
  refine (proj2 (@completed_region_adds_one_sample float binary64
                   example_tracker
                   (snd (LatencyTracker.track example_tracker))
                   (LatencyTracker.ret tt) [] []
                   eq_refl eq_refl eq_refl eq_refl eq_refl eq_refl)).
Defined.

Lemma cuda_tracker_latency_witness :
  fst (LatencyTracker.get_latency
         (LatencyTracker.__init__ "cuda" "pytorch" example_world)) =
  Raise (IndexError "list index out of range").
Proof.
  exact (proj1 (proj1 (@cuda_tracker_latency float binary64
                         (LatencyTracker.__init__ "cuda" "pytorch" example_world)
                         eq_refl) eq_refl)).
Defined.


(** ** The step-wise collectors *)

Section StepCollectors.
Context {num : Type} {N : PyNumber num}.

(** The differences between each marker and the one before it. *)
Fixpoint consecutive_differences (ts : list num) : list num :=
  match ts with
  | t :: ((t' :: _) as rest) => sub t' t :: consecutive_differences rest
  | _ => []
  end.

Lemma consecutive_differences_length (ts : list num) :
  List.length (consecutive_differences ts) = List.length ts - 1.
Proof.
  induction ts as [| t [| t' rest] IH]; try reflexivity.
  cbn [consecutive_differences List.length] in *. rewrite IH. lia.
Qed.

Lemma consecutive_differences_clock (clock : nat -> num) (n k : nat) :
  consecutive_differences (map clock (seq n (S k))) =
  map (fun i => sub (clock (S i)) (clock i)) (seq n k).
Proof.
  revert n. induction k as [| k IH]; intros n; [reflexivity |].
  specialize (IH (S n)).
  change (seq n (S (S k))) with (n :: S n :: seq (S (S n)) k).
  change (seq n (S k)) with (n :: seq (S n) k).
  change (seq (S n) (S k)) with (S n :: seq (S (S n)) k) in IH.
  cbn [map] in *.
  change (consecutive_differences
            (clock n :: clock (S n) :: map clock (seq (S (S n)) k)))
    with (sub (clock (S n)) (clock n) ::
          consecutive_differences
            (clock (S n) :: map clock (seq (S (S n)) k))).
  now rewrite IH.
Qed.

Lemma comprehension_seq_from {B : Type} (f : nat -> result B) (g : nat -> B)
      (a n : nat) :
  (forall i, a <= i < a + n -> f i = Ok (g i)) ->
  comprehension f (seq a n) = Ok (map g (seq a n)).
Proof.
  revert a. induction n as [| n IH]; intros a Hfg; [reflexivity |].
  cbn [seq comprehension map]. rewrite (Hfg a) by lia. cbn [bind].
  rewrite IH; [reflexivity |]. intros i Hi. apply Hfg. lia.
Qed.

Lemma map_steps (ts : list num) :
  map (fun i => sub (nth i ts zero) (nth (i - 1) ts zero))
    (seq 1 (List.length ts - 1)) =
  consecutive_differences ts.
Proof.
  induction ts as [| t [| t' rest] IH]; try reflexivity.
  replace (List.length (t :: t' :: rest) - 1) with (S (List.length rest))
    by (cbn [List.length]; lia).
  replace (List.length (t' :: rest) - 1) with (List.length rest) in IH
    by (cbn [List.length]; lia).
  change (consecutive_differences (t :: t' :: rest))
    with (sub t' t :: consecutive_differences (t' :: rest)).
  rewrite <- IH. cbn [seq map nth Nat.sub]. f_equal.
  rewrite <- seq_shift, map_map.
  apply map_ext_in. intros i Hi. apply in_seq in Hi.
  destruct i as [| i]; [lia |]. cbn [nth Nat.sub]. now rewrite Nat.sub_0_r.
Qed.

(** The comprehension of both collectors on host markers. *)
Lemma host_steps (ts : list num) :
  comprehension
    (fun i =>
       current <- getitem (map (@LatencyTracker.HostTime num) ts) i ;;
       previous <- getitem (map (@LatencyTracker.HostTime num) ts) (i - 1) ;;
       LatencyTracker.marker_sub current previous)
    (range 1 (List.length (map (@LatencyTracker.HostTime num) ts))) =
  Ok (consecutive_differences ts).
Proof.
  unfold range. rewrite length_map.
  rewrite (@comprehension_seq_from _ _
             (fun i => sub (nth i ts zero) (nth (i - 1) ts zero))).
  - now rewrite map_steps.
  - intros i Hi.
    rewrite (getitem_map_nth (@LatencyTracker.HostTime num) ts zero) by lia.
    cbn [bind].
    rewrite (getitem_map_nth (@LatencyTracker.HostTime num) ts zero) by lia.
    reflexivity.
Qed.

(** [k] calls of [on_step_begin], one after the other. *)
Definition steps (k : nat)
           (st : LatencyTrainerCallback.t num * LatencyTracker.world num)
  : LatencyTrainerCallback.t num * LatencyTracker.world num :=
  Nat.iter k
    (fun st => LatencyTrainerCallback.on_step_begin (fst st) (snd st)) st.

Lemma on_step_begin_host (self : LatencyTrainerCallback.t num)
      (w : LatencyTracker.world num) :
  LatencyTrainerCallback.is_cuda_pytorch self = false ->
  LatencyTrainerCallback.on_step_begin self w =
  (LatencyTrainerCallback.append self
     (LatencyTracker.HostTime
        (LatencyTracker.perf_clock w (LatencyTracker.ticks w))),
   snd (read_clock w)).
Proof.
  intros Hhost. unfold LatencyTrainerCallback.on_step_begin.
  now rewrite Hhost.
Qed.

Lemma steps_S (k : nat)
      (st : LatencyTrainerCallback.t num * LatencyTracker.world num) :
  steps (S k) st =
  LatencyTrainerCallback.on_step_begin (fst (steps k st)) (snd (steps k st)).
Proof. reflexivity. Qed.

Lemma steps_host (k : nat) (self : LatencyTrainerCallback.t num)
      (w : LatencyTracker.world num) :
  LatencyTrainerCallback.is_cuda_pytorch self = false ->
  LatencyTrainerCallback.is_cuda_pytorch (fst (steps k (self, w))) = false /\
  LatencyTrainerCallback.events (fst (steps k (self, w))) =
  LatencyTrainerCallback.events self ++
  map (@LatencyTracker.HostTime num)
      (map (LatencyTracker.perf_clock w) (seq (LatencyTracker.ticks w) k)) /\
  LatencyTracker.perf_clock (snd (steps k (self, w))) =
  LatencyTracker.perf_clock w /\
  LatencyTracker.ticks (snd (steps k (self, w))) = LatencyTracker.ticks w + k.
Proof.
  intros Hhost. induction k as [| k (IHhost & IHevents & IHclock & IHticks)].
  - cbn. rewrite app_nil_r, Nat.add_0_r. auto.
  - rewrite steps_S, (on_step_begin_host _ _ IHhost).
    unfold read_clock.
    cbn [fst snd LatencyTrainerCallback.append LatencyTrainerCallback.events
         LatencyTracker.perf_clock LatencyTracker.ticks].
    split; [exact IHhost |].
    split; [| split; [exact IHclock | lia]].
    rewrite IHevents, IHclock, IHticks, seq_S, !map_app, <- app_assoc.
    reflexivity.
Qed.

(** X6.  [LatencyTrainerCallback] on the host-clock path: [get_latency()]
    returns the Latency of the differences between consecutive markers, one
    fewer than there are markers, and the empty Latency when there are fewer
    than two markers (it never raises).  After [reset()], [k] calls of
    [on_step_begin] followed by [on_train_end] give exactly [k] samples,
    sample [i] being the time between reading [i] and reading [i + 1] of the
    clock; without [on_train_end] the last step is not measured and only
    [k - 1] samples come out. *)
Theorem trainer_callback_steps (self : LatencyTrainerCallback.t num)
        (w : LatencyTracker.world num) :
  LatencyTrainerCallback.is_cuda_pytorch self = false ->
  (forall ts : list num,
      LatencyTrainerCallback.events self =
      map (@LatencyTracker.HostTime num) ts ->
      LatencyTrainerCallback.get_latency self w =
      Latency.from_values (consecutive_differences ts) LATENCY_UNIT /\
      List.length (consecutive_differences ts) = List.length ts - 1) /\
  (forall k : nat,
      let started := steps k (LatencyTrainerCallback.reset self, w) in
      let ended :=
        LatencyTrainerCallback.on_train_end (fst started) (snd started) in
      let step_time i :=
        sub (LatencyTracker.perf_clock w (S i)) (LatencyTracker.perf_clock w i) in
      LatencyTrainerCallback.get_latency (fst ended) (snd ended) =
      Latency.from_values (map step_time (seq (LatencyTracker.ticks w) k))
        LATENCY_UNIT /\
      LatencyTrainerCallback.get_latency (fst started) (snd started) =
      Latency.from_values
        (map step_time (seq (LatencyTracker.ticks w) (k - 1))) LATENCY_UNIT).
Proof.
  intros Hhost.
  assert (Hget : forall (self' : LatencyTrainerCallback.t num)
                        (w' : LatencyTracker.world num) (ts : list num),
             LatencyTrainerCallback.is_cuda_pytorch self' = false ->
             LatencyTrainerCallback.events self' =
             map (@LatencyTracker.HostTime num) ts ->
             LatencyTrainerCallback.get_latency self' w' =
             Latency.from_values (consecutive_differences ts) LATENCY_UNIT).
  { intros self' w' ts Hhost' Hevents.
    unfold LatencyTrainerCallback.get_latency.
    now rewrite Hhost', Hevents, host_steps. }
  split.
  - intros ts Hevents. split; [now apply Hget |].
    apply consecutive_differences_length.
  - intros k started ended step_time.
    destruct (@steps_host k (LatencyTrainerCallback.reset self) w Hhost)
      as (Hhost' & Hevents & Hclock & Hticks).
    fold started in Hhost', Hevents, Hclock, Hticks.
    cbn [LatencyTrainerCallback.reset LatencyTrainerCallback.events app]
      in Hevents.
    split.
    + subst ended. unfold LatencyTrainerCallback.on_train_end.
      rewrite Hhost'. unfold read_clock. cbn [fst snd].
      rewrite (Hget _ _ (map (LatencyTracker.perf_clock w)
                           (seq (LatencyTracker.ticks w) (S k)))).
      * now rewrite consecutive_differences_clock.
      * exact Hhost'.
      * cbn [LatencyTrainerCallback.append LatencyTrainerCallback.events].
        rewrite Hevents, Hclock, Hticks, seq_S, !map_app. reflexivity.
    + rewrite (Hget _ _ _ Hhost' Hevents).
      destruct k as [| k]; [reflexivity |].
      rewrite consecutive_differences_clock. cbn [Nat.sub].
      now rewrite Nat.sub_0_r.
Qed.

(** [k] calls of the logits processor, one after the other. *)
Definition calls {Ids Scores : Type} (k : nat) (input_ids : Ids)
           (scores : Scores)
           (st : LatencyLogitsProcessor.t num * LatencyTracker.world num)
  : LatencyLogitsProcessor.t num * LatencyTracker.world num :=
  Nat.iter k
    (fun st =>
       let '(_, self', w') :=
         LatencyLogitsProcessor.__call__ (fst st) (snd st) input_ids scores in
       (self', w'))
    st.

Lemma call_host {Ids Scores : Type} (self : LatencyLogitsProcessor.t num)
      (w : LatencyTracker.world num) (input_ids : Ids) (scores : Scores) :
  LatencyLogitsProcessor.is_cuda_pytorch self = false ->
  LatencyLogitsProcessor.__call__ self w input_ids scores =
  (scores,
   LatencyLogitsProcessor.make (LatencyLogitsProcessor.device self)
     (LatencyLogitsProcessor.backend self)
     (LatencyLogitsProcessor.events self ++
      [LatencyTracker.HostTime
         (LatencyTracker.perf_clock w (LatencyTracker.ticks w))]),
   snd (read_clock w)).
Proof.
  intros Hhost. unfold LatencyLogitsProcessor.__call__. now rewrite Hhost.
Qed.

Lemma calls_S {Ids Scores : Type} (k : nat) (input_ids : Ids) (scores : Scores)
      (st : LatencyLogitsProcessor.t num * LatencyTracker.world num) :
  calls (S k) input_ids scores st =
  (let '(_, self', w') :=
     LatencyLogitsProcessor.__call__ (fst (calls k input_ids scores st))
       (snd (calls k input_ids scores st)) input_ids scores in
   (self', w')).
Proof. reflexivity. Qed.

Lemma calls_host {Ids Scores : Type} (k : nat) (input_ids : Ids)
      (scores : Scores) (self : LatencyLogitsProcessor.t num)
      (w : LatencyTracker.world num) :
  LatencyLogitsProcessor.is_cuda_pytorch self = false ->
  LatencyLogitsProcessor.is_cuda_pytorch
    (fst (calls k input_ids scores (self, w))) = false /\
  LatencyLogitsProcessor.events (fst (calls k input_ids scores (self, w))) =
  LatencyLogitsProcessor.events self ++
  map (@LatencyTracker.HostTime num)
      (map (LatencyTracker.perf_clock w) (seq (LatencyTracker.ticks w) k)) /\
  LatencyTracker.perf_clock (snd (calls k input_ids scores (self, w))) =
  LatencyTracker.perf_clock w /\
  LatencyTracker.ticks (snd (calls k input_ids scores (self, w))) =
  LatencyTracker.ticks w + k.
Proof.
  intros Hhost. induction k as [| k (IHhost & IHevents & IHclock & IHticks)].
  - cbn. rewrite app_nil_r, Nat.add_0_r. auto.
  - rewrite calls_S, (call_host _ _ input_ids scores IHhost).
    unfold read_clock.
    cbn [fst snd LatencyLogitsProcessor.events
         LatencyTracker.perf_clock LatencyTracker.ticks].
    split; [exact IHhost |].
    split; [| split; [exact IHclock | lia]].
    rewrite IHevents, IHclock, IHticks, seq_S, !map_app, <- app_assoc.
    reflexivity.
Qed.

(** X7.  [LatencyLogitsProcessor] on the host-clock path: a call hands the
    scores back unchanged; right after [reset()] there is one marker and
    [get_latency()] returns the empty Latency; after [reset()] and [k]
    calls, [get_latency()] returns exactly [k] samples, sample [i] being the
    time between reading [i] and reading [i + 1] of the clock. *)
Theorem logits_processor_tokens {Ids Scores : Type}
        (self : LatencyLogitsProcessor.t num) (w : LatencyTracker.world num)
        (input_ids : Ids) (scores : Scores) :
  LatencyLogitsProcessor.is_cuda_pytorch self = false ->
  fst (fst (LatencyLogitsProcessor.__call__ self w input_ids scores)) = scores /\
  (let fresh := LatencyLogitsProcessor.reset self w in
   LatencyLogitsProcessor.get_latency (fst fresh) (snd fresh) =
   Ok (Latency.make LATENCY_UNIT zero zero [])) /\
  (forall k : nat,
      let st := calls k input_ids scores (LatencyLogitsProcessor.reset self w) in
      let token_time i :=
        sub (LatencyTracker.perf_clock w (S i)) (LatencyTracker.perf_clock w i) in
      LatencyLogitsProcessor.get_latency (fst st) (snd st) =
      Latency.from_values (map token_time (seq (LatencyTracker.ticks w) k))
        LATENCY_UNIT).
Proof.
  intros Hhost.
  assert (Hget : forall (self' : LatencyLogitsProcessor.t num)
                        (w' : LatencyTracker.world num) (ts : list num),
             LatencyLogitsProcessor.is_cuda_pytorch self' = false ->
             LatencyLogitsProcessor.events self' =
             map (@LatencyTracker.HostTime num) ts ->
             LatencyLogitsProcessor.get_latency self' w' =
             Latency.from_values (consecutive_differences ts) LATENCY_UNIT).
  { intros self' w' ts Hhost' Hevents.
    unfold LatencyLogitsProcessor.get_latency.
    now rewrite Hhost', Hevents, host_steps. }
  assert (Hreset :
            LatencyLogitsProcessor.reset self w =
            (LatencyLogitsProcessor.make (LatencyLogitsProcessor.device self)
               (LatencyLogitsProcessor.backend self)
               [LatencyTracker.HostTime
                  (LatencyTracker.perf_clock w (LatencyTracker.ticks w))],
             snd (read_clock w))).
  { unfold LatencyLogitsProcessor.reset. now rewrite Hhost. }
  split; [| split].
  - unfold LatencyLogitsProcessor.__call__. now rewrite Hhost.
  - cbn zeta. rewrite Hreset. cbn [fst snd].
    now rewrite (Hget _ _ [LatencyTracker.perf_clock w (LatencyTracker.ticks w)]).
  - intros k st token_time. subst st. rewrite Hreset.
    destruct (@calls_host Ids Scores k input_ids scores
                (LatencyLogitsProcessor.make (LatencyLogitsProcessor.device self)
                   (LatencyLogitsProcessor.backend self)
                   [LatencyTracker.HostTime
                      (LatencyTracker.perf_clock w (LatencyTracker.ticks w))])
                (snd (read_clock w)) Hhost)
      as (Hhost' & Hevents & _ & _).
    rewrite (Hget _ _ (map (LatencyTracker.perf_clock w)
                         (seq (LatencyTracker.ticks w) (S k))) Hhost').
    + now rewrite consecutive_differences_clock.
    + rewrite Hevents. reflexivity.
Qed.

End StepCollectors.

Lemma trainer_callback_steps_witness :
  let started :=
    steps 3 (LatencyTrainerCallback.reset
               (LatencyTrainerCallback.__init__ "cpu" "pytorch"), example_world) in
  let ended := LatencyTrainerCallback.on_train_end (fst started) (snd started) in
  LatencyTrainerCallback.get_latency (fst ended) (snd ended) =
  Ok (Latency.make "s" 1%float 0%float [1%float; 1%float; 1%float]) /\
  LatencyTrainerCallback.get_latency (fst started) (snd started) =
  Ok (Latency.make "s" 1%float 0%float [1%float; 1%float]).
Proof.
  cbn zeta.
  destruct (proj2 (@trainer_callback_steps float binary64
                     (LatencyTrainerCallback.__init__ "cpu" "pytorch")
                     example_world eq_refl) 3) as (Hended & Hstarted).
  split.
  - rewrite Hended. vm_compute. reflexivity.
  - rewrite Hstarted. vm_compute. reflexivity.
Defined.

Lemma logits_processor_tokens_witness :
  let st :=
    calls 2 tt "scores"
      (LatencyLogitsProcessor.__init__ "cpu" "pytorch" example_world) in
  LatencyLogitsProcessor.get_latency (fst st) (snd st) =
  Ok (Latency.make "s" 1%float 0%float [1%float; 1%float]).
Proof.
  cbn zeta.
  destruct (@logits_processor_tokens float binary64 Datatypes.unit string
              (LatencyLogitsProcessor.make "cpu" "pytorch" [])
              example_world tt "scores" eq_refl) as (_ & _ & Hcalls).
  unfold LatencyLogitsProcessor.__init__.
  rewrite (Hcalls 2). vm_compute. reflexivity.
Defined.


(** ** EnergyTracker *)

Section EnergyTrackerInit.
Import EnergyTracker.
Context {num : Type}.


(** X8.  The device ids of [EnergyTracker(backend, device, device_ids)]:
    on a device other than ["cuda"] the argument is not read, the tracker is
    the same whatever was passed; on ["cuda"], [None] raises [ValueError]
    ("GPU device IDs must be provided ...") and a value of another type
    raises [ValueError] too, both before codecarbon is looked for; an [int]
    becomes the list of that one id and a list is taken as it is; a string
    is split at its commas and every piece must be accepted by [int], the
    first rejected piece raising. *)
Theorem energy_tracker_device_ids (h : host) (backend device : string) :
  (String.eqb device "cuda" = false ->
   forall ids ids' : device_ids_arg,
     __init__ (num := num) h backend device ids =
     __init__ (num := num) h backend device ids' /\
     forall tracker : t num,
       __init__ h backend device ids = Ok tracker ->
       device_ids tracker = []) /\
  (String.eqb device "cuda" = true ->
   __init__ (num := num) h backend device IdsNone =
   Raise (ValueError
            "GPU device IDs must be provided for energy tracking on GPUs") /\
   __init__ (num := num) h backend device IdsOther =
   Raise (ValueError
            "GPU device IDs must be a string, an integer, or a list of integers") /\
   (forall (ids : device_ids_arg) (tracker : t num),
       __init__ h backend device ids = Ok tracker ->
       match ids with
       | IdsInt i => device_ids tracker = [i]
       | IdsList l => device_ids tracker = l
       | IdsStr s =>
           comprehension (int_of_str h) (split_on comma s) =
           Ok (device_ids tracker)
       | IdsNone | IdsOther => False
       end) /\
   (forall (s : string) (piece : string),
       In piece (split_on comma s) ->
       raises (int_of_str h piece) ->
       raises (__init__ (num := num) h backend device (IdsStr s)))).
Proof.
  assert (Hids : forall (ids : device_ids_arg) (tracker : t num),
             __init__ h backend device ids = Ok tracker ->
             init_device_ids h device ids = Ok (device_ids tracker)).
  { intros ids tracker. unfold __init__.
    destruct (init_device_ids h device ids) as [l |]; [| discriminate].
    cbn [bind]. destruct (negb _); [discriminate |].
    destruct (online_raises h _).
    - destruct (offline_raises h _); [discriminate |].
      cbn [bind]. intros Heq. injection Heq as <-. reflexivity.
    - cbn [bind]. intros Heq. injection Heq as <-. reflexivity. }
  split.
  - intros Hdevice ids ids'. split.
    + unfold __init__, init_device_ids. now rewrite Hdevice.
    + intros tracker Htracker. apply Hids in Htracker.
      unfold init_device_ids in Htracker. rewrite Hdevice in Htracker.
      now injection Htracker.
  - intros Hdevice. split; [| split; [| split]].
    + unfold __init__, init_device_ids. now rewrite Hdevice.
    + unfold __init__, init_device_ids. now rewrite Hdevice.
    + intros ids tracker Htracker. apply Hids in Htracker.
      unfold init_device_ids in Htracker. rewrite Hdevice in Htracker.
      destruct ids; try discriminate Htracker; try exact Htracker;
        now injection Htracker.
    + intros s piece Hin Hraises.
      destruct (comprehension_raises (int_of_str h) (split_on comma s) piece
                  Hin Hraises) as [e He].
      exists e. unfold __init__, init_device_ids. now rewrite Hdevice, He.
Qed.


End EnergyTrackerInit.

(** A host with codecarbon but no network: building the online tracker
    raises; [int] is taken to accept the strings ["0"] and ["1"]. *)
Definition example_host : EnergyTracker.host :=
  {| EnergyTracker.codecarbon_available := true;
     EnergyTracker.distributed_initialized := false;
     EnergyTracker.environ := fun _ => None;
     EnergyTracker.int_of_str :=
       fun s => if String.eqb s "0" then Ok 0%Z
                else if String.eqb s "1" then Ok 1%Z
                else Raise (ValueError "invalid literal for int() with base 10");
     EnergyTracker.online_raises :=
       fun _ => Some (OtherError "ConnectionError" "no network");
     EnergyTracker.offline_raises := fun _ => None |}.

Lemma energy_tracker_device_ids_witness :
  EnergyTracker.__init__ (num := float) example_host "pytorch" "cuda"
    EnergyTracker.IdsNone =
  Raise (ValueError
           "GPU device IDs must be provided for energy tracking on GPUs") /\
  raises (EnergyTracker.__init__ (num := float) example_host "pytorch" "cuda"
            (EnergyTracker.IdsStr "0,x")) /\
  EnergyTracker.__init__ (num := float) example_host "pytorch" "cpu"
    EnergyTracker.IdsNone =
  EnergyTracker.__init__ (num := float) example_host "pytorch" "cpu"
    (EnergyTracker.IdsStr "0,x").
Proof.
  destruct (@energy_tracker_device_ids float example_host "pytorch" "cuda")
    as (_ & Hcuda).
  destruct (Hcuda eq_refl) as (Hnone & _ & _ & Hstr).
  destruct (@energy_tracker_device_ids float example_host "pytorch" "cpu")
    as (Hcpu & _).
  split; [exact Hnone | split].
  - apply (Hstr "0,x" "x").
    + vm_compute. right. now left.
    + now eexists.
  - exact (proj1 (Hcpu eq_refl EnergyTracker.IdsNone
                    (EnergyTracker.IdsStr "0,x"))).
Defined.



Section EnergyTrackerTrack.
Import EnergyTracker.
Context {num : Type}.

(** Entering [track]: one more task is started on the sampler; the tracker
    itself, the files and the tasks stopped are as before. *)
Lemma energy_track_enter (file_prefix : string) (s0 : state num) :
  exists gen,
    track file_prefix s0 = (Ok gen, snd (track file_prefix s0)) /\
    self (snd (track file_prefix s0)) = self s0 /\
    tasks_started (env (snd (track file_prefix s0))) =
    S (tasks_started (env s0)) /\
    tasks_stopped (env (snd (track file_prefix s0))) = tasks_stopped (env s0) /\
    files (env (snd (track file_prefix s0))) = files (env s0) /\
    readings (env (snd (track file_prefix s0))) = readings (env s0).
Proof.
  destruct s0 as [o w].
  unfold track, ST.bind, ST.get, ST.when, ST.yield, ST.ret, barrier,
    cuda_synchronize, start_task, ST.modify.
  cbn [self env].
  destruct (negb (is_engine o) && is_distributed o); cbn [self env];
    destruct (is_asynchronous o); cbn; eexists; repeat split.
Qed.

(** The statements of [track] after its [yield]. *)
Definition track_exit (file_prefix : string) : ST.M (state num) Datatypes.unit :=
  (s <- ST.get ;;
   ST.when (negb (is_engine (self s)) && is_distributed (self s)) barrier ;;
   s <- ST.get ;;
   ST.when (is_asynchronous (self s)) cuda_synchronize ;;
   emission_data <- stop_task ;;
   dump_json (file_prefix ++ "_codecarbon.json")%string emission_data ;;
   set_energies emission_data)%st.

Lemma energy_track_suspends (file_prefix : string) (s0 : state num) :
  fst (track file_prefix s0) =
  Ok (ST.make_suspended (track_exit file_prefix) (fun e => ST.raise e)).
Proof.
  destruct s0 as [o w].
  unfold track, ST.bind, ST.get, ST.when, ST.yield, ST.ret, barrier,
    cuda_synchronize, start_task, ST.modify.
  cbn [self env].
  destruct (negb (is_engine o) && is_distributed o); cbn [self env];
    destruct (is_asynchronous o); reflexivity.
Qed.

Lemma energy_with_track (file_prefix : string) (s0 : state num)
      (body : ST.M (state num) Datatypes.unit) :
  ST.with_ (track file_prefix) body s0 =
  match body (snd (track file_prefix s0)) with
  | (Ok _, s2) => track_exit file_prefix s2
  | (Raise e, s2) => (Raise e, s2)
  end.
Proof.
  unfold ST.with_, ST.bind.
  assert (H := energy_track_suspends file_prefix s0).
  destruct (track file_prefix s0) as [r s1]. cbn [fst snd] in *. subst r.
  reflexivity.
Qed.

Lemma energy_track_exit (file_prefix : string) (s2 : state num) :
  let emission_data := readings (env s2) (tasks_stopped (env s2)) in
  fst (track_exit file_prefix s2) = Ok tt /\
  get_energy (self (snd (track_exit file_prefix s2))) =
  {| Energy.unit := ENERGY_UNIT;
     Energy.cpu := Some (cpu_energy emission_data);
     Energy.ram := Some (ram_energy emission_data);
     Energy.gpu := Some (gpu_energy emission_data);
     Energy.total := Some (energy_consumed emission_data) |} /\
  tasks_stopped (env (snd (track_exit file_prefix s2))) =
  S (tasks_stopped (env s2)) /\
  files (env (snd (track_exit file_prefix s2))) =
  ((file_prefix ++ "_codecarbon.json")%string, emission_data) ::
  filter (fun f => negb (String.eqb (fst f)
                           (file_prefix ++ "_codecarbon.json")%string))
    (files (env s2)).
Proof.
  destruct s2 as [o w].
  unfold track_exit, ST.bind, ST.get, ST.when, ST.ret, barrier,
    cuda_synchronize, stop_task, dump_json, set_energies, ST.modify.
  cbn [self env].
  destruct (negb (is_engine o) && is_distributed o); cbn [self env];
    destruct (is_asynchronous o); cbn; repeat split.
Qed.

(** X10.  An [EnergyTracker.track(file_prefix)] region whose body returns:
    the sampler's task is stopped once, the record it returns is written to
    [{file_prefix}_codecarbon.json] (replacing a file of that name), and
    [get_energy()] afterwards returns the Energy, in kWh, whose total, cpu,
    gpu and ram are the consumed, cpu, gpu and ram energy of that record. *)
Theorem energy_track_completed (file_prefix : string) (s0 s2 : state num)
        (body : ST.M (state num) Datatypes.unit) :
  body (snd (track file_prefix s0)) = (Ok tt, s2) ->
  let final := snd (ST.with_ (track file_prefix) body s0) in
  let emission_data := readings (env s2) (tasks_stopped (env s2)) in
  fst (ST.with_ (track file_prefix) body s0) = Ok tt /\
  get_energy (self final) =
  {| Energy.unit := ENERGY_UNIT;
     Energy.cpu := Some (cpu_energy emission_data);
     Energy.ram := Some (ram_energy emission_data);
     Energy.gpu := Some (gpu_energy emission_data);
     Energy.total := Some (energy_consumed emission_data) |} /\
  tasks_stopped (env final) = S (tasks_stopped (env s2)) /\
  (forall data,
      In ((file_prefix ++ "_codecarbon.json")%string, data) (files (env final)) <->
      data = emission_data).
Proof.
  intros Hbody final emission_data. subst final.
  rewrite energy_with_track, Hbody.
  destruct (energy_track_exit file_prefix s2)
    as (Hok & Henergy & Hstopped & Hfiles).
  split; [exact Hok | split; [exact Henergy | split; [exact Hstopped |]]].
  intros data. rewrite Hfiles. fold emission_data. split.
  - intros [Heq | Hin]; [now injection Heq |].
    apply filter_In in Hin. destruct Hin as [_ Hneq]. cbn [fst] in Hneq.
    now rewrite String.eqb_refl in Hneq.
  - intros ->. now left.
Qed.

(** X11.  An [EnergyTracker.track()] region whose body raises: the
    exception leaves the [with] statement and nothing after the [yield]
    runs.  The task started on the sampler is not stopped, no file is
    written, and the tracker's energies are the ones it had: [get_energy()]
    returns what it returned before the region ([None] fields on a fresh
    tracker). *)
Theorem energy_track_body_exception (file_prefix : string) (s0 s2 : state num)
        (body : ST.M (state num) Datatypes.unit) (e : exn) :
  body (snd (track file_prefix s0)) = (Raise e, s2) ->
  ST.with_ (track file_prefix) body s0 = (Raise e, s2) /\
  tasks_started (env (snd (track file_prefix s0))) = S (tasks_started (env s0)) /\
  tasks_stopped (env (snd (track file_prefix s0))) = tasks_stopped (env s0) /\
  files (env (snd (track file_prefix s0))) = files (env s0) /\
  (self s2 = self (snd (track file_prefix s0)) ->
   get_energy (self s2) = get_energy (self s0)).
Proof.
  intros Hbody.
  destruct (energy_track_enter file_prefix s0)
    as (gen & Htrack & Hself & Hstarted & Hstopped & Hfiles & _).
  split; [| split; [exact Hstarted | split; [exact Hstopped | split]]].
  - now rewrite energy_with_track, Hbody.
  - exact Hfiles.
  - intros Hself2. now rewrite Hself2, Hself.
Qed.

End EnergyTrackerTrack.

(** A fresh tracker on the CPU, and a sampler that measures 4 units in all:
    1 on the cpu, 2 on the gpu, 1 in ram. *)
Definition example_energy_state : EnergyTracker.state float :=
  {| EnergyTracker.self :=
       EnergyTracker.make "cpu" "pytorch" [] false false false
         (EnergyTracker.OfflineEmissionsTracker
            (EnergyTracker.make_config "warning" "machine" [] true
               "codecarbon.csv" 1 (Some "USA")))
         None None None None;
     EnergyTracker.env :=
       EnergyTracker.make_world 0 0 0 0
         (fun _ => EnergyTracker.make_data 4%float 1%float 2%float 1%float)
         [] |}.

Lemma energy_track_completed_witness :
  EnergyTracker.get_energy
    (EnergyTracker.self
       (snd (ST.with_ (EnergyTracker.track "forward") (ST.ret tt)
               example_energy_state))) =
  {| Energy.unit := "kWh"; Energy.cpu := Some 1%float;
     Energy.ram := Some 1%float; Energy.gpu := Some 2%float;
     Energy.total := Some 4%float |}.
Proof.
  exact (proj1 (proj2 (@energy_track_completed float "forward"
                         example_energy_state
                         (snd (EnergyTracker.track "forward" example_energy_state))
                         (ST.ret tt) eq_refl))).
Defined.

Lemma energy_track_body_exception_witness :
  let after :=
    snd (ST.with_ (EnergyTracker.track "forward")
           (ST.raise (OtherError "KeyError" "missing input"))
           example_energy_state) in
  EnergyTracker.get_energy (EnergyTracker.self after) =
  Energy.make "kWh" None None None None /\
  EnergyTracker.files (EnergyTracker.env after) = [].
Proof.
  cbn zeta.
  destruct (@energy_track_body_exception float "forward" example_energy_state
              (snd (EnergyTracker.track "forward" example_energy_state))
              (ST.raise (OtherError "KeyError" "missing input"))
              (OtherError "KeyError" "missing input") eq_refl)
    as (Hwith & _ & _ & Hfiles & Henergy).
  rewrite Hwith. cbn [snd]. split.
  - rewrite (Henergy eq_refl). reflexivity.
  - rewrite Hfiles. reflexivity.
Defined.


(** ** TorchrunLauncher.launch: reports that cannot be loaded *)

Section GatherLoading.
Variable BenchmarkReport : Type.
Variable from_json : string -> result BenchmarkReport.
Variable BenchmarkReport_aggregate : list BenchmarkReport -> result BenchmarkReport.

(** X12.  When all rank report files exist but the report of some rank
    cannot be loaded, [launch] raises the exception of the loader for the
    lowest such rank, whatever the exit code of the isolated process; the
    reports that did load are not aggregated. *)
Theorem gather_unreadable_report (nproc_per_node rank : nat)
        (after_join : TorchrunLauncher.joined) (e : exn) :
  (forall r, r < nproc_per_node ->
             TorchrunLauncher.isfile after_join
               (TorchrunLauncher.report_path r) = true) ->
  rank < nproc_per_node ->
  from_json (TorchrunLauncher.report_path rank) = Raise e ->
  (forall r, r < rank -> returns (from_json (TorchrunLauncher.report_path r))) ->
  TorchrunLauncher.launch from_json BenchmarkReport_aggregate nproc_per_node
    after_join = Raise e.
Proof.
  intros Hall Hrank Hload Hbefore.
  rewrite launch_unfold.
  rewrite (proj2 (all_reports_exist_spec nproc_per_node after_join) Hall).
  replace nproc_per_node with (rank + S (nproc_per_node - S rank)) by lia.
  rewrite seq_app. cbn [seq Nat.add].
  rewrite (@comprehension_first_raise _ _ _ (seq 0 rank)
             (seq (S rank) (nproc_per_node - S rank)) rank e).
  - reflexivity.
  - intros r Hr. apply in_seq in Hr. apply Hbefore. lia.
  - exact Hload.
Qed.

End GatherLoading.

(** The report of rank 1 is there but cannot be parsed. *)
Definition example_from_json_truncated (path : string) : result (list string) :=
  if String.eqb path "benchmark_report_rank_1.json"
  then Raise (OtherError "JSONDecodeError" "Expecting value")
  else Ok [path].

Lemma gather_unreadable_report_witness :
  TorchrunLauncher.launch example_from_json_truncated example_aggregate 2
    (example_two_of_three 0) =
  Raise (OtherError "JSONDecodeError" "Expecting value").
Proof.
  apply (@gather_unreadable_report (list string) example_from_json_truncated
           example_aggregate 2 1 (example_two_of_three 0)).
  - intros [| [| r]] Hr; [reflexivity | reflexivity | lia].
  - lia.
  - reflexivity.
  - intros [| r] Hr; [now eexists | lia].
Defined.


(** ** fast_weights_init *)

Section FastWeights.
Import FastWeightsInit.

(** The names that [fast_weights_init] replaces: those of
    [TORCH_INIT_FUNCTIONS] other than ["uniform_"]. *)
Definition replaced (name : string) : bool :=
  existsb (fun item => String.eqb name (fst item)) TORCH_INIT_FUNCTIONS &&
  negb (String.eqb name "uniform_").

Lemma find_snoc {A : Type} (p : A -> bool) (l : list A) (x : A) :
  find p (l ++ [x]) =
  match find p l with
  | Some y => Some y
  | None => if p x then Some x else None
  end.
Proof.
  induction l as [| y l IH]; cbn [app find]; [reflexivity |].
  destruct (p y); [reflexivity | exact IH].
Qed.

(** A loop of [setattr] over a table: each name is left with the value of
    its last entry, and the other names are not touched. *)
Lemma for_each_setattr (table : list (string * init_function))
      (value : string -> init_function -> init_function) (ns : namespace) :
  let loop :=
    for_each table
      (fun item =>
         let '(name, init_func) := item in
         ST.when (negb (String.eqb name "uniform_"))
           (setattr name (value name init_func))) in
  fst (loop ns) = Ok tt /\
  forall n,
    snd (loop ns) n =
    match find (fun item => String.eqb n (fst item) &&
                            negb (String.eqb (fst item) "uniform_"))
               (rev table) with
    | Some item => value (fst item) (snd item)
    | None => ns n
    end.
Proof.
  cbn zeta. revert ns.
  induction table as [| [name init_func] table IH]; intros ns;
    [split; reflexivity |].
  cbn [for_each rev]. unfold ST.bind.
  destruct (negb (String.eqb name "uniform_")) eqn:Hname;
    unfold ST.when, setattr, ST.modify, ST.ret;
    match goal with
    | |- context [for_each table ?f ?ns'] => destruct (IH ns') as [Hok Hns]
    end;
    (split; [exact Hok |]); intros n; rewrite Hns, find_snoc;
    destruct (find _ (rev table)); try reflexivity;
    cbn [fst snd]; rewrite Hname, ?andb_true_r, ?andb_false_r;
    try destruct (String.eqb n name); reflexivity.
Qed.

Lemma replaced_find (n : string) :
  match find (fun item => String.eqb n (fst item) &&
                          negb (String.eqb (fst item) "uniform_"))
             (rev TORCH_INIT_FUNCTIONS) with
  | Some item => replaced n = true /\ fst item = n /\ snd item = Torch n
  | None => replaced n = false
  end.
Proof.
  destruct (find _ (rev TORCH_INIT_FUNCTIONS)) as [item |] eqn:Hfind.
  - apply find_some in Hfind. destruct Hfind as [Hin Hp].
    apply andb_prop in Hp. destruct Hp as [Hn Hu].
    apply String.eqb_eq in Hn. subst n.
    apply in_rev in Hin.
    repeat (destruct Hin as [<- | Hin];
            [first [discriminate Hu | repeat split] |]).
    destruct Hin.
  - unfold replaced. destruct (existsb _ TORCH_INIT_FUNCTIONS) eqn:Hex;
      [| reflexivity].
    cbn [andb]. destruct (String.eqb n "uniform_") eqn:Hu; [reflexivity |].
    exfalso. apply existsb_exists in Hex. destruct Hex as (item & Hin & Hn).
    assert (Hnone := find_none _ _ Hfind item (proj1 (in_rev _ _) Hin)).
    cbn beta in Hnone. rewrite Hn in Hnone. cbn [andb] in Hnone.
    apply String.eqb_eq in Hn. subst n. now rewrite Hu in Hnone.
Qed.

(** X13.  [with fast_weights_init(): body]: inside the block each of the
    twelve names of [TORCH_INIT_FUNCTIONS] other than [uniform_] is
    [fast_random_tensor], and the other attributes of [torch.nn.init],
    [uniform_] among them, are untouched; the block ends as its body ends
    (an exception of the body comes out unchanged); and on both ways out
    each of the twelve names holds torch's own function again, whatever the
    body did to it, while [uniform_] and the names outside the table keep
    what the body left.  The functions put back are the ones recorded at
    import: a replaced name that held something else when the block was
    entered does not get it back. *)
Theorem fast_weights_init_restores (body : ST.M namespace Datatypes.unit)
        (ns0 : namespace) :
  let entered := snd (fast_weights_init ns0) in
  let final := snd (ST.with_ fast_weights_init body ns0) in
  (forall n, entered n = if replaced n then fast_random_tensor else ns0 n) /\
  fst (ST.with_ fast_weights_init body ns0) = fst (body entered) /\
  (forall n, final n = if replaced n then Torch n else snd (body entered) n) /\
  ((forall n, snd (body entered) n = entered n) ->
   forall n, final n = if replaced n then Torch n else ns0 n) /\
  (forall name init_func,
      In (name, init_func) TORCH_INIT_FUNCTIONS ->
      name <> "uniform_" ->
      entered name = fast_random_tensor /\ final name = Torch name) /\
  (entered "uniform_" = ns0 "uniform_" /\
   final "uniform_" = snd (body entered) "uniform_").
Proof.
  cbn zeta.
  set (patch :=
         for_each TORCH_INIT_FUNCTIONS
           (fun item : string * init_function =>
              let '(name, init_func) := item in
              ST.when (negb (String.eqb name "uniform_"))
                (setattr name fast_random_tensor))).
  set (restore :=
         for_each TORCH_INIT_FUNCTIONS
           (fun item : string * init_function =>
              let '(name, init_func) := item in
              ST.when (negb (String.eqb name "uniform_"))
                (setattr name init_func))).
  destruct (for_each_setattr TORCH_INIT_FUNCTIONS
              (fun _ _ => fast_random_tensor) ns0) as [Hpatch_ok Hpatch].
  assert (Hrestore := fun ns =>
            for_each_setattr TORCH_INIT_FUNCTIONS (fun _ f => f) ns).
  cbn zeta beta in Hpatch_ok, Hpatch, Hrestore.
  fold patch in Hpatch_ok, Hpatch. fold restore in Hrestore.
  assert (Hgen : fast_weights_init ns0 =
                 (Ok (ST.make_suspended
                        (ST.bind restore (fun _ => ST.ret tt))
                        (fun e => ST.bind restore (fun _ => ST.raise e))),
                  snd (patch ns0))).
  { unfold fast_weights_init, ST.bind at 1. fold patch restore.
    destruct (patch ns0) as [r ns1]. cbn [fst snd] in *. subst r.
    reflexivity. }
  assert (Hentered : forall n,
             snd (fast_weights_init ns0) n =
             if replaced n then fast_random_tensor else ns0 n).
  { intros n. rewrite Hgen. cbn [snd]. rewrite Hpatch.
    assert (H := replaced_find n).
    destruct (find _ (rev TORCH_INIT_FUNCTIONS)) as [item |].
    - destruct H as (-> & _). reflexivity.
    - now rewrite H. }
  assert (Hfinal : forall n,
             snd (ST.with_ fast_weights_init body ns0) n =
             if replaced n then Torch n
             else snd (body (snd (fast_weights_init ns0))) n).
  { intros n. unfold ST.with_, ST.bind at 1. rewrite Hgen. cbn [snd].
    destruct (body (snd (patch ns0))) as [[[] | e] ns2]; cbn [ST.resume ST.throw snd];
      unfold ST.bind; destruct (Hrestore ns2) as [Hok Hns];
      destruct (restore ns2) as [r ns3]; cbn [fst snd] in *; subst r;
      cbn [snd]; rewrite Hns;
      assert (H := replaced_find n);
      (destruct (find _ (rev TORCH_INIT_FUNCTIONS)) as [item |];
       [destruct H as (-> & _ & ->); reflexivity | now rewrite H]). }
  split; [exact Hentered | split; [| split; [exact Hfinal | split; [| split]]]].
  - unfold ST.with_, ST.bind at 1. rewrite Hgen. cbn [snd].
    destruct (body (snd (patch ns0))) as [[[] | e] ns2]; cbn [ST.resume ST.throw fst];
      unfold ST.bind; destruct (Hrestore ns2) as [Hok _];
      destruct (restore ns2) as [r ns3]; cbn [fst] in *; subst r; reflexivity.
  - intros Hbody n. rewrite Hfinal, Hbody, Hentered.
    now destruct (replaced n).
  - intros name init_func Hin Hname.
    assert (Hreplaced : replaced name = true).
    { unfold replaced. apply andb_true_intro. split.
      - apply existsb_exists. exists (name, init_func).
        split; [exact Hin | apply String.eqb_refl].
      - apply negb_true_iff. now apply String.eqb_neq. }
    rewrite Hentered, Hfinal, Hreplaced. split; reflexivity.
  - rewrite Hentered, Hfinal. split; reflexivity.
Qed.

End FastWeights.

(** [torch.nn.init] as torch defines it, and the same with [normal_]
    replaced by someone before the block. *)
Definition torch_namespace : FastWeightsInit.namespace :=
  fun name => FastWeightsInit.Torch name.

Definition patched_namespace : FastWeightsInit.namespace :=
  fun name => if String.eqb name "normal_" then FastWeightsInit.Patched 7
              else FastWeightsInit.Torch name.

Lemma fast_weights_init_restores_witness :
  (forall n,
      snd (ST.with_ FastWeightsInit.fast_weights_init
             (ST.raise (OtherError "RuntimeError" "out of memory"))
             torch_namespace) n = torch_namespace n) /\
  fst (ST.with_ FastWeightsInit.fast_weights_init
         (ST.raise (OtherError "RuntimeError" "out of memory"))
         torch_namespace) =
  Raise (OtherError "RuntimeError" "out of memory").
Proof.
  destruct (fast_weights_init_restores
              (ST.raise (OtherError "RuntimeError" "out of memory"))
              torch_namespace) as (_ & Houtcome & _ & Hfinal & _).
  split; [| exact Houtcome].
  intros n. rewrite (Hfinal (fun _ => eq_refl)).
  now destruct (replaced n).
Defined.

Example fast_weights_init_examples :
  let inside := snd (FastWeightsInit.fast_weights_init patched_namespace) in
  let after := snd (ST.with_ FastWeightsInit.fast_weights_init (ST.ret tt)
                      patched_namespace) in
  inside "normal_" = FastWeightsInit.fast_random_tensor /\
  inside "uniform_" = FastWeightsInit.Torch "uniform_" /\
  patched_namespace "normal_" = FastWeightsInit.Patched 7 /\
  after "normal_" = FastWeightsInit.Torch "normal_".
Proof. vm_compute. repeat split. Qed.

(** [uniform_] replaced by someone before the block: the block leaves it
    replaced, inside and after. *)
Example fast_weights_init_uniform_example :
  let patched : FastWeightsInit.namespace :=
    fun name => if String.eqb name "uniform_" then FastWeightsInit.Patched 7
                else FastWeightsInit.Torch name in
  snd (FastWeightsInit.fast_weights_init patched) "uniform_" =
  FastWeightsInit.Patched 7 /\
  snd (ST.with_ FastWeightsInit.fast_weights_init (ST.ret tt) patched)
    "uniform_" = FastWeightsInit.Patched 7.
Proof. vm_compute. repeat split. Qed.


(* ------------------------------------------------------------------ *)
(** ** llm_perf: error classification and the benchmark driver *)

Lemma prefix_app (n h post : string) :
  String.prefix n h = true -> String.prefix n (h ++ post)%string = true.
Proof.
  revert h. induction n as [| c n IH]; intros h Hp.
  - destruct h; destruct post; reflexivity.
  - destruct h as [| d h]; [discriminate |].
    simpl in *. destruct (Ascii.ascii_dec c d); [apply IH; assumption | discriminate].
Qed.

Lemma contains_app_r (n h post : string) :
  contains n h = true -> contains n (h ++ post)%string = true.
Proof.
  induction h as [| d h IH]; intros Hc.
  - simpl in Hc. rewrite orb_false_r in Hc.
    destruct n; [| discriminate]. destruct post; reflexivity.
  - simpl in Hc. apply orb_true_iff in Hc.
    change (String d h ++ post)%string with (String d (h ++ post)%string).
    cbn [contains]. apply orb_true_iff. destruct Hc as [Hp | Hc].
    + left. apply (prefix_app _ (String d h) post Hp).
    + right. apply IH, Hc.
Qed.

Lemma contains_app_l (n pre h : string) :
  contains n h = true -> contains n (pre ++ h)%string = true.
Proof.
  intros Hc. induction pre as [| d pre IH]; [exact Hc |].
  change (String d pre ++ h)%string with (String d (pre ++ h)%string).
  cbn [contains]. rewrite IH. apply orb_true_r.
Qed.

Lemma contains_wrap (n pre h post : string) :
  contains n h = true -> contains n (pre ++ h ++ post)%string = true.
Proof. intros Hc. apply contains_app_l, contains_app_r, Hc. Qed.

(** The six labels a recognised error is reported with. *)
Definition known_labels : list string :=
  [ "CUDA: Out of memory";
    "GPTQ: assert outfeatures % 32 == 0";
    "GPTQ: assert infeatures % self.group_size == 0";
    "Flash Attention 2.0: not supported yet";
    "SDPA: not supported yet";
    "FlashAttention: only support fp16 and bf16 data type" ].

(** The test [errors_handler] makes, as one condition. *)
Definition recognised (error : string) : bool :=
  contains "torch.cuda.OutOfMemoryError" error ||
  (contains "gptq" error && contains "assert outfeatures % 32 == 0" error) ||
  (contains "gptq" error &&
   contains "assert infeatures % self.group_size == 0" error) ||
  contains "support Flash Attention 2.0" error ||
  contains
    "support an attention implementation through torch.nn.functional.scaled_dot_product_attention"
    error ||
  contains "FlashAttention only support fp16 and bf16 data type" error.

Lemma errors_handler_recognised (Measured : Type) (error : string) :
  fst (LlmPerf.errors_handler (Measured := Measured) error) = recognised error.
Proof.
  unfold LlmPerf.errors_handler, recognised.
  repeat match goal with
         | |- context [if ?b then _ else _] => destruct b; cbn [andb orb fst]
         end; try reflexivity.
Qed.

Lemma recognised_wrap (pre error post : string) :
  recognised error = true -> recognised (pre ++ error ++ post)%string = true.
Proof.
  unfold recognised. intros Hr.
  repeat rewrite orb_true_iff in Hr. repeat rewrite andb_true_iff in Hr.
  repeat rewrite orb_true_iff. repeat rewrite andb_true_iff.
  pose proof (fun n => @contains_wrap n pre error post) as Hw.
  intuition auto.
Qed.

Lemma errors_handler_label (Measured : Type) (error : string) :
  exists label,
    snd (LlmPerf.errors_handler (Measured := Measured) error)
    = LlmPerf.ErrorReport label /\
    (fst (LlmPerf.errors_handler (Measured := Measured) error) = true ->
     In label known_labels) /\
    (fst (LlmPerf.errors_handler (Measured := Measured) error) = false ->
     label = ("Unknown error: " ++ error)%string).
Proof.
  unfold LlmPerf.errors_handler, known_labels.
  repeat match goal with
         | |- context [if ?b then _ else _] => destruct b; cbn [andb orb fst snd]
         end;
    (eexists; split; [reflexivity |]; split; intros Hv;
     first [discriminate Hv | reflexivity | cbn [In]; tauto]).
Qed.

(** X14. [errors_handler]: an error whose text holds none of the known
    fragments is reported as [Unknown error: ] followed by the whole text
    and is not valid; a valid error is reported by one of six fixed labels;
    an out-of-memory fragment wins over every other; and an error that is
    valid stays valid when text is put before and after it. *)
Theorem errors_handler_classification (Measured : Type)
        (error pre post : string) :
  let handled := LlmPerf.errors_handler (Measured := Measured) error in
  (fst handled = false ->
   snd handled = LlmPerf.ErrorReport ("Unknown error: " ++ error)%string) /\
  (fst handled = true ->
   exists label, snd handled = LlmPerf.ErrorReport label /\
                 In label known_labels) /\
  (contains "torch.cuda.OutOfMemoryError" error = true ->
   handled = (true, LlmPerf.ErrorReport "CUDA: Out of memory")) /\
  (fst handled = true ->
   fst (LlmPerf.errors_handler (Measured := Measured)
          (pre ++ error ++ post)%string) = true).
Proof.
  cbv zeta. split; [| split; [| split]].
  - intros Hv.
    destruct (errors_handler_label Measured error) as [label [Hs [_ Hu]]].
    rewrite Hs, (Hu Hv). reflexivity.
  - intros Hv.
    destruct (errors_handler_label Measured error) as [label [Hs [Hk _]]].
    exists label. split; [exact Hs | exact (Hk Hv)].
  - intros Hoom. unfold LlmPerf.errors_handler. rewrite Hoom. reflexivity.
  - intros Hv. rewrite errors_handler_recognised in *.
    apply recognised_wrap, Hv.
Qed.

Definition example_traceback_head : string := "RuntimeError: ".
Definition example_error_text : string :=
  "The current architecture does not support Flash Attention 2.0".
Definition example_traceback_tail : string := " (rank 0)".

Lemma errors_handler_classification_witness :
  fst (LlmPerf.errors_handler (Measured := Datatypes.unit) example_error_text)
  = true /\
  fst (LlmPerf.errors_handler (Measured := Datatypes.unit)
         (example_traceback_head ++ example_error_text
          ++ example_traceback_tail)%string) = true.
Proof.
  assert (Hv : fst (LlmPerf.errors_handler (Measured := Datatypes.unit)
                      example_error_text) = true)
    by (vm_compute; reflexivity).
  split; [exact Hv |].
  exact (proj2 (proj2 (proj2
           (errors_handler_classification Datatypes.unit example_error_text
              example_traceback_head example_traceback_tail))) Hv).
Defined.

Example errors_handler_examples :
  LlmPerf.errors_handler (Measured := Datatypes.unit)
    "gptq kernel: assert outfeatures % 32 == 0, torch.cuda.OutOfMemoryError"
  = (true, LlmPerf.ErrorReport "CUDA: Out of memory") /\
  LlmPerf.errors_handler (Measured := Datatypes.unit)
    "assert outfeatures % 32 == 0"
  = (false, LlmPerf.ErrorReport "Unknown error: assert outfeatures % 32 == 0").
Proof. split; vm_compute; reflexivity. Qed.


(** What the [except] branch does with the exception [error]. *)
Definition handled (Config Measured : Type) (h : LlmPerf.host Config Measured)
           (subfolder : string) (config : Config) (error : exn)
  : result Datatypes.unit * list (LlmPerf.event Config Measured) :=
  let trace :=
    [LlmPerf.ConfigPushed subfolder config; LlmPerf.BenchmarkLaunched config] in
  let '(valid_error, benchmark_report) :=
    LlmPerf.errors_handler (LlmPerf.str h error) in
  if valid_error then
    match LlmPerf.push_report h benchmark_report with
    | Ok _ => (Ok tt, trace ++ [LlmPerf.ReportPushed subfolder benchmark_report])
    | Raise e => (Raise e, trace)
    end
  else (Ok tt, trace).

Section Driver.
Variables Config Measured weights : Type.
Variable Config_eqb : Config -> Config -> bool.
Variable h : LlmPerf.host Config Measured.
Variable WEIGHTS_CONFIGS : list (string * weights).
Variable PUSH_REPO_ID : string.
Variable make_config : string -> string -> string -> weights -> result Config.
Variables model attn_implementation weights_config : string.

Let benchmark_name : string :=
  (weights_config ++ "-" ++ attn_implementation)%string.
Let subfolder : string :=
  (benchmark_name ++ "/" ++ replace_slash model)%string.
Let run : result Datatypes.unit * list (LlmPerf.event Config Measured) :=
  LlmPerf.benchmark_cuda_pytorch Config_eqb h WEIGHTS_CONFIGS PUSH_REPO_ID
    make_config model attn_implementation weights_config [].





End Driver.


(** [str(error)] for the exceptions of [exn]: the message. *)
Definition exn_message (e : exn) : string :=
  match e with
  | ValueError msg | RuntimeError msg | IndexError msg | AttributeError msg
  | TypeError msg | ZeroDivisionError msg | OtherError _ msg => msg
  end.

(** A hub with nothing stored, and a launch that ends as [launched]. *)
Definition example_hub (launched : result nat)
  : LlmPerf.host (string * string * string) nat :=
  LlmPerf.make_host
    (fun _ _ => Raise (OtherError "EntryNotFoundError" "404 Client Error"))
    (fun _ _ => Raise (OtherError "EntryNotFoundError" "404 Client Error"))
    (Ok tt)
    (fun _ => launched)
    (fun _ => Ok tt)
    exn_message.

(** The same hub, refusing every push. *)
Definition example_hub_offline : LlmPerf.host (string * string * string) nat :=
  LlmPerf.make_host
    (fun _ _ => Raise (OtherError "EntryNotFoundError" "404 Client Error"))
    (fun _ _ => Raise (OtherError "EntryNotFoundError" "404 Client Error"))
    (Raise (OtherError "HfHubHTTPError" "503 Server Error"))
    (fun _ => Ok 0)
    (fun _ => Raise (OtherError "HfHubHTTPError" "503 Server Error"))
    exn_message.

Definition example_out_of_memory : exn :=
  RuntimeError "torch.cuda.OutOfMemoryError: CUDA out of memory.".


Definition example_config_eqb (a b : string * string * string) : bool :=
  String.eqb (fst (fst a)) (fst (fst b)) &&
  String.eqb (snd (fst a)) (snd (fst b)) &&
  String.eqb (snd a) (snd b).

Definition example_weights_configs : list (string * string) :=
  [("float32", "float32"); ("float16", "float16"); ("bfloat16", "bfloat16")].

(** Constructors that refuse the model name [""]. *)
Definition example_make_config (name model attn_implementation entry : string)
  : result (string * string * string) :=
  if String.eqb model ""
  then Raise (ValueError "`model` must be specified.")
  else Ok (name, model, (attn_implementation ++ "," ++ entry)%string).

Definition example_config : string * string * string :=
  ("float16-sdpa", "openai-community/gpt2", "sdpa,float16").


Example benchmark_cuda_pytorch_examples :
  LlmPerf.benchmark_cuda_pytorch example_config_eqb
    (example_hub (Raise example_out_of_memory))
    example_weights_configs "optimum-benchmark/llm-perf"
    example_make_config "openai-community/gpt2" "sdpa" "float16" []
  = (Ok tt,
     [LlmPerf.ConfigPushed "float16-sdpa/openai-community--gpt2" example_config;
      LlmPerf.BenchmarkLaunched example_config;
      LlmPerf.ReportPushed "float16-sdpa/openai-community--gpt2"
        (LlmPerf.ErrorReport "CUDA: Out of memory")]) /\
  LlmPerf.benchmark_cuda_pytorch example_config_eqb
    (example_hub (Ok 7))
    example_weights_configs "optimum-benchmark/llm-perf"
    example_make_config "openai-community/gpt2" "sdpa" "float16" []
  = (Ok tt,
     [LlmPerf.ConfigPushed "float16-sdpa/openai-community--gpt2" example_config;
      LlmPerf.BenchmarkLaunched example_config;
      LlmPerf.ReportPushed "float16-sdpa/openai-community--gpt2"
        (LlmPerf.Launched 7)]) /\
  LlmPerf.benchmark_cuda_pytorch example_config_eqb
    (example_hub (Ok 7))
    example_weights_configs "optimum-benchmark/llm-perf"
    example_make_config "openai-community/gpt2" "flash_attention_2" "float32" []
  = (Ok tt, []) /\
  LlmPerf.benchmark_cuda_pytorch example_config_eqb
    (example_hub (Ok 7))
    example_weights_configs "optimum-benchmark/llm-perf"
    example_make_config "openai-community/gpt2" "sdpa" "4bit-bnb" []
  = (Raise (OtherError "KeyError" "4bit-bnb"), []) /\
  LlmPerf.benchmark_cuda_pytorch example_config_eqb example_hub_offline
    example_weights_configs "optimum-benchmark/llm-perf"
    example_make_config "openai-community/gpt2" "sdpa" "float16" []
  = (Raise (OtherError "HfHubHTTPError" "503 Server Error"), []).
Proof. repeat split; vm_compute; reflexivity. Qed.

(* ------------------------------------------------------------------ *)
(** ** get_flat_dict and the shapes read from the artifacts *)

Section FlatDict.
Import TransformersUtils.

Lemma key_eqb_eq (a b : key) : key_eqb a b = true <-> a = b.
Proof.
  destruct a as [s | z], b as [s' | z']; simpl.
  - rewrite String.eqb_eq. split; [intros ->; reflexivity | intros [= ->]; reflexivity].
  - split; [discriminate | discriminate].
  - split; [discriminate | discriminate].
  - rewrite Z.eqb_eq. split; [intros ->; reflexivity | intros [= ->]; reflexivity].
Qed.

Lemma key_eqb_refl (a : key) : key_eqb a a = true.
Proof. apply key_eqb_eq. reflexivity. Qed.

Lemma key_eqb_neq (a b : key) : key_eqb a b = false <-> a <> b.
Proof.
  split.
  - intros Hf Heq. apply key_eqb_eq in Heq. rewrite Heq in Hf. discriminate.
  - intros Hne. destruct (key_eqb a b) eqn:E; [| reflexivity].
    apply key_eqb_eq in E. contradiction.
Qed.

(** The keys of a dictionary, in order. *)
Definition keys (d : dict) : list key := map fst d.

(** No value is a dictionary. *)
Definition no_dict_value (d : dict) : Prop :=
  Forall (fun item => is_dict (snd item) = false) d.

(** The items of a nested dictionary that are not dictionaries themselves,
    in the order in which [get_flat_dict] meets them. *)
Fixpoint leaves_item (k : key) (v : pyval) {struct v} : list (key * pyval) :=
  match v with
  | PDict d =>
      (fix each (d : list (key * pyval)) : list (key * pyval) :=
         match d with
         | [] => []
         | (k, v) :: rest => leaves_item k v ++ each rest
         end) d
  | _ => [(k, v)]
  end.

Definition leaves (d : dict) : list (key * pyval) :=
  flat_map (fun item => leaves_item (fst item) (snd item)) d.

Lemma pyval_dict_ind (P : pyval -> Prop) :
  (forall v, is_dict v = false -> P v) ->
  (forall d, Forall (fun item => P (snd item)) d -> P (PDict d)) ->
  forall v, P v.
Proof.
  intros Hleaf Hdict.
  refine (fix IH (v : pyval) : P v :=
            match v with
            | PDict d =>
                Hdict d
                  ((fix each (d : list (key * pyval))
                      : Forall (fun item => P (snd item)) d :=
                      match d with
                      | [] => Forall_nil _
                      | item :: rest =>
                          Forall_cons item (IH (snd item)) (each rest)
                      end) d)
            | PNone => Hleaf PNone eq_refl
            | PBool b => Hleaf (PBool b) eq_refl
            | PInt z => Hleaf (PInt z) eq_refl
            | PFloat f => Hleaf (PFloat f) eq_refl
            | PStr s => Hleaf (PStr s) eq_refl
            | PList l => Hleaf (PList l) eq_refl
            | PTuple l => Hleaf (PTuple l) eq_refl
            | PObject cls => Hleaf (PObject cls) eq_refl
            end).
Qed.

Lemma get_flat_dict_item_dict (k : key) (d : dict) (acc : dict) :
  get_flat_dict_item k (PDict d) acc = update acc (get_flat_dict d).
Proof.
  assert (H : forall (d : dict) (a : dict),
             (fix items (d : list (key * pyval)) (flat_dict : dict) {struct d}
                : dict :=
                match d with
                | [] => flat_dict
                | (k, v) :: rest =>
                    items rest (get_flat_dict_item k v flat_dict)
                end) d a
             = fold_left (fun flat_dict item =>
                            get_flat_dict_item (fst item) (snd item) flat_dict)
                         d a).
  { induction d0 as [| [k' v'] d0 IH]; intros a; [reflexivity | apply IH]. }
  exact (f_equal (update acc) (H d [])).
Qed.

Lemma get_flat_dict_item_leaf (k : key) (v : pyval) (acc : dict) :
  is_dict v = false -> get_flat_dict_item k v acc = setitem k v acc.
Proof. destruct v; intros Hv; try reflexivity. discriminate Hv. Qed.

Lemma leaves_item_dict (k : key) (d : dict) :
  leaves_item k (PDict d) = leaves d.
Proof.
  unfold leaves. simpl.
  induction d as [| [k' v'] d IH]; [reflexivity |].
  simpl. f_equal. exact IH.
Qed.

Lemma leaves_item_leaf (k : key) (v : pyval) :
  is_dict v = false -> leaves_item k v = [(k, v)].
Proof. destruct v; intros Hv; try reflexivity. discriminate Hv. Qed.

Lemma get_app (k : key) (a b : dict) :
  get k (a ++ b) = match get k a with Some v => Some v | None => get k b end.
Proof.
  induction a as [| [k' v'] a IH]; [reflexivity |].
  simpl. destruct (key_eqb k' k); [reflexivity | exact IH].
Qed.

Lemma get_setitem (k k' : key) (v : pyval) (d : dict) :
  get k (setitem k' v d) = if key_eqb k' k then Some v else get k d.
Proof.
  induction d as [| [k0 v0] d IH]; [reflexivity |].
  simpl. destruct (key_eqb k0 k') eqn:E0; simpl.
  - apply key_eqb_eq in E0. subst k0.
    destruct (key_eqb k' k); reflexivity.
  - destruct (key_eqb k0 k) eqn:E1.
    + apply key_eqb_eq in E1. subst k0.
      destruct (key_eqb k' k) eqn:E2; [| reflexivity].
      apply key_eqb_eq in E2. subst k'. rewrite key_eqb_refl in E0.
      discriminate E0.
    + exact IH.
Qed.

Lemma get_update (k : key) (d other : dict) :
  get k (update d other)
  = match get k (rev other) with Some v => Some v | None => get k d end.
Proof.
  unfold update. revert d.
  induction other as [| [k' v'] other IH]; intros d; [reflexivity |].
  simpl. rewrite IH, get_app, get_setitem. simpl.
  destruct (get k (rev other)); [reflexivity |].
  destruct (key_eqb k' k); reflexivity.
Qed.

Lemma get_None (k : key) (d : dict) : get k d = None <-> ~ In k (keys d).
Proof.
  induction d as [| [k' v'] d IH]; simpl.
  - split; [intros _ [] | reflexivity].
  - destruct (key_eqb k' k) eqn:E.
    + apply key_eqb_eq in E. split; [discriminate | intros Hn].
      exfalso. apply Hn. left. exact E.
    + apply key_eqb_neq in E. rewrite IH. split.
      * intros Hn [Heq | Hin]; [exact (E Heq) | exact (Hn Hin)].
      * intros Hn Hin. apply Hn. right. exact Hin.
Qed.

Lemma get_rev (k : key) (d : dict) :
  NoDup (keys d) -> get k (rev d) = get k d.
Proof.
  induction d as [| [k' v'] d IH]; intros Hnd; [reflexivity |].
  simpl in Hnd. inversion Hnd as [| ? ? Hnotin Hnd']; subst.
  simpl. rewrite get_app, (IH Hnd'). simpl.
  destruct (key_eqb k' k) eqn:E.
  - apply key_eqb_eq in E. subst k'.
    apply get_None in Hnotin. rewrite Hnotin. reflexivity.
  - destruct (get k d); reflexivity.
Qed.

Lemma keys_setitem_In (x k : key) (v : pyval) (d : dict) :
  In x (keys (setitem k v d)) <-> In x (keys d) \/ x = k.
Proof.
  induction d as [| [k0 v0] d IH]; simpl.
  - split; [intros [<- | []]; right; reflexivity
           | intros [[] | ->]; left; reflexivity].
  - destruct (key_eqb k0 k) eqn:E; simpl.
    + apply key_eqb_eq in E. subst k0.
      split; [intros H; left; exact H | intros [H | ->]; [exact H | left; reflexivity]].
    + rewrite IH. tauto.
Qed.

Lemma NoDup_setitem (k : key) (v : pyval) (d : dict) :
  NoDup (keys d) -> NoDup (keys (setitem k v d)).
Proof.
  induction d as [| [k0 v0] d IH]; intros Hnd; simpl.
  - constructor; [intros [] | constructor].
  - simpl in Hnd. inversion Hnd as [| ? ? Hnotin Hnd']; subst.
    destruct (key_eqb k0 k) eqn:E; simpl.
    + constructor; assumption.
    + constructor; [| apply IH; exact Hnd'].
      intros Hin. apply keys_setitem_In in Hin. destruct Hin as [Hin | ->].
      * exact (Hnotin Hin).
      * rewrite key_eqb_refl in E. discriminate E.
Qed.

Lemma NoDup_update (d other : dict) :
  NoDup (keys d) -> NoDup (keys (update d other)).
Proof.
  unfold update. revert d.
  induction other as [| [k v] other IH]; intros d Hnd; [exact Hnd |].
  simpl. apply IH, NoDup_setitem, Hnd.
Qed.

Lemma NoDup_get_flat_dict_item (k : key) (v : pyval) (acc : dict) :
  NoDup (keys acc) -> NoDup (keys (get_flat_dict_item k v acc)).
Proof.
  intros Hnd. destruct v; try (apply NoDup_setitem; exact Hnd).
  rewrite get_flat_dict_item_dict. apply NoDup_update, Hnd.
Qed.

Lemma NoDup_get_flat_dict (d : dict) : NoDup (keys (get_flat_dict d)).
Proof.
  unfold get_flat_dict.
  assert (H : forall acc, NoDup (keys acc) ->
            NoDup (keys (fold_left
                           (fun flat_dict item =>
                              get_flat_dict_item (fst item) (snd item) flat_dict)
                           d acc))).
  { induction d as [| [k v] d IH]; intros acc Hnd; [exact Hnd |].
    simpl. apply IH, NoDup_get_flat_dict_item, Hnd. }
  apply H. constructor.
Qed.

Lemma no_dict_setitem (k : key) (v : pyval) (d : dict) :
  no_dict_value d -> is_dict v = false -> no_dict_value (setitem k v d).
Proof.
  unfold no_dict_value. intros Hd Hv.
  induction d as [| [k0 v0] d IH]; simpl.
  - constructor; [exact Hv | constructor].
  - inversion Hd as [| ? ? Hv0 Hd']; subst.
    destruct (key_eqb k0 k); constructor; auto.
Qed.

Lemma no_dict_update (d other : dict) :
  no_dict_value d -> no_dict_value other -> no_dict_value (update d other).
Proof.
  unfold update. revert d.
  induction other as [| [k v] other IH]; intros d Hd Ho; [exact Hd |].
  inversion Ho as [| ? ? Hv Ho']; subst.
  simpl. apply IH; [apply no_dict_setitem; assumption | exact Ho'].
Qed.

Lemma no_dict_fold (d : dict) :
  Forall (fun item =>
            forall k acc, no_dict_value acc ->
                          no_dict_value (get_flat_dict_item k (snd item) acc)) d ->
  forall acc, no_dict_value acc ->
    no_dict_value
      (fold_left (fun flat_dict item =>
                    get_flat_dict_item (fst item) (snd item) flat_dict) d acc).
Proof.
  induction 1 as [| [k v] d Hv Hd IH]; intros acc Hacc; [exact Hacc |].
  simpl. apply IH, Hv, Hacc.
Qed.

Lemma no_dict_get_flat_dict_item (v : pyval) :
  forall k acc, no_dict_value acc ->
                no_dict_value (get_flat_dict_item k v acc).
Proof.
  induction v as [v Hv | d IH] using pyval_dict_ind; intros k acc Hacc.
  - rewrite (get_flat_dict_item_leaf k v acc Hv).
    apply no_dict_setitem; assumption.
  - rewrite get_flat_dict_item_dict. apply no_dict_update; [exact Hacc |].
    unfold get_flat_dict. apply (@no_dict_fold d IH). constructor.
Qed.

Lemma no_dict_get_flat_dict (d : dict) : no_dict_value (get_flat_dict d).
Proof.
  unfold get_flat_dict. apply no_dict_fold; [| constructor].
  apply Forall_forall. intros item _. apply no_dict_get_flat_dict_item.
Qed.

Lemma get_fold_leaves (q : key) (d : dict) :
  Forall (fun item =>
            forall k acc,
              get q (get_flat_dict_item k (snd item) acc)
              = match get q (rev (leaves_item k (snd item))) with
                | Some x => Some x
                | None => get q acc
                end) d ->
  forall acc,
    get q (fold_left (fun flat_dict item =>
                        get_flat_dict_item (fst item) (snd item) flat_dict)
                     d acc)
    = match get q (rev (leaves d)) with
      | Some x => Some x
      | None => get q acc
      end.
Proof.
  induction 1 as [| [k v] d Hv Hd IH]; intros acc; [reflexivity |].
  simpl. rewrite IH. unfold leaves. simpl. fold (leaves d).
  rewrite rev_app_distr, get_app.
  destruct (get q (rev (leaves d))); [reflexivity |].
  apply Hv.
Qed.

Lemma get_get_flat_dict_item (q : key) (v : pyval) :
  forall k acc,
    get q (get_flat_dict_item k v acc)
    = match get q (rev (leaves_item k v)) with
      | Some x => Some x
      | None => get q acc
      end.
Proof.
  induction v as [v Hv | d IH] using pyval_dict_ind; intros k acc.
  - rewrite (get_flat_dict_item_leaf k v acc Hv), (leaves_item_leaf k v Hv).
    rewrite get_setitem. simpl. destruct (key_eqb k q); reflexivity.
  - rewrite get_flat_dict_item_dict, leaves_item_dict, get_update.
    rewrite (@get_rev q _ (NoDup_get_flat_dict d)).
    unfold get_flat_dict. rewrite (@get_fold_leaves q d IH). simpl.
    destruct (get q (rev (leaves d))); reflexivity.
Qed.

Lemma get_get_flat_dict (q : key) (d : dict) :
  get q (get_flat_dict d) = get q (rev (leaves d)).
Proof.
  unfold get_flat_dict. rewrite get_fold_leaves.
  - simpl. destruct (get q (rev (leaves d))); reflexivity.
  - apply Forall_forall. intros item _. apply get_get_flat_dict_item.
Qed.

Lemma setitem_fresh (k : key) (v : pyval) (d : dict) :
  ~ In k (keys d) -> setitem k v d = d ++ [(k, v)].
Proof.
  induction d as [| [k0 v0] d IH]; intros Hn; [reflexivity |].
  simpl. destruct (key_eqb k0 k) eqn:E.
  - apply key_eqb_eq in E. exfalso. apply Hn. left. exact E.
  - f_equal. apply IH. intros Hin. apply Hn. right. exact Hin.
Qed.

Lemma get_flat_dict_of_flat (d : dict) :
  NoDup (keys d) -> no_dict_value d -> get_flat_dict d = d.
Proof.
  intros Hnd Hflat. unfold get_flat_dict.
  assert (H : forall acc, NoDup (keys (acc ++ d)) ->
            fold_left (fun flat_dict item =>
                         get_flat_dict_item (fst item) (snd item) flat_dict)
                      d acc = acc ++ d).
  { clear Hnd. induction Hflat as [| [k v] d Hv Hd IH]; intros acc Hnd.
    - simpl. rewrite app_nil_r. reflexivity.
    - simpl in *. rewrite (get_flat_dict_item_leaf k v acc Hv).
      unfold keys in Hnd. rewrite map_app in Hnd. simpl in Hnd.
      pose proof (NoDup_remove_2 _ _ _ Hnd) as Hnotin.
      rewrite setitem_fresh.
      + rewrite IH; [rewrite <- app_assoc; reflexivity |].
        unfold keys. rewrite <- app_assoc, map_app. exact Hnd.
      + intros Hin. apply Hnotin. apply in_or_app. left. exact Hin. }
  apply (H []). exact Hnd.
Qed.

(** X16. [get_flat_dict]: no value of the result is a dictionary; the
    result has each key once; the value under a key is the one of the last
    item with that key that is not a dictionary, at whatever depth it
    stands, so that items of different nested dictionaries that share a key
    replace one another and a key whose value is a dictionary is itself
    lost; and flattening a second time changes nothing. *)
Theorem get_flat_dict_flattens (d : dict) :
  let flat := get_flat_dict d in
  no_dict_value flat /\
  NoDup (keys flat) /\
  (forall k, get k flat = get k (rev (leaves d))) /\
  get_flat_dict flat = flat.
Proof.
  cbv zeta. split; [| split; [| split]].
  - apply no_dict_get_flat_dict.
  - apply NoDup_get_flat_dict.
  - intros k. apply get_get_flat_dict.
  - apply get_flat_dict_of_flat.
    + apply NoDup_get_flat_dict.
    + apply no_dict_get_flat_dict.
Qed.

Example get_flat_dict_examples :
  get_flat_dict
    [(KStr "model_type", PStr "clip");
     (KStr "text_config", PDict [(KStr "hidden_size", PInt 512);
                                 (KStr "vocab_size", PInt 49408)]);
     (KStr "vision_config", PDict [(KStr "hidden_size", PInt 768);
                                   (KStr "image_size", PInt 224)]);
     (KStr "id2label", PDict [(KInt 0, PStr "LABEL_0");
                              (KInt 1, PStr "LABEL_1")])]
  = [(KStr "model_type", PStr "clip");
     (KStr "hidden_size", PInt 768);
     (KStr "vocab_size", PInt 49408);
     (KStr "image_size", PInt 224);
     (KInt 0, PStr "LABEL_0");
     (KInt 1, PStr "LABEL_1")].
Proof. vm_compute. reflexivity. Qed.

End FlatDict.


Section Shapes.
Import TransformersUtils.

Lemma NoDup_get_flat_artifact_dict (a : artifact) :
  NoDup (keys (get_flat_artifact_dict a)).
Proof. destruct a; apply NoDup_get_flat_dict. Qed.

Lemma no_dict_get_flat_artifact_dict (a : artifact) :
  no_dict_value (get_flat_artifact_dict a).
Proof. destruct a; apply no_dict_get_flat_dict. Qed.

(** What one artifact gives for a key, if the artifact is there. *)
Definition lookup (a : option artifact) (k : key) : option pyval :=
  match a with
  | Some a => get k (get_flat_artifact_dict a)
  | None => None
  end.

Lemma get_flat_artifacts_dict (config processor : option artifact) (k : key) :
  get k (flat_artifacts_dict config processor)
  = match lookup processor k with
    | Some v => Some v
    | None => lookup config k
    end.
Proof.
  unfold flat_artifacts_dict, lookup.
  destruct processor as [p |], config as [c |];
    repeat rewrite get_update;
    repeat rewrite (@get_rev k _ (NoDup_get_flat_artifact_dict _));
    simpl;
    repeat match goal with
           | |- context [match get k (get_flat_artifact_dict ?a) with _ => _ end] =>
               destruct (get k (get_flat_artifact_dict a))
           end; reflexivity.
Qed.

Lemma no_dict_flat_artifacts_dict (config processor : option artifact) :
  no_dict_value (flat_artifacts_dict config processor).
Proof.
  unfold flat_artifacts_dict.
  destruct processor as [p |], config as [c |];
    repeat apply no_dict_update;
    try apply no_dict_get_flat_artifact_dict; constructor.
Qed.

Lemma get_no_dict (k : key) (d : dict) (v : pyval) :
  no_dict_value d -> get k d = Some v -> is_dict v = false.
Proof.
  induction 1 as [| [k' v'] d Hv Hd IH]; simpl; [discriminate |].
  destruct (key_eqb k' k); [intros [= <-]; exact Hv | exact IH].
Qed.

Lemma get_copy_other (k : key) (src dst : string) (flat shapes : dict) :
  key_eqb (KStr dst) k = false ->
  get k (copy src dst flat shapes) = get k shapes.
Proof.
  intros Hk. unfold copy. destruct (get (KStr src) flat); [| reflexivity].
  rewrite get_setitem, Hk. reflexivity.
Qed.

Lemma get_copy_same (src dst : string) (flat shapes : dict) :
  get (KStr dst) (copy src dst flat shapes)
  = match get (KStr src) flat with
    | Some v => Some v
    | None => get (KStr dst) shapes
    end.
Proof.
  unfold copy. destruct (get (KStr src) flat); [| reflexivity].
  rewrite get_setitem, key_eqb_refl. reflexivity.
Qed.

(** The steps of [extract_transformers_shapes_from_artifacts], named. *)
Definition text_step (flat : dict) : dict :=
  let shapes := copy "vocab_size" "vocab_size" flat [] in
  let shapes := copy "type_vocab_size" "type_vocab_size" flat shapes in
  let shapes :=
    if mem (KStr "max_position_embeddings") flat
    then copy "max_position_embeddings" "max_position_embeddings" flat shapes
    else copy "n_positions" "max_position_embeddings" flat shapes in
  copy "num_channels" "num_channels" flat shapes.

Definition image_size_of (flat : dict) : pyval :=
  match get (KStr "image_size") flat with
  | Some v => v
  | None =>
      match get (KStr "size") flat with
      | Some v => v
      | None => PNone
      end
  end.

Definition image_step (image_size : pyval) (shapes : dict) : result dict :=
  match image_size with
  | PBool _ | PInt _ | PFloat _ =>
      Ok (setitem (KStr "width") image_size
            (setitem (KStr "height") image_size shapes))
  | PList _ | PTuple _ =>
      height <- subscript image_size 0 ;;
      let shapes := setitem (KStr "height") height shapes in
      width <- subscript image_size 0 ;;
      Ok (setitem (KStr "width") width shapes)
  | PDict d =>
      if Nat.eqb (List.length d) 2 then
        height <- subscript (PList (map snd d)) 0 ;;
        let shapes := setitem (KStr "height") height shapes in
        width <- subscript (PList (map snd d)) 1 ;;
        Ok (setitem (KStr "width") width shapes)
      else if Nat.eqb (List.length d) 1 then
        height <- subscript (PList (map snd d)) 0 ;;
        let shapes := setitem (KStr "height") height shapes in
        width <- subscript (PList (map snd d)) 0 ;;
        Ok (setitem (KStr "width") width shapes)
      else Ok shapes
  | _ => Ok shapes
  end.

Definition input_step (flat shapes : dict) : result dict :=
  match get (KStr "input_size") flat with
  | Some input_size =>
      num_channels <- subscript input_size 0 ;;
      let shapes := setitem (KStr "num_channels") num_channels shapes in
      height <- subscript input_size 1 ;;
      let shapes := setitem (KStr "height") height shapes in
      width <- subscript input_size 2 ;;
      Ok (setitem (KStr "width") width shapes)
  | None => Ok shapes
  end.

Definition label_step (flat shapes : dict) : result dict :=
  match get (KStr "id2label") flat with
  | Some id2label =>
      n <- py_len id2label ;;
      Ok (setitem (KStr "num_labels") (PInt n) shapes)
  | None => Ok (copy "num_classes" "num_labels" flat shapes)
  end.

Definition tail_step (flat shapes : dict) : dict :=
  let shapes := copy "num_queries" "num_queries" flat shapes in
  let shapes := copy "patch_size" "patch_size" flat shapes in
  let shapes := copy "in_chans" "num_channels" flat shapes in
  let shapes := copy "image_seq_len" "image_seq_len" flat shapes in
  let shapes := copy "image_token_id" "image_token_id" flat shapes in
  let shapes := copy "spatial_merge_size" "spatial_merge_size" flat shapes in
  let shapes := copy "do_image_splitting" "do_image_splitting" flat shapes in
  copy "temporal_patch_size" "temporal_patch_size" flat shapes.

Lemma extract_unfold (config processor : option artifact) :
  extract_transformers_shapes_from_artifacts config processor
  = (let flat := flat_artifacts_dict config processor in
     shapes <- image_step (image_size_of flat) (text_step flat) ;;
     shapes <- input_step flat shapes ;;
     shapes <- label_step flat shapes ;;
     Ok (tail_step flat shapes)).
Proof. reflexivity. Qed.

(** The keys no step but the named one writes. *)
Definition size_or_label (k : key) : Prop :=
  k = KStr "height" \/ k = KStr "width" \/ k = KStr "num_labels" \/
  k = KStr "max_position_embeddings".

Lemma get_tail_step (k : key) (flat shapes : dict) :
  size_or_label k -> get k (tail_step flat shapes) = get k shapes.
Proof.
  intros [-> | [-> | [-> | ->]]]; unfold tail_step;
    repeat (rewrite get_copy_other by reflexivity); reflexivity.
Qed.

Lemma get_text_step_none (k : key) (flat : dict) :
  k = KStr "height" \/ k = KStr "width" \/ k = KStr "num_labels" ->
  get k (text_step flat) = None.
Proof.
  intros [-> | [-> | ->]]; unfold text_step;
    destruct (mem (KStr "max_position_embeddings") flat);
    repeat (rewrite get_copy_other by reflexivity); reflexivity.
Qed.

Lemma get_text_step_positions (flat : dict) :
  get (KStr "max_position_embeddings") (text_step flat)
  = match get (KStr "max_position_embeddings") flat with
    | Some v => Some v
    | None => get (KStr "n_positions") flat
    end.
Proof.
  unfold text_step, mem.
  rewrite get_copy_other by reflexivity.
  destruct (get (KStr "max_position_embeddings") flat) as [v |] eqn:E.
  - rewrite get_copy_same, E. reflexivity.
  - rewrite get_copy_same.
    destruct (get (KStr "n_positions") flat); [reflexivity |].
    repeat (rewrite get_copy_other by reflexivity). reflexivity.
Qed.

Lemma image_step_square (image_size : pyval) (shapes shapes' : dict) :
  is_dict image_size = false ->
  image_step image_size shapes = Ok shapes' ->
  get (KStr "height") shapes = get (KStr "width") shapes ->
  get (KStr "height") shapes' = get (KStr "width") shapes'.
Proof.
  intros Hd Hstep Hsq.
  destruct image_size; simpl in Hstep; try discriminate Hd;
    try (injection Hstep as <-; repeat rewrite get_setitem; simpl;
         first [reflexivity | exact Hsq]).
  - destruct l as [| x l]; simpl in Hstep; [discriminate Hstep |].
    injection Hstep as <-. repeat rewrite get_setitem. reflexivity.
  - destruct l as [| x l]; simpl in Hstep; [discriminate Hstep |].
    injection Hstep as <-. repeat rewrite get_setitem. reflexivity.
Qed.

Lemma image_step_other (k : key) (image_size : pyval) (shapes shapes' : dict) :
  k = KStr "num_labels" \/ k = KStr "max_position_embeddings" ->
  image_step image_size shapes = Ok shapes' ->
  get k shapes' = get k shapes.
Proof.
  intros Hk Hstep.
  assert (Hset : forall a b, get k (setitem (KStr "width") a
                                      (setitem (KStr "height") b shapes))
                             = get k shapes).
  { intros a b. repeat rewrite get_setitem.
    destruct Hk as [-> | ->]; reflexivity. }
  destruct image_size; simpl in Hstep;
    try (injection Hstep as <-; first [reflexivity | apply Hset]).
  - destruct l as [| x l]; simpl in Hstep; [discriminate Hstep |].
    injection Hstep as <-. apply Hset.
  - destruct l as [| x l]; simpl in Hstep; [discriminate Hstep |].
    injection Hstep as <-. apply Hset.
  - destruct d as [| [k1 v1] [| [k2 v2] [| item d]]]; simpl in Hstep;
      injection Hstep as <-; first [reflexivity | apply Hset].
Qed.

Lemma input_step_other (k : key) (flat shapes shapes' : dict) :
  k = KStr "num_labels" \/ k = KStr "max_position_embeddings" ->
  input_step flat shapes = Ok shapes' ->
  get k shapes' = get k shapes.
Proof.
  intros Hk. unfold input_step.
  destruct (get (KStr "input_size") flat) as [input_size |];
    [| intros [= <-]; reflexivity].
  destruct (subscript input_size 0) as [a |]; [| discriminate].
  destruct (subscript input_size 1) as [b |]; [| discriminate].
  destruct (subscript input_size 2) as [c |]; [| discriminate].
  simpl. intros [= <-]. repeat rewrite get_setitem.
  destruct Hk as [-> | ->]; reflexivity.
Qed.

Lemma label_step_other (k : key) (flat shapes shapes' : dict) :
  k = KStr "height" \/ k = KStr "width" \/
  k = KStr "max_position_embeddings" ->
  label_step flat shapes = Ok shapes' ->
  get k shapes' = get k shapes.
Proof.
  intros Hk. unfold label_step.
  destruct (get (KStr "id2label") flat) as [id2label |].
  - destruct (py_len id2label) as [n |]; [| discriminate].
    simpl. intros [= <-]. rewrite get_setitem.
    destruct Hk as [-> | [-> | ->]]; reflexivity.
  - intros [= <-]. apply get_copy_other.
    destruct Hk as [-> | [-> | ->]]; reflexivity.
Qed.

(** X17. [extract_transformers_shapes_from_artifacts], when it returns:
    for every key the value of the processor is read before that of the
    configuration; no value that is read is a dictionary, so that a size
    or an [id2label] given as a dictionary is never used as such;
    [max_position_embeddings] is taken before [n_positions]; without an
    [input_size] the height and the width of the result are the same
    value, a list or tuple [image_size] giving its first element for
    both; and [num_labels] is the length of an [id2label] that is not a
    dictionary, or else the [num_classes]. *)
Theorem extract_shapes_from_flat_values
        (config processor : option artifact) (shapes : dict) :
  extract_transformers_shapes_from_artifacts config processor = Ok shapes ->
  let flat := flat_artifacts_dict config processor in
  (forall k, get k flat = match lookup processor k with
                          | Some v => Some v
                          | None => lookup config k
                          end) /\
  no_dict_value flat /\
  get (KStr "max_position_embeddings") shapes
  = match get (KStr "max_position_embeddings") flat with
    | Some v => Some v
    | None => get (KStr "n_positions") flat
    end /\
  (get (KStr "input_size") flat = None ->
   get (KStr "height") shapes = get (KStr "width") shapes /\
   forall first rest,
     image_size_of flat = PList (first :: rest) \/
     image_size_of flat = PTuple (first :: rest) ->
     get (KStr "height") shapes = Some first) /\
  (forall v, get (KStr "num_labels") shapes = Some v ->
     (exists id2label n,
        get (KStr "id2label") flat = Some id2label /\
        is_dict id2label = false /\
        py_len id2label = Ok n /\ v = PInt n) \/
     (get (KStr "id2label") flat = None /\
      get (KStr "num_classes") flat = Some v)).
Proof.
  intros Hex flat. rewrite extract_unfold in Hex. cbv zeta in Hex.
  fold flat in Hex.
  pose proof (no_dict_flat_artifacts_dict config processor) as Hflat.
  fold flat in Hflat.
  destruct (image_step (image_size_of flat) (text_step flat))
    as [s1 |] eqn:E1; [| discriminate Hex].
  cbn [bind] in Hex.
  destruct (input_step flat s1) as [s2 |] eqn:E2; [| discriminate Hex].
  cbn [bind] in Hex.
  destruct (label_step flat s2) as [s3 |] eqn:E3; [| discriminate Hex].
  cbn [bind] in Hex. injection Hex as <-.
  assert (Himg : is_dict (image_size_of flat) = false).
  { unfold image_size_of.
    destruct (get (KStr "image_size") flat) as [v |] eqn:Ei;
      [exact (get_no_dict _ Hflat Ei) |].
    destruct (get (KStr "size") flat) as [v |] eqn:Es;
      [exact (get_no_dict _ Hflat Es) | reflexivity]. }
  split; [intros k; apply get_flat_artifacts_dict |].
  split; [exact Hflat |].
  split; [| split].
  - rewrite get_tail_step by (unfold size_or_label; tauto).
    rewrite (label_step_other (k := KStr "max_position_embeddings") flat s2)
      by (first [exact E3 | tauto]).
    rewrite (input_step_other (k := KStr "max_position_embeddings") flat s1)
      by (first [exact E2 | tauto]).
    rewrite (image_step_other (k := KStr "max_position_embeddings")
               (image_size_of flat) (text_step flat))
      by (first [exact E1 | tauto]).
    apply get_text_step_positions.
  - intros Hinput.
    assert (Hs2 : s2 = s1).
    { unfold input_step in E2. rewrite Hinput in E2.
      injection E2 as <-. reflexivity. }
    subst s2.
    assert (Hh : get (KStr "height") (tail_step flat s3)
                 = get (KStr "height") s1).
    { rewrite get_tail_step by (unfold size_or_label; tauto).
      apply (label_step_other flat s1); [tauto | exact E3]. }
    assert (Hw : get (KStr "width") (tail_step flat s3)
                 = get (KStr "width") s1).
    { rewrite get_tail_step by (unfold size_or_label; tauto).
      apply (label_step_other flat s1); [tauto | exact E3]. }
    rewrite Hh, Hw. split.
    + apply (image_step_square _ _ Himg E1).
      rewrite !get_text_step_none by tauto. reflexivity.
    + intros first rest Hsize.
      destruct Hsize as [Hsize | Hsize]; rewrite Hsize in E1;
        simpl in E1; injection E1 as <-;
        repeat rewrite get_setitem; reflexivity.
  - intros v Hv.
    rewrite get_tail_step in Hv by (unfold size_or_label; tauto).
    assert (Hbefore : get (KStr "num_labels") s2 = None).
    { rewrite (input_step_other (k := KStr "num_labels") flat s1)
        by (first [exact E2 | tauto]).
      rewrite (image_step_other (k := KStr "num_labels")
                 (image_size_of flat) (text_step flat))
        by (first [exact E1 | tauto]).
      apply get_text_step_none. tauto. }
    unfold label_step in E3.
    destruct (get (KStr "id2label") flat) as [id2label |] eqn:Eid.
    + left. destruct (py_len id2label) as [n |] eqn:El; [| discriminate E3].
      simpl in E3. injection E3 as <-.
      rewrite get_setitem in Hv. simpl in Hv. injection Hv as <-.
      exists id2label, n. split; [reflexivity |].
      split; [exact (get_no_dict _ Hflat Eid) |].
      split; [exact El | reflexivity].
    + right. injection E3 as <-. split; [reflexivity |].
      rewrite get_copy_same in Hv.
      destruct (get (KStr "num_classes") flat) as [c |]; [exact Hv |].
      rewrite Hbefore in Hv. discriminate Hv.
Qed.

(** A vision model: the configuration holds [image_size] as a number and
    [id2label] as a dictionary; the image processor holds [size] as a
    dictionary and [image_size] as a list. *)
Definition example_vit_config : artifact :=
  HasToDict
    [(KStr "model_type", PStr "vit");
     (KStr "image_size", PInt 224);
     (KStr "num_channels", PInt 3);
     (KStr "torch_dtype", PNone);
     (KStr "id2label", PDict [(KInt 0, PStr "LABEL_0");
                              (KInt 1, PStr "LABEL_1")])].

Definition example_vit_processor : artifact :=
  HasToDict
    [(KStr "image_size", PList [PInt 384; PInt 512]);
     (KStr "size", PDict [(KStr "height", PInt 224);
                          (KStr "width", PInt 224)])].

Definition example_vit_shapes : dict :=
  [(KStr "num_channels", PInt 3);
   (KStr "height", PInt 384);
   (KStr "width", PInt 384)].

Lemma extract_shapes_from_flat_values_witness :
  extract_transformers_shapes_from_artifacts
    (Some example_vit_config) (Some example_vit_processor)
  = Ok example_vit_shapes /\
  no_dict_value
    (flat_artifacts_dict (Some example_vit_config)
       (Some example_vit_processor)).
Proof.
  assert (Hex : extract_transformers_shapes_from_artifacts
                  (Some example_vit_config) (Some example_vit_processor)
                = Ok example_vit_shapes) by (vm_compute; reflexivity).
  split; [exact Hex |].
  exact (proj1 (proj2 (extract_shapes_from_flat_values _ _ Hex))).
Defined.

End Shapes.


(* ------------------------------------------------------------------ *)
(** ** run_experiment *)

Section RunExperiment.
Import Experiment.







(** Everything is configured, the run fails, the clean-up returns. *)
Definition example_failing_run : host :=
  make_host (Ok tt) (Ok tt) (Ok tt) (Ok tt) (Ok tt) (Ok tt)
            (Raise (RuntimeError "CUDA out of memory"))
            (Ok tt) (fun _ => Ok tt).


Example run_experiment_examples :
  run_experiment example_failing_run []
  = (Raise (RuntimeError "CUDA out of memory"),
     [ToObject; ConfigSaved; BackendAllocated; BackendConfigured;
      BenchmarkAllocated; BenchmarkConfigured; BenchmarkRun; BackendCleaned]) /\
  run_experiment
    (make_host (Ok tt) (Ok tt) (Ok tt) (Raise (ValueError "unknown option"))
               (Ok tt) (Ok tt) (Ok tt) (Ok tt) (fun _ => Ok tt)) []
  = (Raise (ValueError "unknown option"),
     [ToObject; ConfigSaved; BackendAllocated; BackendConfigured]) /\
  run_experiment
    (make_host (Ok tt) (Ok tt) (Ok tt) (Ok tt) (Ok tt) (Ok tt) (Ok tt) (Ok tt)
               (fun n => if Nat.eqb n 0
                         then Raise (AttributeError "pretrained_model")
                         else Ok tt)) []
  = (Raise (AttributeError "pretrained_model"),
     [ToObject; ConfigSaved; BackendAllocated; BackendConfigured;
      BenchmarkAllocated; BenchmarkConfigured; BenchmarkRun; BenchmarkSaved;
      BackendCleaned; BackendCleaned]).
Proof. split; [| split]; vm_compute; reflexivity. Qed.

End RunExperiment.
